(** * no-pod: lifecycle orchestrator, runtime driver and proxy control client

    A shallow embedding of [src/api/services/container.service.js],
    [src/api/services/docker.service.js], [src/api/services/fastpanel.service.js],
    of the routes of [container.routes.js] and of the catalog schema (the SQL
    file of the repository), followed by the properties of the orchestrator
    proved (or refuted) on it.

    Every [async] method becomes a function [Env -> ... -> M A], where [M] is a
    state-and-exception monad over a [World] made of the catalog (MySQL), the
    container runtime (docker daemon and the [users/] directories), the remote
    FastPanel control plane, the token cache of [FastPanelService], a clock and
    a chronological trace of console lines, HTTP requests, shell commands and
    timers.  A JavaScript exception does not roll anything back, so a thrown
    error carries the world reached so far.

    What the three external systems answer is not in the repository: it is
    drawn from [Env] (failure oracles and configuration) and from small models
    of the docker daemon and of the control plane, documented where they are
    defined. *)

From Stdlib Require Import ZArith List String Ascii Bool Lia DecimalString.
From Stdlib Require Import Sorted Permutation.
Import ListNotations.
Open Scope string_scope.
Open Scope Z_scope.

Set Implicit Arguments.

(** ** JavaScript values *)

(** [`${n}`] for a number. *)
Definition dec (z : Z) : string := NilZero.string_of_int (Z.to_int z).

(** [s] between double quotes. *)
Definition quoted (s : string) : string :=
  String (ascii_of_nat 34) (s ++ String (ascii_of_nat 34) EmptyString).

(** [s.includes(sub)] *)
Definition includes (sub s : string) : bool :=
  match String.index 0 sub s with Some _ => true | None => false end.

(** Truthiness of a value that is a string, [null] or [undefined]. *)
Definition truthy (s : option string) : bool :=
  match s with
  | Some s => negb (s =? EmptyString)%string
  | None => false
  end.

(** [a || b] on such values. *)
Definition js_or (a b : option string) : option string :=
  if truthy a then a else b.

(** The body of an HTTP error reply, as far as the code inspects it:
    [error.response.status] and [error.response.data.message]. *)
Record HttpResponse := {
  http_status : Z;
  http_message : option string
}.

(** A thrown [Error]: [error.message] and, for axios errors, [error.response]. *)
Record JsError := {
  message : string;
  response : option HttpResponse
}.

(** [new Error(msg)] *)
Definition Error (msg : string) : JsError :=
  {| message := msg; response := None |}.

(** A [Date]: milliseconds since the epoch, [None] for an Invalid Date. *)
Definition Date := option Z.

(** ** The catalog (MySQL schema) *)

(** [status ENUM('running', 'stopped', 'deleted')] *)
Inductive Status := running | stopped | deleted.

Definition Status_eqb (a b : Status) : bool :=
  match a, b with
  | running, running | stopped, stopped | deleted, deleted => true
  | _, _ => false
  end.

Record ServiceRow := {
  svc_name : string;
  default_port : Z;
  default_cpu : option string;
  default_memory : option string
}.

Record ContainerRow := {
  row_id : Z;                          (* id INT AUTO_INCREMENT PRIMARY KEY *)
  container_id : string;               (* UNIQUE *)
  container_identifier : string;       (* UNIQUE NOT NULL *)
  instance_name : string;
  service_name : string;
  subdomain : string;                  (* UNIQUE NOT NULL *)
  port : Z;                            (* UNIQUE NOT NULL *)
  status : Status;
  cpu_limit : option string;
  memory_limit : option string;
  data_path : string;
  fastpanel_site_id : option Z;
  created_at : Z;                      (* DEFAULT CURRENT_TIMESTAMP *)
  updated_at : Z                       (* ... ON UPDATE CURRENT_TIMESTAMP *)
}.

Record PortRow := {
  pa_port : Z;                         (* UNIQUE NOT NULL *)
  pa_container_id : option Z;          (* owner, NULL when free *)
  is_available : bool
}.

Record Catalog := {
  services : list ServiceRow;
  containers : list ContainerRow;
  port_assignments : list PortRow;
  auto_increment : Z                   (* next id of [containers] *)
}.

(** ** The container runtime: docker daemon and working directories *)

Record DockerContainer := {
  Name : string;
  Id : string;
  Running : bool                       (* State is "running" or "exited" *)
}.

Record Runtime := {
  docker_containers : list DockerContainer;   (* newest first *)
  next_docker_id : Z;
  dirs : list string                          (* directories that exist *)
}.

(** ** The remote control plane (FastPanel) *)

Record Site := {
  site_id : Z;
  site_domain : string;
  site_upstreams : list string
}.

Record Panel := {
  dns_domains : list (Z * string);
  sites : list Site;
  certificates : list (Z * string);
  next_panel_id : Z
}.

(** [this.token], [this.tokenExpire] of [FastPanelService]. *)
Record Session := {
  token : option string;
  tokenExpire : option Date
}.

(** ** Observable events *)

Inductive Request :=
| POST_login
| POST_dns_domains (domain : string)
| PUT_master (domain upstream : string)
| GET_master
| PUT_site_delete (id : Z)
| POST_certificates (domain : string) (virtualhost : Z).

Inductive FsCall := Mkdir | CopyFile | ReadFile | WriteFile | Rm | Archive.

Inductive ShellCall := Chown | ComposeUp | ComposeDown.

Inductive Event :=
| Log (line : string)                  (* console.log / warn / error *)
| Http (r : Request)                   (* a request sent through axios *)
| Exec (command cwd : string)          (* execAsync *)
| Fs (call : FsCall) (path : string)   (* fs.promises, archiver *)
| DockerCall (op name : string)        (* a dockerode call on a container *)
| Timer (ms : Z).                      (* setTimeout awaited *)

Record World := {
  catalog : Catalog;
  runtime : Runtime;
  panel : Panel;
  session : Session;
  clock : Z;                           (* milliseconds since the epoch *)
  trace : list Event                   (* oldest first *)
}.

Definition set_catalog (c : Catalog) (w : World) : World :=
  {| catalog := c; runtime := runtime w; panel := panel w;
     session := session w; clock := clock w; trace := trace w |}.
Definition set_runtime (r : Runtime) (w : World) : World :=
  {| catalog := catalog w; runtime := r; panel := panel w;
     session := session w; clock := clock w; trace := trace w |}.
Definition set_panel (p : Panel) (w : World) : World :=
  {| catalog := catalog w; runtime := runtime w; panel := p;
     session := session w; clock := clock w; trace := trace w |}.
Definition set_session (s : Session) (w : World) : World :=
  {| catalog := catalog w; runtime := runtime w; panel := panel w;
     session := s; clock := clock w; trace := trace w |}.
Definition set_clock (t : Z) (w : World) : World :=
  {| catalog := catalog w; runtime := runtime w; panel := panel w;
     session := session w; clock := t; trace := trace w |}.
Definition add_event (ev : Event) (w : World) : World :=
  {| catalog := catalog w; runtime := runtime w; panel := panel w;
     session := session w; clock := clock w; trace := trace w ++ [ev] |}.

(** ** The environment: configuration and what the outside world answers *)

Inductive Query :=
| SELECT_service | SELECT_existing | SELECT_available_port
| INSERT_container | UPDATE_port_used
| SELECT_container | UPDATE_status | UPDATE_port_free.

Record Env := {
  BASE_DOMAIN : string;                (* process.env.BASE_DOMAIN *)
  cwd : string;                        (* process.cwd() *)
  win32 : bool;                        (* process.platform === 'win32' *)
  (* [Some msg]: the call fails with an error of that message *)
  db_error : Query -> option string;
  (* the [=] of MySQL on strings: it is that of the collation of the column,
     and the schema names none, so it is the default of the server (which
     ignores case in MySQL 8.0, unless configured otherwise) *)
  sql_equal : string -> string -> bool;
  fs_error : FsCall -> option string;
  shell_error : ShellCall -> option string;
  docker_error : string -> option string;
  http_error : Request -> option string;   (* no reply at all: network failure *)
  (* the reply of POST /login: response.data.token, response.data.expire *)
  login_token : option string;
  login_expire : Date;
  (* container.logs, Date.toISOString and archive.pointer are library code *)
  docker_logs : string -> string;
  toISOString : Z -> string;
  archive_size : string -> Z
}.

(** ** The monad of [async] methods *)

Inductive Result (A : Type) :=
| Ok (a : A)
| Throw (e : JsError).
Arguments Ok {A} a.
Arguments Throw {A} e.

Definition M (A : Type) := World -> Result A * World.

Definition ret {A} (a : A) : M A := fun w => (Ok a, w).

Definition throw {A} (e : JsError) : M A := fun w => (Throw e, w).

Definition bind {A B} (m : M A) (k : A -> M B) : M B :=
  fun w =>
    match m w with
    | (Ok a, w') => k a w'
    | (Throw e, w') => (Throw e, w')
    end.

(** [try { m } catch (error) { h error }] *)
Definition try_catch {A} (m : M A) (h : JsError -> M A) : M A :=
  fun w =>
    match m w with
    | (Ok a, w') => (Ok a, w')
    | (Throw e, w') => h e w'
    end.

Notation "x <- m ;; k" := (bind m (fun x => k))
  (at level 61, m at next level, right associativity).
Notation "m ;;; k" := (bind m (fun _ => k))
  (at level 61, right associativity).

Definition gets {A} (f : World -> A) : M A := fun w => (Ok (f w), w).
Definition modify (f : World -> World) : M unit := fun w => (Ok tt, f w).
Definition emit (ev : Event) : M unit := modify (add_event ev).
Definition console (line : string) : M unit := emit (Log line).

(** An external call that the environment may make fail. *)
Definition may_fail (err : option string) : M unit :=
  match err with
  | Some msg => throw (Error msg)
  | None => ret tt
  end.

(** ** Catalog statements

    [pool.query] runs one statement in autocommit mode; the code opens no
    transaction anywhere.  The UNIQUE keys of [containers] are enforced by the
    insert.  Strings are compared exactly (a binary collation), an id is the
    integer that the route parameter denotes; column length limits and
    foreign keys are not modelled (the service of a new row has just been
    looked up), any other failure of a statement comes from [db_error]. *)

Module pool.

(** [CURRENT_TIMESTAMP], in seconds. *)
Definition CURRENT_TIMESTAMP (w : World) : Z := clock w / 1000.

(** [pool.query(sql)], [run] being the effect of the statement. *)
Definition query {A} (e : Env) (q : Query)
    (run : Z -> Catalog -> Result A * Catalog) : M A :=
  fun w =>
    match db_error e q with
    | Some msg => (Throw (Error msg), w)
    | None =>
        let (r, c) := run (CURRENT_TIMESTAMP w) (catalog w) in
        (r, set_catalog c w)
    end.

Definition read {A} (f : Catalog -> A) : Z -> Catalog -> Result A * Catalog :=
  fun _ c => (Ok (f c), c).

Definition write (f : Z -> Catalog -> Catalog)
    : Z -> Catalog -> Result unit * Catalog :=
  fun now c => (Ok tt, f now c).

(** [SELECT * FROM services WHERE name = ?]; here and below [equal] is the
    [=] of MySQL on the strings of a column. *)
Definition select_service (equal : string -> string -> bool)
    (name : string) (c : Catalog) : list ServiceRow :=
  filter (fun s => equal (svc_name s) name) (services c).

(** [SELECT * FROM containers WHERE container_identifier = ? AND status != "deleted"] *)
Definition select_existing (equal : string -> string -> bool)
    (ident : string) (c : Catalog) : list ContainerRow :=
  filter (fun r => equal (container_identifier r) ident
                   && negb (Status_eqb (status r) deleted))
         (containers c).

(** [ORDER BY port LIMIT 1] over the rows kept by the WHERE clause. *)
Fixpoint lowest (rows : list PortRow) : option PortRow :=
  match rows with
  | [] => None
  | r :: rest =>
      match lowest rest with
      | Some m => if pa_port m <? pa_port r then Some m else Some r
      | None => Some r
      end
  end.

(** [SELECT port FROM port_assignments WHERE is_available = TRUE ORDER BY port LIMIT 1] *)
Definition select_available_port (c : Catalog) : list Z :=
  match lowest (filter is_available (port_assignments c)) with
  | Some r => [pa_port r]
  | None => []
  end.

(** [SELECT * FROM containers WHERE id = ?] *)
Definition select_container (id : Z) (c : Catalog) : list ContainerRow :=
  filter (fun r => row_id r =? id) (containers c).

(** The UNIQUE keys of [containers] that a new row must not repeat. *)
Definition duplicate_key (equal : string -> string -> bool)
    (n : ContainerRow) (c : Catalog) : bool :=
  existsb (fun r => equal (container_id r) (container_id n)
                    || equal (container_identifier r) (container_identifier n)
                    || equal (subdomain r) (subdomain n)
                    || (port r =? port n))
          (containers c).

(** [INSERT INTO containers (...) VALUES (?, ?, ?, ?, ?, ?, 'running', ?, ?, ?, ?)];
    the result is [insertId]. *)
Definition insert_container (equal : string -> string -> bool)
    (cid ident iname sname sub : string) (p : Z)
    (cpu mem : option string) (dpath : string) (site : option Z)
    : Z -> Catalog -> Result Z * Catalog :=
  fun now c =>
    let n := {| row_id := auto_increment c; container_id := cid;
                container_identifier := ident; instance_name := iname;
                service_name := sname; subdomain := sub; port := p;
                status := running; cpu_limit := cpu; memory_limit := mem;
                data_path := dpath; fastpanel_site_id := site;
                created_at := now; updated_at := now |} in
    if duplicate_key equal n c then (Throw (Error "Duplicate entry"), c)
    else (Ok (row_id n),
          {| services := services c;
             containers := containers c ++ [n];
             port_assignments := port_assignments c;
             auto_increment := auto_increment c + 1 |}).

Definition set_ports (ps : list PortRow) (c : Catalog) : Catalog :=
  {| services := services c; containers := containers c;
     port_assignments := ps; auto_increment := auto_increment c |}.

Definition set_containers (rs : list ContainerRow) (c : Catalog) : Catalog :=
  {| services := services c; containers := rs;
     port_assignments := port_assignments c;
     auto_increment := auto_increment c |}.

(** [UPDATE port_assignments SET is_available = FALSE, container_id = ? WHERE port = ?] *)
Definition update_port_used (owner p : Z) (c : Catalog) : Catalog :=
  set_ports
    (map (fun r => if pa_port r =? p
                   then {| pa_port := pa_port r; pa_container_id := Some owner;
                           is_available := false |}
                   else r)
         (port_assignments c)) c.

(** [UPDATE port_assignments SET is_available = TRUE, container_id = NULL WHERE container_id = ?] *)
Definition update_port_free (owner : Z) (c : Catalog) : Catalog :=
  set_ports
    (map (fun r => match pa_container_id r with
                   | Some o =>
                       if o =? owner
                       then {| pa_port := pa_port r; pa_container_id := None;
                               is_available := true |}
                       else r
                   | None => r
                   end)
         (port_assignments c)) c.

(** One row under [UPDATE containers SET status = ?]: [updated_at] follows
    CURRENT_TIMESTAMP when the stored value changes. *)
Definition with_status (s : Status) (now : Z) (r : ContainerRow) : ContainerRow :=
  {| row_id := row_id r; container_id := container_id r;
     container_identifier := container_identifier r;
     instance_name := instance_name r; service_name := service_name r;
     subdomain := subdomain r; port := port r; status := s;
     cpu_limit := cpu_limit r; memory_limit := memory_limit r;
     data_path := data_path r; fastpanel_site_id := fastpanel_site_id r;
     created_at := created_at r;
     updated_at := if Status_eqb (status r) s then updated_at r else now |}.

(** [UPDATE containers SET status = ? WHERE id = ?] *)
Definition update_status (s : Status) (id : Z) (now : Z) (c : Catalog) : Catalog :=
  set_containers
    (map (fun r => if row_id r =? id then with_status s now r else r)
         (containers c)) c.

(** A statement whose failure is decided by [err]. *)
Definition statement {A} (err : option string)
    (run : Z -> Catalog -> Result A * Catalog) : M A :=
  fun w =>
    match err with
    | Some msg => (Throw (Error msg), w)
    | None =>
        let (r, c) := run (CURRENT_TIMESTAMP w) (catalog w) in
        (r, set_catalog c w)
    end.

(** [ORDER BY created_at DESC]; rows of equal [created_at], whose order MySQL
    leaves open, stay in table order. *)
Fixpoint insert_newest (r : ContainerRow) (sorted : list ContainerRow)
    : list ContainerRow :=
  match sorted with
  | [] => [r]
  | x :: rest =>
      if created_at r <? created_at x then x :: insert_newest r rest
      else r :: sorted
  end.

Definition newest_first (rows : list ContainerRow) : list ContainerRow :=
  fold_right insert_newest [] rows.

(** The ENUM column [status] as the string it is compared as. *)
Definition status_name (s : Status) : string :=
  match s with
  | running => "running"
  | stopped => "stopped"
  | deleted => "deleted"
  end.

(** [' AND column = ?'], appended when the filter is truthy; [equal] is the
    [=] of MySQL on strings, which depends on the collation of the column. *)
Definition and_equals (equal : string -> string -> bool)
    (filter : option string) (column : string) : bool :=
  if truthy filter
  then match filter with Some v => equal column v | None => true end
  else true.

(** [SELECT * FROM containers WHERE status != "deleted" [AND instance_name = ?]
     [AND service_name = ?] [AND status = ?] ORDER BY created_at DESC] *)
Definition listed (equal : string -> string -> bool)
    (iname sname st : option string) (r : ContainerRow) : bool :=
  negb (Status_eqb (status r) deleted)
  && and_equals equal iname (instance_name r)
  && and_equals equal sname (service_name r)
  && and_equals equal st (status_name (status r)).

Definition select_list (equal : string -> string -> bool)
    (iname sname st : option string) (c : Catalog) : list ContainerRow :=
  newest_first (filter (listed equal iname sname st) (containers c)).

End pool.

(** The environment together with the fate of the listing statement of
    [listContainers]. *)
Record Host := {
  host_env :> Env;
  list_error : option string
}.

(** ** docker.service.js

    The docker daemon is modelled as a list of named containers: a compose
    project brought up in [users/<identifier>] runs one container named
    <identifier> (the templates set [container_name: ${CONTAINER_NAME}]);
    [stop] and [start] answer 404 for an unknown name and 304 for a container
    already in the requested state, both of which dockerode raises. *)

Module dockerService.

Record ContainerInfo := {
  containerId : string;
  containerIdentifier : string;
  dataPath : string;
  state : bool                       (* containers[0].State is "running" *)
}.

Record DockerStatus := {
  ds_status : string;
  ds_running : bool
}.

Record Backup := {
  backupFile : string;
  size : Z;
  timestamp : string
}.

(** [path.join(process.cwd(), 'users', containerIdentifier)] *)
Definition containerDirOf (e : Env) (ident : string) : string :=
  cwd e ++ "/users/" ++ ident.

Definition named (name : string) (c : DockerContainer) : bool :=
  (Name c =? name)%string.

Definition find_container (name : string) (r : Runtime) : option DockerContainer :=
  find (named name) (docker_containers r).

Definition set_containers (cs : list DockerContainer) (r : Runtime) : Runtime :=
  {| docker_containers := cs; next_docker_id := next_docker_id r; dirs := dirs r |}.

Definition set_dirs (ds : list string) (r : Runtime) : Runtime :=
  {| docker_containers := docker_containers r;
     next_docker_id := next_docker_id r; dirs := ds |}.

Definition remove_container (name : string) (r : Runtime) : Runtime :=
  set_containers (filter (fun c => negb (named name c)) (docker_containers r)) r.

Definition set_running (name : string) (b : bool) (r : Runtime) : Runtime :=
  set_containers
    (map (fun c => if named name c
                   then {| Name := Name c; Id := Id c; Running := b |} else c)
         (docker_containers r)) r.

(** A new container of that name, with an id of the daemon's choosing. *)
Definition run_container (name : string) (r : Runtime) : Runtime :=
  {| docker_containers :=
       {| Name := name; Id := "docker-" ++ dec (next_docker_id r);
          Running := true |} :: docker_containers r;
     next_docker_id := next_docker_id r + 1;
     dirs := dirs r |}.

Definition dir_exists (d : string) (r : Runtime) : bool :=
  existsb (String.eqb d) (dirs r).

(** A call of [fs.promises] (or of the archiver) on [path]. *)
Definition fs_call (e : Env) (call : FsCall) (path : string) : M unit :=
  emit (Fs call path) ;;;
  may_fail (fs_error e call).

(** [fs.mkdir(d, { recursive: true })] *)
Definition mkdir (e : Env) (d : string) : M unit :=
  fs_call e Mkdir d ;;;
  modify (fun w => if dir_exists d (runtime w) then w
                   else set_runtime (set_dirs (dirs (runtime w) ++ [d]) (runtime w)) w).

(** [fs.rm(d, { recursive: true, force: true })]: [d] and all below it. *)
Definition rm (e : Env) (d : string) : M unit :=
  fs_call e Rm d ;;;
  modify (fun w =>
    set_runtime
      (set_dirs (filter (fun p => negb ((p =? d)%string || String.prefix (d ++ "/") p))
                        (dirs (runtime w)))
                (runtime w)) w).

(** [execAsync(cmd, { cwd })]: fails when [cwd] does not exist. *)
Definition execAsync (e : Env) (call : ShellCall) (cmd dir : string)
    (effect : Runtime -> Runtime) : M unit :=
  emit (Exec cmd dir) ;;;
  may_fail (shell_error e call) ;;;
  present <- gets (fun w => dir_exists dir (runtime w)) ;;
  if present : bool then modify (fun w => set_runtime (effect (runtime w)) w)
  else throw (Error ("spawn ENOENT: " ++ dir)).

(** [docker compose up -d]: the project's container is created, or started
    when it is already there. *)
Definition compose_up (name : string) (r : Runtime) : Runtime :=
  match find_container name r with
  | Some _ => set_running name true r
  | None => run_container name r
  end.

(** A dockerode call on [docker.getContainer(name)]. *)
Definition docker_call (e : Env) (op name : string)
    (check : DockerContainer -> option string)
    (effect : Runtime -> Runtime) : M unit :=
  emit (DockerCall op name) ;;;
  may_fail (docker_error e op) ;;;
  found <- gets (fun w => find_container name (runtime w)) ;;
  match found with
  | None => throw (Error ("(HTTP code 404) no such container - " ++ name))
  | Some c =>
      match check c with
      | Some msg => throw (Error msg)
      | None => modify (fun w => set_runtime (effect (runtime w)) w)
      end
  end.

Definition cleanupFailedContainer (e : Env) (ident containerDir : string) : M unit :=
  try_catch
    (try_catch
       (docker_call e "remove" ident (fun _ => None) (remove_container ident) ;;;
        console ("✅ Removed failed container: " ++ ident))
       (fun _ => ret tt) ;;;
     rm e containerDir ;;;
     console ("✅ Removed failed container directory: " ++ containerDir))
    (fun error => console ("⚠️  Cleanup error: " ++ message error)).

(** The rendered text of the .env file is not modelled, only that the
    template is read. *)
Definition generateEnvFile (e : Env) (instanceName serviceName sub : string)
    (p : Z) : M unit :=
  fs_call e ReadFile (cwd e ++ "/services/" ++ serviceName ++ "/.env.template").

(** [docker.listContainers({ all: true, filters: { name: [ident] } })]:
    the daemon matches names by substring. *)
Definition listContainers (ident : string) (r : Runtime) : list DockerContainer :=
  filter (fun c => includes ident (Name c)) (docker_containers r).

Definition createContainer (e : Env) (instanceName serviceName sub : string)
    (p : Z) (resources : option string * option string) : M ContainerInfo :=
  let ident := instanceName ++ "-" ++ serviceName in
  let containerDir := containerDirOf e ident in
  let dataDir := containerDir ++ "/data" in
  try_catch
    (mkdir e containerDir ;;;
     mkdir e dataDir ;;;
     (if win32 e then ret tt
      else try_catch
             (emit (Exec ("chown -R 1000:1000 " ++ quoted dataDir) (cwd e)) ;;;
              may_fail (shell_error e Chown))
             (fun error =>
                console ("⚠️  Could not set data directory permissions: "
                         ++ message error))) ;;;
     fs_call e CopyFile (containerDir ++ "/docker-compose.yaml") ;;;
     generateEnvFile e instanceName serviceName sub p ;;;
     fs_call e WriteFile (containerDir ++ "/.env") ;;;
     execAsync e ComposeUp "docker compose up -d" containerDir (compose_up ident) ;;;
     found <- gets (fun w => listContainers ident (runtime w)) ;;
     match found with
     | [] => throw (Error "Container created but not found")
     | c :: _ =>
         ret {| containerId := Id c; containerIdentifier := ident;
                dataPath := dataDir; state := Running c |}
     end)
    (fun error =>
       console "❌ Container creation failed, cleaning up..." ;;;
       cleanupFailedContainer e ident containerDir ;;;
       throw error).

Definition stopContainer (e : Env) (ident : string) : M string :=
  docker_call e "stop" ident
    (fun c => if Running c then None
              else Some "(HTTP code 304) container already stopped")
    (set_running ident false) ;;;
  ret "stopped".

Definition startContainer (e : Env) (ident : string) : M string :=
  docker_call e "start" ident
    (fun c => if Running c then Some "(HTTP code 304) container already started"
              else None)
    (set_running ident true) ;;;
  ret "running".

Definition restartContainer (e : Env) (ident : string) : M string :=
  docker_call e "restart" ident (fun _ => None) (set_running ident true) ;;;
  ret "running".

Definition deleteContainer (e : Env) (ident : string) : M string :=
  let containerDir := containerDirOf e ident in
  try_catch
    (execAsync e ComposeDown "docker compose down -v" containerDir
               (remove_container ident))
    (fun error => console ("Error stopping container: " ++ message error)) ;;;
  rm e containerDir ;;;
  ret "deleted".

(** [docker compose down && docker compose up -d]: one shell command; a
    failure of the second half leaves the project down. *)
Definition redeployContainer (e : Env) (ident : string) : M string :=
  let containerDir := containerDirOf e ident in
  emit (Exec "docker compose down && docker compose up -d" containerDir) ;;;
  may_fail (shell_error e ComposeDown) ;;;
  present <- gets (fun w => dir_exists containerDir (runtime w)) ;;
  (if present : bool then ret tt
   else throw (Error ("spawn ENOENT: " ++ containerDir))) ;;;
  modify (fun w => set_runtime (remove_container ident (runtime w)) w) ;;;
  may_fail (shell_error e ComposeUp) ;;;
  modify (fun w => set_runtime (run_container ident (runtime w)) w) ;;;
  ret "redeployed".

Definition getContainerStatus (e : Env) (ident : string) : M DockerStatus :=
  try_catch
    (docker_call e "inspect" ident (fun _ => None) (fun r => r) ;;;
     found <- gets (fun w => find_container ident (runtime w)) ;;
     match found with
     | Some c =>
         ret {| ds_status := if Running c then "running" else "exited";
                ds_running := Running c |}
     | None => throw (Error "no such container")
     end)
    (fun _ => ret {| ds_status := "not_found"; ds_running := false |}).

Definition backupContainer (e : Env) (ident : string) : M Backup :=
  let dataDir := containerDirOf e ident ++ "/data" in
  let backupDir := cwd e ++ "/backups" in
  mkdir e backupDir ;;;
  now <- gets clock ;;
  let ts := toISOString e now in
  let file := backupDir ++ "/" ++ ident ++ "_" ++ ts ++ ".tar.gz" in
  fs_call e Archive file ;;;
  ret {| backupFile := file; size := archive_size e dataDir; timestamp := ts |}.

Definition getContainerLogs (e : Env) (ident : string) (lines : Z) : M string :=
  try_catch
    (docker_call e "logs" ident (fun _ => None) (fun r => r) ;;;
     ret (docker_logs e ident))
    (fun error => throw (Error ("Failed to get logs: " ++ message error))).

End dockerService.

(** ** fastpanel.service.js

    The control plane keeps DNS domains, sites and certificates.  It answers
    409 to a domain or a site that is already registered and 404 to the
    deletion of an unknown site; [http_error] makes a request fail before it
    reaches the control plane.  Bearer tokens are not checked. *)

Module fastpanelService.

Record DomainResult := {
  domainId : option Z;
  dom_domain : string;
  dom_status : string
}.

Record Certificate := {
  certificateId : Z;
  cert_domain : string;
  cert_status : string
}.

Record SiteDescriptor := {
  siteId : Z;
  domain : string;
  site_status : string;
  upstream : string;
  ssl : option Certificate
}.

Record DeleteResult := {
  del_siteId : option Z;
  del_domain : option string;
  del_status : string
}.

(** *** The control plane *)

Definition http_reply (code : Z) (msg : string) : JsError :=
  {| message := "Request failed with status code " ++ dec code;
     response := Some {| http_status := code; http_message := Some msg |} |}.

Definition has_domain (d : string) (p : Panel) : bool :=
  existsb (fun x => (snd x =? d)%string) (dns_domains p).

Definition serve_add_domain (d : string) (p : Panel) : Result Z * Panel :=
  if has_domain d p then (Throw (http_reply 409 "Domain already exists"), p)
  else (Ok (next_panel_id p),
        {| dns_domains := dns_domains p ++ [(next_panel_id p, d)];
           sites := sites p; certificates := certificates p;
           next_panel_id := next_panel_id p + 1 |}).

Definition serve_create_site (d up : string) (p : Panel) : Result Z * Panel :=
  if existsb (fun s => (site_domain s =? d)%string) (sites p)
  then (Throw (http_reply 409 "Site already exists"), p)
  else (Ok (next_panel_id p),
        {| dns_domains := dns_domains p;
           sites := sites p ++ [{| site_id := next_panel_id p; site_domain := d;
                                   site_upstreams := [up] |}];
           certificates := certificates p;
           next_panel_id := next_panel_id p + 1 |}).

Definition serve_list_sites (p : Panel) : Result (list Site) * Panel :=
  (Ok (sites p), p).

Definition serve_delete_site (id : Z) (p : Panel) : Result unit * Panel :=
  if existsb (fun s => site_id s =? id) (sites p)
  then (Ok tt,
        {| dns_domains := dns_domains p;
           sites := filter (fun s => negb (site_id s =? id)) (sites p);
           certificates := certificates p;
           next_panel_id := next_panel_id p |})
  else (Throw (http_reply 404 "Site not found"), p).

Definition serve_create_certificate (d : string) (vhost : Z) (p : Panel)
    : Result Z * Panel :=
  if existsb (fun s => site_id s =? vhost) (sites p)
  then (Ok (next_panel_id p),
        {| dns_domains := dns_domains p; sites := sites p;
           certificates := certificates p ++ [(next_panel_id p, d)];
           next_panel_id := next_panel_id p + 1 |})
  else (Throw (http_reply 404 "Site not found"), p).

(** [this.client.<method>(path, ...)] *)
Definition request {A} (e : Env) (r : Request)
    (serve : Panel -> Result A * Panel) : M A :=
  emit (Http r) ;;;
  may_fail (http_error e r) ;;;
  fun w => let (a, p) := serve (panel w) in (a, set_panel p w).

(** *** The client *)

Definition login (e : Env) : M (option string) :=
  try_catch
    (request e POST_login (fun p => (Ok tt, p)) ;;;
     modify (set_session {| token := login_token e;
                            tokenExpire := Some (login_expire e) |}) ;;;
     console "✅ FastPanel login successful" ;;;
     gets (fun w => token (session w)))
    (fun error =>
       console ("❌ FastPanel login failed: " ++ message error) ;;;
       throw (Error ("FastPanel login failed: " ++ message error))).

(** [this.tokenExpire - now > 5 * 60 * 1000]; a comparison with NaN is false. *)
Definition fresh_enough (expire : Date) (now : Z) : bool :=
  match expire with
  | Some t => 5 * 60 * 1000 <? t - now
  | None => false
  end.

Definition getToken (e : Env) : M (option string) :=
  s <- gets session ;;
  now <- gets clock ;;
  match (if truthy (token s) then tokenExpire s else None) with
  | Some expire =>
      if fresh_enough expire now then ret (token s) else login e
  | None => login e
  end.

(** [error.response?.status === 409 ||
     error.response?.data?.message?.includes('already exists')] *)
Definition already_exists (error : JsError) : bool :=
  match response error with
  | Some r =>
      (http_status r =? 409)
      || match http_message r with
         | Some m => includes "already exists" m
         | None => false
         end
  | None => false
  end.

Definition addDomain (e : Env) (d : string) : M DomainResult :=
  try_catch
    (getToken e ;;;
     id <- request e (POST_dns_domains d) (serve_add_domain d) ;;
     console ("✅ FastPanel DNS domain added: " ++ d) ;;;
     ret {| domainId := Some id; dom_domain := d; dom_status := "created" |})
    (fun error =>
       if already_exists error then
         console ("⚠️  Domain " ++ d ++ " already exists, continuing...") ;;;
         ret {| domainId := None; dom_domain := d; dom_status := "exists" |}
       else
         console ("❌ FastPanel add domain error: " ++ message error) ;;;
         throw (Error ("Failed to add FastPanel domain: " ++ message error))).

Definition createSSL (e : Env) (d : string) (site : Z) : M (option Certificate) :=
  try_catch
    (getToken e ;;;
     id <- request e (POST_certificates d site) (serve_create_certificate d site) ;;
     console ("✅ FastPanel SSL certificate created for: " ++ d) ;;;
     ret (Some {| certificateId := id; cert_domain := d;
                  cert_status := "creating" |}))
    (fun error =>
       console ("❌ FastPanel SSL creation error: " ++ message error) ;;;
       console "⚠️  Continuing without SSL..." ;;;
       ret None).

(** [await new Promise(resolve => setTimeout(resolve, ms))] *)
Definition setTimeout (ms : Z) : M unit :=
  emit (Timer ms) ;;;
  modify (fun w => set_clock (clock w + ms) w).

Definition createSite (e : Env) (sub : string) (p : Z) : M SiteDescriptor :=
  try_catch
    (getToken e ;;;
     let d := sub ++ "." ++ BASE_DOMAIN e in
     addDomain e d ;;;
     let up := "http://127.0.0.1:" ++ dec p in
     id <- request e (PUT_master d up) (serve_create_site d up) ;;
     console ("✅ FastPanel site created: " ++ d ++ " → port " ++ dec p) ;;;
     console "⏳ Waiting 5 seconds for DNS propagation..." ;;;
     setTimeout 5000 ;;;
     cert <- createSSL e d id ;;
     ret {| siteId := id; domain := d; site_status := "created";
            upstream := up; ssl := cert |})
    (fun error =>
       console ("❌ FastPanel create site error: " ++ message error) ;;;
       throw (Error ("Failed to create FastPanel site: " ++ message error))).

Definition deleteSite (e : Env) (d : string) : M DeleteResult :=
  try_catch
    (getToken e ;;;
     all <- request e GET_master serve_list_sites ;;
     match find (fun s => (site_domain s =? d)%string) all with
     | None =>
         console ("⚠️  Site " ++ d ++ " not found in FastPanel") ;;;
         ret {| del_siteId := None; del_domain := None; del_status := "not_found" |}
     | Some site =>
         request e (PUT_site_delete (site_id site)) (serve_delete_site (site_id site)) ;;;
         console ("✅ FastPanel site deleted: " ++ d) ;;;
         ret {| del_siteId := Some (site_id site); del_domain := Some d;
                del_status := "deleted" |}
     end)
    (fun error =>
       console ("❌ FastPanel delete site error: " ++ message error) ;;;
       throw (Error ("Failed to delete FastPanel site: " ++ message error))).

(** *** Methods no other service calls *)

Record UpdateResult := {
  upd_siteId : Z;
  upd_domain : string;
  upd_port : Z;
  upd_status : string
}.


(** PUT /api/master with the body of an existing site (its id included):
    the upstreams of that site are replaced. *)
Definition serve_update_site (id : Z) (up : string) (p : Panel) : Result unit * Panel :=
  if existsb (fun s => site_id s =? id) (sites p)
  then (Ok tt,
        {| dns_domains := dns_domains p;
           sites := map (fun s => if site_id s =? id
                                  then {| site_id := site_id s;
                                          site_domain := site_domain s;
                                          site_upstreams := [up] |}
                                  else s) (sites p);
           certificates := certificates p;
           next_panel_id := next_panel_id p |})
  else (Throw (http_reply 404 "Site not found"), p).

Definition updateSiteProxy (e : Env) (d : string) (newPort : Z) : M UpdateResult :=
  try_catch
    (getToken e ;;;
     all <- request e GET_master serve_list_sites ;;
     match find (fun s => (site_domain s =? d)%string) all with
     | None => throw (Error ("Site " ++ d ++ " not found"))
     | Some site =>
         let up := "http://127.0.0.1:" ++ dec newPort in
         request e (PUT_master (site_domain site) up)
           (serve_update_site (site_id site) up) ;;;
         console ("✅ FastPanel site updated: " ++ d ++ " → port " ++ dec newPort) ;;;
         ret {| upd_siteId := site_id site; upd_domain := d; upd_port := newPort;
                upd_status := "updated" |}
     end)
    (fun error =>
       console ("❌ FastPanel update site error: " ++ message error) ;;;
       throw (Error ("Failed to update FastPanel site: " ++ message error))).


Definition testConnection (e : Env) : M bool :=
  try_catch
    (login e ;;;
     console "✅ FastPanel API connection successful" ;;;
     ret true)
    (fun error =>
       console ("❌ FastPanel API connection failed: " ++ message error) ;;;
       ret false).

End fastpanelService.

(** ** container.service.js *)

Module containerService.

Record Resources := {
  cpu : option string;
  memory : option string
}.

Record CreateData := {
  instanceName : string;
  serviceName : string;
  resources : option Resources
}.

Record Created := {
  res_id : Z;
  res_info : dockerService.ContainerInfo;
  res_subdomain : string;
  res_port : Z;
  res_url : string;
  res_fastpanel : fastpanelService.SiteDescriptor
}.

(** One character of the class [[a-zA-Z0-9-]]. *)
Definition name_char (c : ascii) : bool :=
  let n := nat_of_ascii c in
  ((97 <=? n) && (n <=? 122) || (65 <=? n) && (n <=? 90)
   || (48 <=? n) && (n <=? 57) || (n =? 45))%nat.

Fixpoint all_name_chars (s : string) : bool :=
  match s with
  | EmptyString => true
  | String c rest => name_char c && all_name_chars rest
  end.

(** [/^[a-zA-Z0-9-]+$/.test(instanceName)] *)
Definition valid_instance_name (s : string) : bool :=
  match s with
  | EmptyString => false
  | _ => all_name_chars s
  end.

Definition getAvailablePort (e : Env) : M Z :=
  ports <- pool.query e SELECT_available_port (pool.read pool.select_available_port) ;;
  match ports with
  | [] => throw (Error "No available ports")
  | p :: _ => ret p
  end.

Definition createContainer (e : Env) (data : CreateData) : M Created :=
  let instanceName := instanceName data in
  let serviceName := serviceName data in
  if negb (valid_instance_name instanceName) then
    throw (Error "Instance name must contain only letters, numbers, and dashes")
  else
  services <- pool.query e SELECT_service
                (pool.read (pool.select_service (sql_equal e) serviceName)) ;;
  match services with
  | [] => throw (Error ("Service '" ++ serviceName ++ "' not found"))
  | service :: _ =>
  let containerIdentifier := instanceName ++ "-" ++ serviceName in
  let sub := containerIdentifier in
  existing <- pool.query e SELECT_existing
                (pool.read (pool.select_existing (sql_equal e) containerIdentifier)) ;;
  match existing with
  | _ :: _ => throw (Error ("Container '" ++ containerIdentifier ++ "' already exists"))
  | [] =>
  p <- getAvailablePort e ;;
  let cpu := js_or (match resources data with Some r => cpu r | None => None end)
                   (default_cpu service) in
  let memory := js_or (match resources data with Some r => memory r | None => None end)
                      (default_memory service) in
  containerInfo <- dockerService.createContainer e instanceName serviceName sub p
                     (cpu, memory) ;;
  fastpanelSite <-
    try_catch
      (fastpanelService.createSite e sub p)
      (fun error =>
         console "❌ FastPanel creation failed, rolling back..." ;;;
         try_catch
           (dockerService.deleteContainer e containerIdentifier ;;; ret tt)
           (fun cleanupError =>
              console ("⚠️  Cleanup error: " ++ message cleanupError)) ;;;
         throw (Error ("FastPanel site creation failed: " ++ message error))) ;;
  insertId <- pool.query e INSERT_container
                (pool.insert_container (sql_equal e)
                   (dockerService.containerId containerInfo) containerIdentifier
                   instanceName serviceName sub p cpu memory
                   (dockerService.dataPath containerInfo)
                   (Some (fastpanelService.siteId fastpanelSite))) ;;
  pool.query e UPDATE_port_used
    (pool.write (fun _ => pool.update_port_used insertId p)) ;;;
  ret {| res_id := insertId; res_info := containerInfo; res_subdomain := sub;
         res_port := p;
         res_url := "https://" ++ sub ++ "." ++ BASE_DOMAIN e;
         res_fastpanel := fastpanelSite |}
  end
  end.

(** The lookup that opens every method below:
    [SELECT * FROM containers WHERE id = ?], then [containers[0]]. *)
Definition select_by_id (e : Env) (id : Z) : M ContainerRow :=
  rows <- pool.query e SELECT_container (pool.read (pool.select_container id)) ;;
  match rows with
  | [] => throw (Error "Container not found")
  | container :: _ => ret container
  end.

Definition set_status (e : Env) (s : Status) (id : Z) : M unit :=
  pool.query e UPDATE_status (pool.write (pool.update_status s id)).

Definition stopContainer (e : Env) (id : Z) : M string :=
  container <- select_by_id e id ;;
  dockerService.stopContainer e (container_identifier container) ;;;
  set_status e stopped id ;;;
  ret "Container stopped successfully".

Definition startContainer (e : Env) (id : Z) : M string :=
  container <- select_by_id e id ;;
  dockerService.startContainer e (container_identifier container) ;;;
  set_status e running id ;;;
  ret "Container started successfully".

Definition restartContainer (e : Env) (id : Z) : M string :=
  container <- select_by_id e id ;;
  dockerService.restartContainer e (container_identifier container) ;;;
  set_status e running id ;;;
  ret "Container restarted successfully".

Definition deleteContainer (e : Env) (id : Z) : M string :=
  container <- select_by_id e id ;;
  dockerService.deleteContainer e (container_identifier container) ;;;
  let d := subdomain container ++ "." ++ BASE_DOMAIN e in
  try_catch
    (fastpanelService.deleteSite e d ;;; ret tt)
    (fun error => console ("FastPanel deletion failed: " ++ message error)) ;;;
  pool.query e UPDATE_port_free (pool.write (fun _ => pool.update_port_free id)) ;;;
  set_status e deleted id ;;;
  ret "Container deleted successfully".

Definition redeployContainer (e : Env) (id : Z) : M string :=
  container <- select_by_id e id ;;
  dockerService.redeployContainer e (container_identifier container) ;;;
  set_status e running id ;;;
  ret "Container redeployed successfully".

Definition backupContainer (e : Env) (id : Z) : M (string * dockerService.Backup) :=
  container <- select_by_id e id ;;
  backup <- dockerService.backupContainer e (container_identifier container) ;;
  ret ("Backup created successfully", backup).

Definition getContainerStatus (e : Env) (id : Z)
    : M (ContainerRow * dockerService.DockerStatus) :=
  container <- select_by_id e id ;;
  dockerStatus <- dockerService.getContainerStatus e (container_identifier container) ;;
  ret (container, dockerStatus).

Definition getContainerLogs (e : Env) (id : Z) (lines : Z) : M string :=
  container <- select_by_id e id ;;
  dockerService.getContainerLogs e (container_identifier container) lines.

Record Filters := {
  by_instanceName : option string;
  by_service : option string;
  by_status : option string
}.

Definition listContainers (h : Host) (filters : Filters) : M (list ContainerRow) :=
  pool.statement (list_error h)
    (pool.read (pool.select_list (sql_equal h) (by_instanceName filters)
                  (by_service filters) (by_status filters))).

End containerService.

(** ** container.routes.js

    Each handler awaits one method of the orchestrator inside try/catch and
    answers with a status code and a JSON body; the id of the path is the
    integer it denotes. *)

Module containerRoutes.

(** [res.status(code).json(body)]; [inl msg] is the body [{ error: msg }]. *)
Record Response (A : Type) := {
  code : Z;
  body : string + A
}.

Definition Handler (A : Type) := World -> Response A * World.

(** [try { res.status(ok).json(await m) }
     catch (error) { res.status(fail).json({ error: error.message }) }] *)
Definition respond {A} (ok fail : Z) (m : M A) : Handler A :=
  fun w =>
    match m w with
    | (Ok a, w') => ({| code := ok; body := inr a |}, w')
    | (Throw err, w') => ({| code := fail; body := inl (message err) |}, w')
    end.

(** [req.body] of POST /. *)
Record CreateBody := {
  body_instanceName : option string;
  body_service : option string;
  body_resources : option containerService.Resources
}.

Definition text (s : option string) : string :=
  match s with
  | Some s => s
  | None => EmptyString
  end.

(** [router.post('/')] *)
Definition post_root (h : Host) (b : CreateBody) : Handler containerService.Created :=
  if negb (truthy (body_instanceName b)) || negb (truthy (body_service b))
  then fun w =>
         ({| code := 400;
             body := inl "Missing required fields: instanceName and service" |}, w)
  else respond 201 500
         (containerService.createContainer h
            {| containerService.instanceName := text (body_instanceName b);
               containerService.serviceName := text (body_service b);
               containerService.resources := body_resources b |}).

(** [router.get('/')] *)
Definition get_root (h : Host) (query : containerService.Filters)
    : Handler (list ContainerRow) :=
  respond 200 500 (containerService.listContainers h query).

(** [router.get('/:id')] *)
Definition get_id (h : Host) (id : Z)
    : Handler (ContainerRow * dockerService.DockerStatus) :=
  respond 200 404 (containerService.getContainerStatus h id).

(** [router.post('/:id/stop')] and its siblings. *)
Definition post_stop (h : Host) (id : Z) : Handler string :=
  respond 200 500 (containerService.stopContainer h id).

Definition post_start (h : Host) (id : Z) : Handler string :=
  respond 200 500 (containerService.startContainer h id).

Definition post_restart (h : Host) (id : Z) : Handler string :=
  respond 200 500 (containerService.restartContainer h id).

Definition post_redeploy (h : Host) (id : Z) : Handler string :=
  respond 200 500 (containerService.redeployContainer h id).

Definition post_backup (h : Host) (id : Z)
    : Handler (string * dockerService.Backup) :=
  respond 200 500 (containerService.backupContainer h id).

(** [parseInt(req.query.lines) || 100]; [None] is NaN. *)
Definition lines_or_default (parsed : option Z) : Z :=
  match parsed with
  | Some n => if n =? 0 then 100 else n
  | None => 100
  end.

(** [router.get('/:id/logs')] *)
Definition get_logs (h : Host) (id : Z) (parsed : option Z) : Handler string :=
  respond 200 500
    (containerService.getContainerLogs h id (lines_or_default parsed)).

(** [router.delete('/:id')] *)
Definition delete_id (h : Host) (id : Z) : Handler string :=
  respond 200 500 (containerService.deleteContainer h id).

End containerRoutes.

(** ** A concrete installation, for examples

    The pool {14000, 14001} and the template "demo" of the specification's
    scenarios, a control plane with nothing registered and an environment in
    which every external call succeeds. *)

Module Scenario.

Definition nominal : Env :=
  {| BASE_DOMAIN := "example.test"; cwd := "/srv"; win32 := false;
     db_error := fun _ => None; sql_equal := String.eqb;
     fs_error := fun _ => None;
     shell_error := fun _ => None; docker_error := fun _ => None;
     http_error := fun _ => None;
     login_token := Some "tok"; login_expire := Some 3600000;
     docker_logs := fun _ => "log"; toISOString := dec;
     archive_size := fun _ => 0 |}.

(** [nominal] with chosen failures. *)
Definition failing (db : Query -> option string) (sh : ShellCall -> option string)
    (http : Request -> option string) : Env :=
  {| BASE_DOMAIN := BASE_DOMAIN nominal; cwd := cwd nominal; win32 := win32 nominal;
     db_error := db; sql_equal := sql_equal nominal;
     fs_error := fs_error nominal;
     shell_error := sh; docker_error := docker_error nominal;
     http_error := http;
     login_token := login_token nominal; login_expire := login_expire nominal;
     docker_logs := docker_logs nominal; toISOString := toISOString nominal;
     archive_size := archive_size nominal |}.

Definition free (p : Z) : PortRow :=
  {| pa_port := p; pa_container_id := None; is_available := true |}.

Definition world0 : World :=
  {| catalog := {| services := [{| svc_name := "demo"; default_port := 8080;
                                   default_cpu := Some "1";
                                   default_memory := Some "512M" |}];
                   containers := [];
                   port_assignments := [free 14000; free 14001];
                   auto_increment := 1 |};
     runtime := {| docker_containers := []; next_docker_id := 1; dirs := [] |};
     panel := {| dns_domains := []; sites := []; certificates := [];
                 next_panel_id := 1 |};
     session := {| token := None; tokenExpire := None |};
     clock := 0;
     trace := [] |}.

Definition alpha : containerService.CreateData :=
  {| containerService.instanceName := "alpha";
     containerService.serviceName := "demo";
     containerService.resources := None |}.

(** The PUT that creates a site is refused by the network. *)
Definition no_site (r : Request) : option string :=
  match r with
  | PUT_master _ _ => Some "connect ECONNREFUSED"
  | _ => None
  end.

(** Everything answers, except the creation of the proxy site. *)
Definition proxy_down : Env :=
  failing (fun _ => None) (fun _ => None) no_site.


(** Everything answers, except the request for a certificate. *)
Definition cert_down : Env :=
  failing (fun _ => None) (fun _ => None)
    (fun r => match r with
              | POST_certificates _ _ => Some "timeout of 30000ms exceeded"
              | _ => None
              end).

(** "alpha" provisioned, everything answering. *)
Definition created : World :=
  Eval vm_compute in snd (containerService.createContainer nominal alpha world0).

(** "alpha" provisioned, then deleted. *)
Definition removed : World :=
  Eval vm_compute in snd (containerService.deleteContainer nominal 1 created).

(** The deleted "alpha" provisioned again: the insert is refused, the
    identifier and the port being those of the deleted row, and nothing is
    rolled back. *)
Definition retried : World :=
  Eval vm_compute in snd (containerService.createContainer nominal alpha removed).

(** Then the instance of id 1 restarted. *)
Definition revived : World :=
  Eval vm_compute in snd (containerService.restartContainer nominal 1 retried).

Definition beta : containerService.CreateData :=
  {| containerService.instanceName := "beta";
     containerService.serviceName := "demo";
     containerService.resources := None |}.

(** Everything answers, except [docker compose up]. *)
Definition compose_down_only : Env :=
  failing (fun _ => None)
    (fun c => match c with ComposeUp => Some "compose up failed" | _ => None end)
    (fun _ => None).

(** The proxy site cannot be created, and in the rollback neither the
    teardown nor the removal of the directory works. *)
Definition rollback_down : Env :=
  {| BASE_DOMAIN := BASE_DOMAIN nominal; cwd := cwd nominal; win32 := win32 nominal;
     db_error := db_error nominal; sql_equal := sql_equal nominal;
     fs_error := fun call => match call with
                             | Rm => Some "EACCES: permission denied"
                             | _ => None
                             end;
     shell_error := fun call => match call with
                                | ComposeDown => Some "Cannot connect to the Docker daemon"
                                | _ => None
                                end;
     docker_error := docker_error nominal;
     http_error := no_site;
     login_token := login_token nominal; login_expire := login_expire nominal;
     docker_logs := docker_logs nominal; toISOString := toISOString nominal;
     archive_size := archive_size nominal |}.

(** A collation that ignores the case of the letters, as the default
    collation of MySQL 8.0 does; [nominal] compares bytes. *)
Definition lower (c : ascii) : ascii :=
  let n := nat_of_ascii c in
  if (Nat.leb 65 n && Nat.leb n 90)%bool then ascii_of_nat (n + 32) else c.

Fixpoint lowercase (s : string) : string :=
  match s with
  | EmptyString => EmptyString
  | String c rest => String (lower c) (lowercase rest)
  end.

Definition ignoring_case (a b : string) : bool :=
  (lowercase a =? lowercase b)%string.

(** [nominal] on a server left at its default collation. *)
Definition mysql_default : Env :=
  {| BASE_DOMAIN := BASE_DOMAIN nominal; cwd := cwd nominal; win32 := win32 nominal;
     db_error := db_error nominal; sql_equal := ignoring_case;
     fs_error := fs_error nominal;
     shell_error := shell_error nominal; docker_error := docker_error nominal;
     http_error := http_error nominal;
     login_token := login_token nominal; login_expire := login_expire nominal;
     docker_logs := docker_logs nominal; toISOString := toISOString nominal;
     archive_size := archive_size nominal |}.

(** The host of the examples. *)
Definition host : Host := {| host_env := nominal; list_error := None |}.

End Scenario.

(** * Vocabulary of the statements *)

(** A method keeps a relation between the world it starts in and the world
    it ends in, whether it returns or throws. *)
Definition keeps {A} (R : World -> World -> Prop) (m : M A) : Prop :=
  forall w, R w (snd (m w)).

(** The part [f] of the world is left as it was. *)
Definition same {X} (f : World -> X) : World -> World -> Prop :=
  fun w w' => f w' = f w.

(** The trace only grows. *)
Definition grows : World -> World -> Prop :=
  fun w w' => exists l, trace w' = (trace w ++ l)%list.

(** The runtime driver changes the runtime and the trace, nothing else. *)
Definition runtime_only : World -> World -> Prop :=
  fun w w' => catalog w' = catalog w /\ panel w' = panel w
              /\ session w' = session w /\ clock w' = clock w.

(** The proxy client leaves the catalog and the runtime alone. *)
Definition proxy_only : World -> World -> Prop :=
  fun w w' => catalog w' = catalog w /\ runtime w' = runtime w.


(** The first event of [m] is [ev], whatever happens next. *)
Definition starts_with {A} (ev : Event) (m : M A) : Prop :=
  forall w, exists rest, trace (snd (m w)) = (trace w ++ ev :: rest)%list.

(** ** The operations of the orchestrator *)

(** What can be asked for an instance addressed by its id. *)
Inductive Action :=
| Stop
| Start
| Restart
| Redeploy
| Backup
| GetStatus
| GetLogs (lines : Z)
| Delete.

Inductive Operation :=
| Create (data : containerService.CreateData)
| On (a : Action) (id : Z).

(** [await m], the value dropped. *)
Definition void {A} (m : M A) : M unit := m ;;; ret tt.

Definition by_id (e : Env) (a : Action) (id : Z) : M unit :=
  match a with
  | Stop => void (containerService.stopContainer e id)
  | Start => void (containerService.startContainer e id)
  | Restart => void (containerService.restartContainer e id)
  | Redeploy => void (containerService.redeployContainer e id)
  | Backup => void (containerService.backupContainer e id)
  | GetStatus => void (containerService.getContainerStatus e id)
  | GetLogs lines => void (containerService.getContainerLogs e id lines)
  | Delete => void (containerService.deleteContainer e id)
  end.

Definition run (e : Env) (o : Operation) : M unit :=
  match o with
  | Create data => void (containerService.createContainer e data)
  | On a id => by_id e a id
  end.

(** The first thing the runtime driver does for an action on the instance
    of identifier [ident]. *)
Definition driver_call (e : Env) (a : Action) (ident : string) : Event :=
  match a with
  | Stop => DockerCall "stop" ident
  | Start => DockerCall "start" ident
  | Restart => DockerCall "restart" ident
  | Redeploy =>
      Exec "docker compose down && docker compose up -d"
           (dockerService.containerDirOf e ident)
  | Backup => Fs Mkdir (cwd e ++ "/backups")
  | GetStatus => DockerCall "inspect" ident
  | GetLogs _ => DockerCall "logs" ident
  | Delete => Exec "docker compose down -v" (dockerService.containerDirOf e ident)
  end.

(** The status an action writes back to the catalog, if any. *)
Definition status_written (a : Action) : option Status :=
  match a with
  | Stop => Some stopped
  | Start | Restart | Redeploy => Some running
  | Delete => Some deleted
  | Backup | GetStatus | GetLogs _ => None
  end.

(** The table [containers] after [UPDATE containers SET status = s WHERE id = id]. *)
Definition rows_with_status (s : Status) (id now : Z) (rows : list ContainerRow)
    : list ContainerRow :=
  map (fun r => if row_id r =? id then pool.with_status s now r else r) rows.

(** The columns of a row other than [status] and [updated_at]. *)
Definition other_columns (r : ContainerRow) :=
  (row_id r, container_id r, container_identifier r, instance_name r,
   service_name r, subdomain r, port r, cpu_limit r, memory_limit r,
   data_path r, fastpanel_site_id r, created_at r).

(** ** The port pool and its owners *)

(** A port is unavailable exactly when a row that is not deleted references it. *)
Definition flag_matches_rows (c : Catalog) : Prop :=
  forall pa, In pa (port_assignments c) ->
    (is_available pa = false <->
     exists r, In r (containers c) /\ status r <> deleted /\ port r = pa_port pa).

(** What the statements of the orchestrator maintain on a catalog that only
    they write: an unavailable port is owned by the row, not deleted, that
    references it; an available port has no owner and no such row; ids are
    those handed out by AUTO_INCREMENT; [port] is a UNIQUE key. *)
Record Inv (c : Catalog) : Prop := {
  inv_taken : forall pa, In pa (port_assignments c) -> is_available pa = false ->
    exists r, In r (containers c) /\ status r <> deleted
              /\ port r = pa_port pa /\ pa_container_id pa = Some (row_id r);
  inv_free : forall pa, In pa (port_assignments c) -> is_available pa = true ->
    pa_container_id pa = None
    /\ forall r, In r (containers c) -> status r <> deleted -> port r <> pa_port pa;
  inv_ids : NoDup (map row_id (containers c));
  inv_fresh : forall r, In r (containers c) -> row_id r < auto_increment c;
  inv_ports : NoDup (map port (containers c))
}.

(** [Inv], decided. *)
Fixpoint distinct (l : list Z) : bool :=
  match l with
  | [] => true
  | x :: rest => negb (existsb (Z.eqb x) rest) && distinct rest
  end.

Definition live (r : ContainerRow) : bool := negb (Status_eqb (status r) deleted).

Definition port_row_ok (c : Catalog) (pa : PortRow) : bool :=
  if is_available pa then
    match pa_container_id pa with
    | None => forallb (fun r => negb (live r && (port r =? pa_port pa))) (containers c)
    | Some _ => false
    end
  else
    existsb (fun r => live r && (port r =? pa_port pa)
                      && match pa_container_id pa with
                         | Some o => o =? row_id r
                         | None => false
                         end)
            (containers c).

Definition Inv_b (c : Catalog) : bool :=
  forallb (port_row_ok c) (port_assignments c)
  && distinct (map row_id (containers c))
  && forallb (fun r => row_id r <? auto_increment c) (containers c)
  && distinct (map port (containers c)).

(** A stop, start, restart or redeploy addressed to a row whose status is
    deleted. *)
Definition revives (o : Operation) (c : Catalog) : Prop :=
  match o with
  | On (Stop | Start | Restart | Redeploy) id =>
      exists r, In r (containers c) /\ row_id r = id /\ status r = deleted
  | _ => False
  end.

(** A directory that exists is still there afterwards. *)
Definition dir_kept (d : string) : World -> World -> Prop :=
  fun w w' => dockerService.dir_exists d (runtime w) = true ->
              dockerService.dir_exists d (runtime w') = true.

(** ** Requests to the control plane *)

Definition is_cert_request (ev : Event) : bool :=
  match ev with
  | Http (POST_certificates _ _) => true
  | _ => false
  end.

(** The events appended contain no request for a certificate. *)
Definition no_cert_request : World -> World -> Prop :=
  fun w w' =>
    exists l, trace w' = (trace w ++ l)%list
              /\ forallb (fun ev => negb (is_cert_request ev)) l = true.

(** At most one site per domain, as the control plane keeps them. *)
Definition one_site_per_domain (p : Panel) : Prop :=
  NoDup (map site_domain (sites p)).

(** ** The listing *)

(** [a] may stand before [b] under [ORDER BY created_at DESC]. *)
Definition newer_or_equal (a b : ContainerRow) : Prop :=
  created_at b <= created_at a.

(** The column passes the filter: a truthy filter equals it, in the sense of
    the collation; a filter that is absent or empty asks for nothing. *)
Definition passes (equal : string -> string -> bool)
    (filter : option string) (column : string) : Prop :=
  forall v, filter = Some v -> v <> EmptyString -> equal column v = true.

(** The control plane has at most gained DNS entries for [d]: its sites and
    certificates are as before. *)
Definition registers_at_most (d : string) : World -> World -> Prop :=
  fun w w' =>
    sites (panel w') = sites (panel w)
    /\ certificates (panel w') = certificates (panel w)
    /\ exists l, dns_domains (panel w') = (dns_domains (panel w) ++ l)%list
                 /\ Forall (fun x => snd x = d) l.

(** * Reasoning about the monad *)

Lemma set_catalog_same (w : World) : set_catalog (catalog w) w = w.
Proof. destruct w; reflexivity. Qed.

Lemma bind_inv {A B} (m : M A) (k : A -> M B) w r w' :
  bind m k w = (r, w') ->
  (exists err, m w = (Throw err, w') /\ r = Throw err)
  \/ (exists a w1, m w = (Ok a, w1) /\ k a w1 = (r, w')).
Proof.
  unfold bind. destruct (m w) as [[a | err] w1]; intros H.
  - right. eauto.
  - left. inversion H; subst. eauto.
Qed.

Lemma bind_ok {A B} (m : M A) (k : A -> M B) w a w1 :
  m w = (Ok a, w1) -> bind m k w = k a w1.
Proof. unfold bind. intros ->. reflexivity. Qed.

Lemma bind_throw {A B} (m : M A) (k : A -> M B) w err w1 :
  m w = (Throw err, w1) -> bind m k w = (Throw err, w1).
Proof. unfold bind. intros ->. reflexivity. Qed.

Lemma try_ok {A} (m : M A) h w a w1 :
  m w = (Ok a, w1) -> try_catch m h w = (Ok a, w1).
Proof. unfold try_catch. intros ->. reflexivity. Qed.

Lemma try_throw {A} (m : M A) h w err w1 :
  m w = (Throw err, w1) -> try_catch m h w = h err w1.
Proof. unfold try_catch. intros ->. reflexivity. Qed.

Lemma try_inv {A} (m : M A) h w r w' :
  try_catch m h w = (r, w') ->
  (exists a, m w = (Ok a, w') /\ r = Ok a)
  \/ (exists err w1, m w = (Throw err, w1) /\ h err w1 = (r, w')).
Proof.
  unfold try_catch. destruct (m w) as [[a | err] w1]; intros H.
  - left. inversion H; subst. eauto.
  - right. eauto.
Qed.

Section Keeps.

Variable R : World -> World -> Prop.
Hypothesis R_refl : forall w, R w w.
Hypothesis R_trans : forall a b c, R a b -> R b c -> R a c.

Lemma keeps_ret {A} (a : A) : keeps R (ret a).
Proof. intros w. apply R_refl. Qed.

Lemma keeps_throw {A} err : keeps R (@throw A err).
Proof. intros w. apply R_refl. Qed.

Lemma keeps_gets {A} (f : World -> A) : keeps R (gets f).
Proof. intros w. apply R_refl. Qed.

Lemma keeps_may_fail o : keeps R (may_fail o).
Proof. destruct o; [apply keeps_throw | apply keeps_ret]. Qed.

Lemma keeps_modify f : (forall w, R w (f w)) -> keeps R (modify f).
Proof. intros H w. apply H. Qed.

Lemma keeps_bind {A B} (m : M A) (k : A -> M B) :
  keeps R m -> (forall a, keeps R (k a)) -> keeps R (bind m k).
Proof.
  intros Hm Hk w. unfold bind. specialize (Hm w).
  destruct (m w) as [[a | err] w1]; simpl in *.
  - eapply R_trans; [exact Hm | apply Hk].
  - exact Hm.
Qed.

Lemma keeps_try {A} (m : M A) h :
  keeps R m -> (forall err, keeps R (h err)) -> keeps R (try_catch m h).
Proof.
  intros Hm Hh w. unfold try_catch. specialize (Hm w).
  destruct (m w) as [[a | err] w1]; simpl in *.
  - exact Hm.
  - eapply R_trans; [exact Hm | apply Hh].
Qed.

Lemma keeps_run {A} (m : M A) w r w' : keeps R m -> m w = (r, w') -> R w w'.
Proof. intros H E. specialize (H w). rewrite E in H. exact H. Qed.

End Keeps.

Arguments keeps_run [R A m w r w'] _ _.

Lemma same_refl {X} (f : World -> X) w : same f w w.
Proof. reflexivity. Qed.

Lemma same_trans {X} (f : World -> X) a b c :
  same f a b -> same f b c -> same f a c.
Proof. unfold same. congruence. Qed.

Lemma grows_refl w : grows w w.
Proof. exists []. symmetry. apply app_nil_r. Qed.

Lemma grows_trans a b c : grows a b -> grows b c -> grows a c.
Proof.
  intros [l1 H1] [l2 H2]. exists (l1 ++ l2)%list.
  rewrite H2, H1. symmetry. apply app_assoc.
Qed.

(** Decomposes a goal [keeps R m] along the structure of [m]; what is left
    are the primitive updates of the world. *)
Ltac keeps_step refl trans :=
  match goal with
  | |- keeps _ (ret _) => apply (keeps_ret _ refl)
  | |- keeps _ (throw _) => apply (keeps_throw _ refl)
  | |- keeps _ (gets _) => apply (keeps_gets _ refl)
  | |- keeps _ (may_fail _) => apply (keeps_may_fail _ refl)
  | |- keeps _ (bind _ _) => apply (keeps_bind trans); [ | intros ? ]
  | |- keeps _ (try_catch _ _) => apply (keeps_try trans); [ | intros ? ]
  | |- keeps _ (match ?x with _ => _ end) => destruct x
  | |- keeps _ (let _ := _ in _) => cbv zeta
  end.

Ltac same_field :=
  repeat keeps_step (@same_refl) (@same_trans).

(** ** What each service can touch *)

Lemma runtime_only_refl w : runtime_only w w.
Proof. repeat split. Qed.

Lemma runtime_only_trans a b c :
  runtime_only a b -> runtime_only b c -> runtime_only a c.
Proof. unfold runtime_only. intuition congruence. Qed.

Lemma proxy_only_refl w : proxy_only w w.
Proof. split; reflexivity. Qed.

Lemma proxy_only_trans a b c :
  proxy_only a b -> proxy_only b c -> proxy_only a c.
Proof. unfold proxy_only. intuition congruence. Qed.

Ltac runtime_frame :=
  repeat keeps_step runtime_only_refl runtime_only_trans;
  try (apply keeps_modify; intros w; repeat split;
       try match goal with |- context [if ?b then _ else _] => destruct b end;
       reflexivity).

Ltac proxy_frame :=
  repeat keeps_step proxy_only_refl proxy_only_trans;
  try (apply keeps_modify; intros w; split; reflexivity).

Lemma emit_runtime_only ev : keeps runtime_only (emit ev).
Proof. intros w. repeat split. Qed.

Lemma emit_proxy_only ev : keeps proxy_only (emit ev).
Proof. intros w. split; reflexivity. Qed.

Lemma console_runtime_only line : keeps runtime_only (console line).
Proof. apply emit_runtime_only. Qed.

Lemma console_proxy_only line : keeps proxy_only (console line).
Proof. apply emit_proxy_only. Qed.

Create HintDb frame.

#[local] Hint Resolve emit_runtime_only emit_proxy_only
  console_runtime_only console_proxy_only : frame.

Lemma fs_call_runtime_only e call path :
  keeps runtime_only (dockerService.fs_call e call path).
Proof. unfold dockerService.fs_call; runtime_frame; auto with frame. Qed.

Lemma mkdir_runtime_only e d : keeps runtime_only (dockerService.mkdir e d).
Proof.
  unfold dockerService.mkdir; runtime_frame; apply fs_call_runtime_only.
Qed.

Lemma rm_runtime_only e d : keeps runtime_only (dockerService.rm e d).
Proof.
  unfold dockerService.rm; runtime_frame; apply fs_call_runtime_only.
Qed.

Lemma execAsync_runtime_only e call cmd dir effect :
  keeps runtime_only (dockerService.execAsync e call cmd dir effect).
Proof. unfold dockerService.execAsync; runtime_frame; auto with frame. Qed.

Lemma docker_call_runtime_only e op name check effect :
  keeps runtime_only (dockerService.docker_call e op name check effect).
Proof. unfold dockerService.docker_call; runtime_frame; auto with frame. Qed.

#[local] Hint Resolve fs_call_runtime_only mkdir_runtime_only rm_runtime_only
  execAsync_runtime_only docker_call_runtime_only : frame.

Lemma cleanupFailedContainer_runtime_only e ident dir :
  keeps runtime_only (dockerService.cleanupFailedContainer e ident dir).
Proof.
  unfold dockerService.cleanupFailedContainer;
  runtime_frame; auto with frame.
Qed.

Lemma docker_createContainer_runtime_only e iname sname sub p res :
  keeps runtime_only (dockerService.createContainer e iname sname sub p res).
Proof.
  unfold dockerService.createContainer, dockerService.generateEnvFile;
  runtime_frame; auto using cleanupFailedContainer_runtime_only with frame.
Qed.

Lemma docker_stopContainer_runtime_only e ident :
  keeps runtime_only (dockerService.stopContainer e ident).
Proof. unfold dockerService.stopContainer; runtime_frame; auto with frame. Qed.

Lemma docker_startContainer_runtime_only e ident :
  keeps runtime_only (dockerService.startContainer e ident).
Proof. unfold dockerService.startContainer; runtime_frame; auto with frame. Qed.

Lemma docker_restartContainer_runtime_only e ident :
  keeps runtime_only (dockerService.restartContainer e ident).
Proof. unfold dockerService.restartContainer; runtime_frame; auto with frame. Qed.

Lemma docker_deleteContainer_runtime_only e ident :
  keeps runtime_only (dockerService.deleteContainer e ident).
Proof.
  unfold dockerService.deleteContainer; runtime_frame; auto with frame.
Qed.

Lemma docker_redeployContainer_runtime_only e ident :
  keeps runtime_only (dockerService.redeployContainer e ident).
Proof.
  unfold dockerService.redeployContainer; runtime_frame; auto with frame.
Qed.

Lemma docker_backupContainer_runtime_only e ident :
  keeps runtime_only (dockerService.backupContainer e ident).
Proof.
  unfold dockerService.backupContainer; runtime_frame; auto with frame.
Qed.

Lemma docker_getContainerStatus_runtime_only e ident :
  keeps runtime_only (dockerService.getContainerStatus e ident).
Proof.
  unfold dockerService.getContainerStatus; runtime_frame; auto with frame.
Qed.

Lemma docker_getContainerLogs_runtime_only e ident lines :
  keeps runtime_only (dockerService.getContainerLogs e ident lines).
Proof.
  unfold dockerService.getContainerLogs; runtime_frame; auto with frame.
Qed.

Lemma request_proxy_only {A} e r (serve : Panel -> Result A * Panel) :
  keeps proxy_only (fastpanelService.request e r serve).
Proof.
  unfold fastpanelService.request; proxy_frame; auto with frame.
  intros w. destruct (serve (panel w)). split; reflexivity.
Qed.

Lemma login_proxy_only e : keeps proxy_only (fastpanelService.login e).
Proof.
  unfold fastpanelService.login; proxy_frame;
    auto using request_proxy_only with frame.
Qed.

Lemma getToken_proxy_only e : keeps proxy_only (fastpanelService.getToken e).
Proof.
  unfold fastpanelService.getToken; proxy_frame; auto using login_proxy_only.
Qed.

Lemma addDomain_proxy_only e d : keeps proxy_only (fastpanelService.addDomain e d).
Proof.
  unfold fastpanelService.addDomain; proxy_frame;
    auto using request_proxy_only, getToken_proxy_only with frame.
Qed.

Lemma createSSL_proxy_only e d site :
  keeps proxy_only (fastpanelService.createSSL e d site).
Proof.
  unfold fastpanelService.createSSL; proxy_frame;
    auto using request_proxy_only, getToken_proxy_only with frame.
Qed.

Lemma createSite_proxy_only e sub p :
  keeps proxy_only (fastpanelService.createSite e sub p).
Proof.
  unfold fastpanelService.createSite, fastpanelService.setTimeout;
  proxy_frame;
    auto using request_proxy_only, getToken_proxy_only, addDomain_proxy_only,
      createSSL_proxy_only with frame.
Qed.

Lemma deleteSite_proxy_only e d : keeps proxy_only (fastpanelService.deleteSite e d).
Proof.
  unfold fastpanelService.deleteSite; proxy_frame;
    auto using request_proxy_only, getToken_proxy_only with frame.
Qed.

(** ** Every method only appends to the trace *)

Lemma grows_same_trace w w' : trace w' = trace w -> grows w w'.
Proof. intros H. exists []. rewrite H. symmetry. apply app_nil_r. Qed.

Ltac grows_frame :=
  repeat keeps_step grows_refl grows_trans;
  try (apply keeps_modify; intros w; apply grows_same_trace;
       try match goal with |- context [if ?b then _ else _] => destruct b end;
       reflexivity).

Create HintDb grows.

Lemma emit_grows ev : keeps grows (emit ev).
Proof. intros w. exists [ev]. reflexivity. Qed.

Lemma console_grows line : keeps grows (console line).
Proof. apply emit_grows. Qed.

Lemma query_grows {A} e q (run : Z -> Catalog -> Result A * Catalog) :
  keeps grows (pool.query e q run).
Proof.
  intros w. unfold pool.query. destruct (db_error e q); [apply grows_refl |].
  destruct (run _ _). apply grows_same_trace. reflexivity.
Qed.

#[local] Hint Resolve emit_grows console_grows query_grows : grows.

Lemma fs_call_grows e call path : keeps grows (dockerService.fs_call e call path).
Proof. unfold dockerService.fs_call; grows_frame; auto with grows. Qed.

#[local] Hint Resolve fs_call_grows : grows.

Lemma mkdir_grows e d : keeps grows (dockerService.mkdir e d).
Proof. unfold dockerService.mkdir; grows_frame; auto with grows. Qed.

Lemma rm_grows e d : keeps grows (dockerService.rm e d).
Proof. unfold dockerService.rm; grows_frame; auto with grows. Qed.

Lemma execAsync_grows e call cmd dir effect :
  keeps grows (dockerService.execAsync e call cmd dir effect).
Proof. unfold dockerService.execAsync; grows_frame; auto with grows. Qed.

Lemma docker_call_grows e op name check effect :
  keeps grows (dockerService.docker_call e op name check effect).
Proof. unfold dockerService.docker_call; grows_frame; auto with grows. Qed.

#[local] Hint Resolve mkdir_grows rm_grows execAsync_grows docker_call_grows : grows.

Lemma cleanupFailedContainer_grows e ident dir :
  keeps grows (dockerService.cleanupFailedContainer e ident dir).
Proof. unfold dockerService.cleanupFailedContainer; grows_frame; auto with grows. Qed.

#[local] Hint Resolve cleanupFailedContainer_grows : grows.

Lemma docker_createContainer_grows e iname sname sub p res :
  keeps grows (dockerService.createContainer e iname sname sub p res).
Proof.
  unfold dockerService.createContainer, dockerService.generateEnvFile;
    grows_frame; auto with grows.
Qed.

Lemma docker_stopContainer_grows e ident :
  keeps grows (dockerService.stopContainer e ident).
Proof. unfold dockerService.stopContainer; grows_frame; auto with grows. Qed.

Lemma docker_startContainer_grows e ident :
  keeps grows (dockerService.startContainer e ident).
Proof. unfold dockerService.startContainer; grows_frame; auto with grows. Qed.

Lemma docker_restartContainer_grows e ident :
  keeps grows (dockerService.restartContainer e ident).
Proof. unfold dockerService.restartContainer; grows_frame; auto with grows. Qed.

Lemma docker_deleteContainer_grows e ident :
  keeps grows (dockerService.deleteContainer e ident).
Proof. unfold dockerService.deleteContainer; grows_frame; auto with grows. Qed.

Lemma docker_redeployContainer_grows e ident :
  keeps grows (dockerService.redeployContainer e ident).
Proof. unfold dockerService.redeployContainer; grows_frame; auto with grows. Qed.

Lemma docker_backupContainer_grows e ident :
  keeps grows (dockerService.backupContainer e ident).
Proof. unfold dockerService.backupContainer; grows_frame; auto with grows. Qed.

Lemma docker_getContainerStatus_grows e ident :
  keeps grows (dockerService.getContainerStatus e ident).
Proof. unfold dockerService.getContainerStatus; grows_frame; auto with grows. Qed.

Lemma docker_getContainerLogs_grows e ident lines :
  keeps grows (dockerService.getContainerLogs e ident lines).
Proof. unfold dockerService.getContainerLogs; grows_frame; auto with grows. Qed.

Lemma request_grows {A} e r (serve : Panel -> Result A * Panel) :
  keeps grows (fastpanelService.request e r serve).
Proof.
  unfold fastpanelService.request; grows_frame; auto with grows.
  intros w. destruct (serve (panel w)). apply grows_same_trace. reflexivity.
Qed.

#[local] Hint Resolve request_grows : grows.

Lemma login_grows e : keeps grows (fastpanelService.login e).
Proof. unfold fastpanelService.login; grows_frame; auto with grows. Qed.

#[local] Hint Resolve login_grows : grows.

Lemma getToken_grows e : keeps grows (fastpanelService.getToken e).
Proof. unfold fastpanelService.getToken; grows_frame; auto with grows. Qed.

#[local] Hint Resolve getToken_grows : grows.

Lemma deleteSite_grows e d : keeps grows (fastpanelService.deleteSite e d).
Proof. unfold fastpanelService.deleteSite; grows_frame; auto with grows. Qed.

#[local] Hint Resolve docker_stopContainer_grows docker_startContainer_grows
  docker_restartContainer_grows docker_deleteContainer_grows
  docker_redeployContainer_grows docker_backupContainer_grows
  docker_getContainerStatus_grows docker_getContainerLogs_grows
  deleteSite_grows : grows.

(** ** First events *)

Lemma starts_emit ev : starts_with ev (emit ev).
Proof. intros w. exists []. reflexivity. Qed.

Lemma starts_bind {A B} ev (m : M A) (k : A -> M B) :
  starts_with ev m -> (forall a, keeps grows (k a)) -> starts_with ev (bind m k).
Proof.
  intros Hm Hk w. unfold bind. destruct (Hm w) as [rest Hrest].
  destruct (m w) as [[a | err] w1]; simpl in *.
  - destruct (Hk a w1) as [l Hl]. exists (rest ++ l)%list.
    rewrite Hl, Hrest, <- app_assoc. reflexivity.
  - exists rest. exact Hrest.
Qed.

Lemma starts_try {A} ev (m : M A) h :
  starts_with ev m -> (forall err, keeps grows (h err)) ->
  starts_with ev (try_catch m h).
Proof.
  intros Hm Hh w. unfold try_catch. destruct (Hm w) as [rest Hrest].
  destruct (m w) as [[a | err] w1]; simpl in *.
  - exists rest. exact Hrest.
  - destruct (Hh err w1) as [l Hl]. exists (rest ++ l)%list.
    rewrite Hl, Hrest, <- app_assoc. reflexivity.
Qed.

Ltac starts_frame :=
  repeat match goal with
  | |- starts_with _ (emit _) => apply starts_emit
  | |- starts_with _ (bind _ _) =>
      apply starts_bind; [ | intros ?; grows_frame; auto with grows ]
  | |- starts_with _ (try_catch _ _) =>
      apply starts_try; [ | intros ?; grows_frame; auto with grows ]
  | |- starts_with _ (let _ := _ in _) => cbv zeta
  end.

Lemma docker_call_starts e op name check effect :
  starts_with (DockerCall op name)
    (dockerService.docker_call e op name check effect).
Proof. unfold dockerService.docker_call. starts_frame. Qed.

Lemma execAsync_starts e call cmd dir effect :
  starts_with (Exec cmd dir) (dockerService.execAsync e call cmd dir effect).
Proof. unfold dockerService.execAsync. starts_frame. Qed.

Lemma mkdir_starts e d : starts_with (Fs Mkdir d) (dockerService.mkdir e d).
Proof. unfold dockerService.mkdir, dockerService.fs_call. starts_frame. Qed.

(** ** Statements of the catalog, evaluated *)

Lemma select_by_id_eval e id w :
  db_error e SELECT_container = None ->
  containerService.select_by_id e id w =
  match pool.select_container id (catalog w) with
  | [] => (Throw (Error "Container not found"), w)
  | c :: _ => (Ok c, w)
  end.
Proof.
  intros Hdb. unfold containerService.select_by_id, bind, pool.query, pool.read.
  rewrite Hdb, set_catalog_same.
  destruct (pool.select_container id (catalog w)); reflexivity.
Qed.

Lemma select_by_id_inv e id w r w' :
  containerService.select_by_id e id w = (r, w') ->
  w' = w
  /\ forall c, r = Ok c ->
       exists rest, pool.select_container id (catalog w) = c :: rest.
Proof.
  unfold containerService.select_by_id, bind, pool.query, pool.read.
  destruct (db_error e SELECT_container).
  - intros H. inversion H; subst. split; [reflexivity | discriminate].
  - rewrite set_catalog_same.
    destruct (pool.select_container id (catalog w)) as [| c rest];
      intros H; inversion H; subst; (split; [reflexivity |]).
    + discriminate.
    + intros c' Hc. inversion Hc; subst. eauto.
Qed.

Lemma set_status_inv e s id w r w' :
  containerService.set_status e s id w = (r, w') ->
  (r = Ok tt /\ w' = set_catalog (pool.update_status s id (clock w / 1000) (catalog w)) w)
  \/ (exists err, r = Throw err /\ w' = w).
Proof.
  unfold containerService.set_status, pool.query, pool.write, pool.CURRENT_TIMESTAMP.
  destruct (db_error e UPDATE_status); intros H; inversion H; subst; eauto.
Qed.

Lemma void_inv {A} (m : M A) w r w' :
  void m w = (r, w') ->
  (exists a, m w = (Ok a, w') /\ r = Ok tt)
  \/ (exists err, m w = (Throw err, w') /\ r = Throw err).
Proof.
  unfold void. intros H. apply bind_inv in H.
  destruct H as [[err [H1 H2]] | [a [w1 [H1 H2]]]].
  - right. eauto.
  - left. inversion H2; subst. eauto.
Qed.

Lemma void_grows {A} (m : M A) : keeps grows m -> keeps grows (void m).
Proof. intros H. unfold void. grows_frame. exact H. Qed.

Lemma void_starts {A} ev (m : M A) : starts_with ev m -> starts_with ev (void m).
Proof.
  intros H. unfold void. apply starts_bind; [exact H |].
  intros a. apply keeps_ret. exact grows_refl.
Qed.

Lemma void_bind_ok {A B} (m : M A) (k : A -> M B) w a w1 :
  m w = (Ok a, w1) -> void (bind m k) w = void (k a) w1.
Proof. intros H. unfold void, bind. rewrite H. reflexivity. Qed.

Lemma void_bind_throw {A B} (m : M A) (k : A -> M B) w err w1 :
  m w = (Throw err, w1) -> void (bind m k) w = (Throw err, w1).
Proof. intros H. unfold void, bind. rewrite H. reflexivity. Qed.

Lemma free_port_inv e id w r w' :
  pool.query e UPDATE_port_free (pool.write (fun _ => pool.update_port_free id)) w
    = (r, w') ->
  (r = Ok tt /\ w' = set_catalog (pool.update_port_free id (catalog w)) w)
  \/ (exists err, r = Throw err /\ w' = w).
Proof.
  unfold pool.query, pool.write.
  destruct (db_error e UPDATE_port_free); intros H; inversion H; subst; eauto.
Qed.

(** Takes a successful run [H : (x <- m ;; k) w = (Ok _, w')] apart. *)
Ltac split_ok H :=
  let err := fresh "err" in
  let a := fresh "a" in
  let w1 := fresh "w" in
  let H1 := fresh "Hstep" in
  apply bind_inv in H;
  destruct H as [[err [H1 H]] | [a [w1 [H1 H]]]]; [discriminate H | ].

Lemma delete_proxy_step_proxy_only e d :
  keeps proxy_only
    (try_catch (fastpanelService.deleteSite e d ;;; ret tt)
       (fun error => console ("FastPanel deletion failed: " ++ message error))).
Proof. proxy_frame; auto using deleteSite_proxy_only with frame. Qed.

Lemma delete_proxy_step_grows e d :
  keeps grows
    (try_catch (fastpanelService.deleteSite e d ;;; ret tt)
       (fun error => console ("FastPanel deletion failed: " ++ message error))).
Proof. grows_frame; auto with grows. Qed.

#[local] Hint Resolve delete_proxy_step_grows : grows.

Lemma set_status_grows e s id : keeps grows (containerService.set_status e s id).
Proof. unfold containerService.set_status. auto with grows. Qed.

#[local] Hint Resolve set_status_grows : grows.

Lemma docker_stopContainer_starts e ident :
  starts_with (DockerCall "stop" ident) (dockerService.stopContainer e ident).
Proof. unfold dockerService.stopContainer. starts_frame. apply docker_call_starts. Qed.

Lemma docker_startContainer_starts e ident :
  starts_with (DockerCall "start" ident) (dockerService.startContainer e ident).
Proof. unfold dockerService.startContainer. starts_frame. apply docker_call_starts. Qed.

Lemma docker_restartContainer_starts e ident :
  starts_with (DockerCall "restart" ident) (dockerService.restartContainer e ident).
Proof.
  unfold dockerService.restartContainer. starts_frame. apply docker_call_starts.
Qed.

Lemma docker_redeployContainer_starts e ident :
  starts_with (Exec "docker compose down && docker compose up -d"
                    (dockerService.containerDirOf e ident))
    (dockerService.redeployContainer e ident).
Proof. unfold dockerService.redeployContainer. starts_frame. Qed.

Lemma docker_backupContainer_starts e ident :
  starts_with (Fs Mkdir (cwd e ++ "/backups"))
    (dockerService.backupContainer e ident).
Proof. unfold dockerService.backupContainer. starts_frame. apply mkdir_starts. Qed.

Lemma docker_getContainerStatus_starts e ident :
  starts_with (DockerCall "inspect" ident)
    (dockerService.getContainerStatus e ident).
Proof.
  unfold dockerService.getContainerStatus. starts_frame. apply docker_call_starts.
Qed.

Lemma docker_getContainerLogs_starts e ident lines :
  starts_with (DockerCall "logs" ident)
    (dockerService.getContainerLogs e ident lines).
Proof.
  unfold dockerService.getContainerLogs. starts_frame. apply docker_call_starts.
Qed.

Lemma docker_deleteContainer_starts e ident :
  starts_with (Exec "docker compose down -v" (dockerService.containerDirOf e ident))
    (dockerService.deleteContainer e ident).
Proof.
  unfold dockerService.deleteContainer. starts_frame. apply execAsync_starts.
Qed.

(** A driver call followed by the write of the status: when the whole
    succeeds, the driver succeeded and the catalog is the one it started
    from with the status written. *)
Lemma lifecycle_ok (driver : M string) e s id (msg : string) w a w' :
  keeps runtime_only driver ->
  (driver ;;; containerService.set_status e s id ;;; ret msg) w = (Ok a, w') ->
  exists x w1,
    driver w = (Ok x, w1)
    /\ runtime_only w w1
    /\ w' = set_catalog (pool.update_status s id (clock w / 1000) (catalog w)) w1.
Proof.
  intros Hk H. split_ok H. split_ok H. inversion H; subst.
  pose proof (keeps_run Hk Hstep) as Hro.
  apply set_status_inv in Hstep0.
  destruct Hstep0 as [[_ ->] | [err [Hx _]]]; [| discriminate Hx].
  exists a0, w0. repeat split; try apply Hro; try exact Hstep.
  destruct Hro as (-> & _ & _ & ->). reflexivity.
Qed.

(** The same for [deleteContainer]: driver, best-effort proxy deletion,
    release of the port, status. *)
Lemma delete_ok e id c w a w' :
  (dockerService.deleteContainer e (container_identifier c) ;;;
   try_catch
     (fastpanelService.deleteSite e (subdomain c ++ "." ++ BASE_DOMAIN e) ;;; ret tt)
     (fun error => console ("FastPanel deletion failed: " ++ message error)) ;;;
   pool.query e UPDATE_port_free (pool.write (fun _ => pool.update_port_free id)) ;;;
   containerService.set_status e deleted id ;;;
   ret "Container deleted successfully") w = (Ok a, w') ->
  exists w1 w2,
    dockerService.deleteContainer e (container_identifier c) w = (Ok "deleted", w1)
    /\ snd (try_catch
              (fastpanelService.deleteSite e (subdomain c ++ "." ++ BASE_DOMAIN e) ;;; ret tt)
              (fun error => console ("FastPanel deletion failed: " ++ message error))
              w1) = w2
    /\ catalog w2 = catalog w
    /\ w' = set_catalog
              (pool.update_status deleted id (clock w2 / 1000)
                 (pool.update_port_free id (catalog w))) w2.
Proof.
  intros H. split_ok H. split_ok H. split_ok H. split_ok H. inversion H; subst.
  pose proof (keeps_run (@docker_deleteContainer_runtime_only e _) Hstep) as Hro.
  pose proof (keeps_run (@delete_proxy_step_proxy_only e _) Hstep0) as Hpo.
  apply free_port_inv in Hstep1.
  destruct Hstep1 as [[_ ->] | [err [Hx _]]]; [| discriminate Hx].
  apply set_status_inv in Hstep2.
  destruct Hstep2 as [[_ ->] | [err [Hx _]]]; [| discriminate Hx].
  assert (a0 = "deleted") as ->.
  { unfold dockerService.deleteContainer in Hstep.
    split_ok Hstep. split_ok Hstep. inversion Hstep; reflexivity. }
  exists w0, w1. rewrite Hstep0. simpl.
  destruct Hro as (Hc & _), Hpo as (Hc' & _).
  split; [exact Hstep |]. split; [reflexivity |]. split; [congruence |].
  unfold set_catalog. simpl. rewrite Hc', Hc. reflexivity.
Qed.

(** * Port allocation *)

Lemma lowest_spec (rows : list PortRow) :
  match pool.lowest rows with
  | Some m => In m rows /\ forall r, In r rows -> pa_port m <= pa_port r
  | None => rows = []
  end.
Proof.
  induction rows as [| r rest IH]; simpl; [reflexivity |].
  destruct (pool.lowest rest) as [m |].
  - destruct IH as [Hin Hle].
    destruct (Z.ltb_spec (pa_port m) (pa_port r)).
    + split; [now right |]. intros x [<- | Hx]; [lia | now apply Hle].
    + split; [now left |]. intros x [<- | Hx]; [lia |].
      specialize (Hle x Hx). lia.
  - subst rest. split; [now left |]. intros x [<- | []]. lia.
Qed.

(** C2 (as amended): with the catalog reachable, [getAvailablePort] either
    returns the lowest-numbered port whose availability flag is true, or, when
    no flag is true, throws "No available ports"; in both cases it leaves the
    world as it found it, so the flag of the port it returns is still true. *)
Theorem getAvailablePort_lowest_and_unmarked (e : Env) (w : World) :
  db_error e SELECT_available_port = None ->
  match containerService.getAvailablePort e w with
  | (Ok p, w') =>
      w' = w
      /\ (exists r, In r (port_assignments (catalog w'))
                    /\ pa_port r = p /\ is_available r = true)
      /\ (forall r, In r (port_assignments (catalog w)) ->
                    is_available r = true -> p <= pa_port r)
  | (Throw err, w') =>
      w' = w
      /\ err = Error "No available ports"
      /\ (forall r, In r (port_assignments (catalog w)) -> is_available r = false)
  end.
Proof.
  intros Hdb.
  unfold containerService.getAvailablePort, bind, pool.query, pool.read,
    pool.select_available_port.
  rewrite Hdb, set_catalog_same.
  pose proof (lowest_spec (filter is_available (port_assignments (catalog w)))) as L.
  destruct (pool.lowest _) as [m |]; simpl.
  - destruct L as [Hin Hle]. apply filter_In in Hin. destruct Hin as [Hin Hav].
    repeat split.
    + exists m. auto.
    + intros r Hr Hr'. apply Hle. apply filter_In. auto.
  - repeat split. intros r Hr.
    destruct (is_available r) eqn:Hav; [| reflexivity].
    assert (In r (filter is_available (port_assignments (catalog w)))) as Hf
      by (apply filter_In; auto).
    rewrite L in Hf. destruct Hf.
Qed.

Lemma getAvailablePort_lowest_and_unmarked_witness :
  match containerService.getAvailablePort Scenario.nominal Scenario.world0 with
  | (Ok p, w') =>
      w' = Scenario.world0
      /\ (exists r, In r (port_assignments (catalog w'))
                    /\ pa_port r = p /\ is_available r = true)
      /\ (forall r, In r (port_assignments (catalog Scenario.world0)) ->
                    is_available r = true -> p <= pa_port r)
  | (Throw err, w') =>
      w' = Scenario.world0
      /\ err = Error "No available ports"
      /\ (forall r, In r (port_assignments (catalog Scenario.world0)) ->
                    is_available r = false)
  end.
Proof.
  apply (getAvailablePort_lowest_and_unmarked Scenario.nominal Scenario.world0).
  reflexivity.
Defined.

(** C2 (as stated) fails: on the pool {14000, 14001}, both free, allocation
    returns 14000 and the flag of 14000 is still true when it returns: the
    selection marks nothing. *)
Lemma getAvailablePort_leaves_flag_true :
  exists w',
    containerService.getAvailablePort Scenario.nominal Scenario.world0 = (Ok 14000, w')
    /\ ~ (forall r, In r (port_assignments (catalog w')) ->
                    pa_port r = 14000 -> is_available r = false).
Proof.
  eexists. split; [reflexivity |].
  intros H. specialize (H (Scenario.free 14000) (or_introl eq_refl) eq_refl).
  discriminate H.
Qed.

(** * The session of the proxy client *)

(** C7: [getToken] returns the cached token, without any request, exactly
    when a token is cached and more than 5 minutes remain until its expiry;
    in every other case it is a fresh [login], which (when the control plane
    answers) caches and returns the new token. *)
Theorem getToken_cached_iff_fresh (e : Env) (w : World) :
  let cached :=
    truthy (token (session w)) = true
    /\ exists t, tokenExpire (session w) = Some (Some t)
                 /\ 5 * 60 * 1000 < t - clock w in
  (cached -> fastpanelService.getToken e w = (Ok (token (session w)), w))
  /\ (~ cached -> fastpanelService.getToken e w = fastpanelService.login e w)
  /\ (http_error e POST_login = None ->
      exists w',
        fastpanelService.login e w = (Ok (login_token e), w')
        /\ session w' = {| token := login_token e;
                           tokenExpire := Some (login_expire e) |}
        /\ trace w' = (trace w ++ [Http POST_login;
                                   Log "✅ FastPanel login successful"])%list).
Proof.
  intros cached. subst cached. repeat split.
  - intros [Ht [t [He Hlt]]].
    unfold fastpanelService.getToken, bind, gets. rewrite Ht, He.
    unfold fastpanelService.fresh_enough.
    apply Z.ltb_lt in Hlt. rewrite Hlt. reflexivity.
  - intros Hn.
    unfold fastpanelService.getToken, bind, gets.
    destruct (truthy (token (session w))) eqn:Ht; [| reflexivity].
    destruct (tokenExpire (session w)) as [[t |] |] eqn:He;
      unfold fastpanelService.fresh_enough; try reflexivity.
    destruct (Z.ltb_spec (5 * 60 * 1000) (t - clock w)); [| reflexivity].
    exfalso. apply Hn. split; [reflexivity |]. exists t. auto.
  - intros Hh. eexists.
    unfold fastpanelService.login, fastpanelService.request, try_catch, bind,
      console, emit, modify, gets, may_fail, ret.
    rewrite Hh. cbn. repeat split.
    unfold add_event, set_session, set_panel. simpl.
    rewrite <- app_assoc. reflexivity.
Qed.

(** * Operations addressed by id *)

Ltac unfold_ops :=
  unfold run, by_id, containerService.stopContainer, containerService.startContainer,
    containerService.restartContainer, containerService.redeployContainer,
    containerService.backupContainer, containerService.getContainerStatus,
    containerService.getContainerLogs, containerService.deleteContainer.

(** C4 (as amended): an operation addressed by id fails with "Container not
    found", touching nothing, when no row has that id.  When a row has it,
    deleted or not, the operation goes on to the runtime driver with the row's
    identifier; if it then succeeds, stop, start, restart, redeploy and delete
    have written their status into the rows of that id, while backup, status
    and logs have left the catalog as it was. *)
Theorem by_id_not_found_only_when_absent (e : Env) (a : Action) (id : Z) (w : World) :
  db_error e SELECT_container = None ->
  match pool.select_container id (catalog w) with
  | [] => run e (On a id) w = (Throw (Error "Container not found"), w)
  | c :: _ =>
      (exists rest,
         trace (snd (run e (On a id) w))
         = (trace w ++ driver_call e a (container_identifier c) :: rest)%list)
      /\ forall w', run e (On a id) w = (Ok tt, w') ->
           match status_written a with
           | Some s =>
               exists now,
                 containers (catalog w')
                 = rows_with_status s id now (containers (catalog w))
           | None => catalog w' = catalog w
           end
  end.
Proof.
  intros Hdb.
  pose proof (select_by_id_eval e id w Hdb) as Hsel.
  destruct (pool.select_container id (catalog w)) as [| c rows].
  - destruct a;
      (unfold_ops; erewrite void_bind_throw by exact Hsel; reflexivity).
  - destruct a; unfold_ops;
      (split;
       [ erewrite void_bind_ok by exact Hsel; apply void_starts
       | intros w' H; erewrite void_bind_ok in H by exact Hsel;
         apply void_inv in H; destruct H as [[x9 [H _]] | [err [_ H]]];
         [ | discriminate H ] ]).
    + simpl driver_call. starts_frame. apply docker_stopContainer_starts.
    + apply lifecycle_ok in H; [| apply docker_stopContainer_runtime_only].
      destruct H as (x & w1 & _ & _ & ->). eexists. reflexivity.
    + simpl driver_call. starts_frame. apply docker_startContainer_starts.
    + apply lifecycle_ok in H; [| apply docker_startContainer_runtime_only].
      destruct H as (x & w1 & _ & _ & ->). eexists. reflexivity.
    + simpl driver_call. starts_frame. apply docker_restartContainer_starts.
    + apply lifecycle_ok in H; [| apply docker_restartContainer_runtime_only].
      destruct H as (x & w1 & _ & _ & ->). eexists. reflexivity.
    + simpl driver_call. starts_frame. apply docker_redeployContainer_starts.
    + apply lifecycle_ok in H; [| apply docker_redeployContainer_runtime_only].
      destruct H as (x & w1 & _ & _ & ->). eexists. reflexivity.
    + simpl driver_call. starts_frame. apply docker_backupContainer_starts.
    + split_ok H. inversion H; subst.
      apply (keeps_run (@docker_backupContainer_runtime_only e _)) in Hstep.
      apply Hstep.
    + simpl driver_call. starts_frame. apply docker_getContainerStatus_starts.
    + split_ok H. inversion H; subst.
      apply (keeps_run (@docker_getContainerStatus_runtime_only e _)) in Hstep.
      apply Hstep.
    + simpl driver_call. starts_frame. apply docker_getContainerLogs_starts.
    + apply (keeps_run (@docker_getContainerLogs_runtime_only e _ _)) in H.
      apply H.
    + simpl driver_call. starts_frame. apply docker_deleteContainer_starts.
    + apply delete_ok in H. destruct H as (w1 & w2 & _ & _ & _ & ->).
      eexists. reflexivity.
Qed.

Lemma by_id_not_found_only_when_absent_witness :
  run Scenario.nominal (On Stop 7) Scenario.world0
  = (Throw (Error "Container not found"), Scenario.world0).
Proof.
  exact (@by_id_not_found_only_when_absent Scenario.nominal Stop 7
           Scenario.world0 eq_refl).
Defined.

(** C4 (as stated) fails: the row of id 1 has status deleted, yet deleting
    it again and reading its status both succeed instead of failing with a
    not-found error. *)
Lemma deleted_row_is_still_found :
  map status (pool.select_container 1 (catalog Scenario.removed)) = [deleted]
  /\ fst (run Scenario.nominal (On Delete 1) Scenario.removed) = Ok tt
  /\ fst (run Scenario.nominal (On GetStatus 1) Scenario.removed) = Ok tt.
Proof. vm_compute. repeat split. Qed.

(** * Frame of the lifecycle operations *)

Lemma rows_with_status_frame s id now rows :
  Forall2
    (fun r r' =>
       other_columns r' = other_columns r
       /\ (row_id r <> id -> r' = r)
       /\ (row_id r = id ->
           status r' = s
           /\ updated_at r' = if Status_eqb (status r) s then updated_at r else now))
    rows (rows_with_status s id now rows).
Proof.
  induction rows as [| r rows IH]; simpl; constructor; [| exact IH].
  destruct (Z.eqb_spec (row_id r) id) as [E | E].
  - repeat split; intros; congruence.
  - repeat split; intros; congruence.
Qed.

(** C10 (as amended): a successful stop, start, restart or redeploy leaves
    the port-assignment table, the services, the control plane and every row
    of another id as they were; in the rows of the given id it writes the
    status ('stopped' for stop, 'running' for the others) and, when that
    changes the stored status, the row's [updated_at], which the schema sets
    to CURRENT_TIMESTAMP; every other column keeps its value, so a stopped
    instance keeps its port reserved. *)
Theorem lifecycle_touches_status_only (e : Env) (a : Action) (id : Z) (w w' : World) :
  In a [Stop; Start; Restart; Redeploy] ->
  run e (On a id) w = (Ok tt, w') ->
  let s := match a with Stop => stopped | _ => running end in
  port_assignments (catalog w') = port_assignments (catalog w)
  /\ services (catalog w') = services (catalog w)
  /\ auto_increment (catalog w') = auto_increment (catalog w)
  /\ panel w' = panel w
  /\ Forall2
       (fun r r' =>
          other_columns r' = other_columns r
          /\ (row_id r <> id -> r' = r)
          /\ (row_id r = id ->
              status r' = s
              /\ updated_at r' = if Status_eqb (status r) s then updated_at r
                                 else clock w / 1000))
       (containers (catalog w)) (containers (catalog w')).
Proof.
  intros Ho H.
  assert (exists (driver : M string) (msg : string) x,
             keeps runtime_only driver
             /\ (driver ;;; containerService.set_status e
                              (match a with Stop => stopped | _ => running end) id ;;;
                  ret msg) w = (Ok x, w')) as (driver & msg & x & Hk & Hrun).
  { simpl in Ho.
    destruct Ho as [<- | [<- | [<- | [<- | []]]]]; unfold_ops;
      apply void_inv in H; destruct H as [[x0 [H _]] | [err [_ H]]];
      try discriminate H;
      split_ok H; apply select_by_id_inv in Hstep; destruct Hstep as [-> _];
      do 3 eexists; (split; [| exact H]).
    - apply docker_stopContainer_runtime_only.
    - apply docker_startContainer_runtime_only.
    - apply docker_restartContainer_runtime_only.
    - apply docker_redeployContainer_runtime_only. }
  apply lifecycle_ok in Hrun; [| exact Hk].
  destruct Hrun as (y & w1 & _ & (_ & Hp & _) & ->).
  cbv zeta. simpl. repeat split; try assumption.
  apply rows_with_status_frame.
Qed.

Lemma lifecycle_touches_status_only_witness :
  port_assignments (catalog (snd (run Scenario.nominal (On Stop 1) Scenario.created)))
  = port_assignments (catalog Scenario.created).
Proof.
  apply (@lifecycle_touches_status_only Scenario.nominal Stop 1
           Scenario.created
           (snd (run Scenario.nominal (On Stop 1) Scenario.created))).
  - simpl. auto.
  - vm_compute. reflexivity.
Defined.

(** C10 (as stated) fails: stopping the running instance one minute after
    its creation changes, besides [status], the column [updated_at] of its
    row (from second 5 to second 60). *)
Lemma stop_also_touches_updated_at :
  exists w',
    run Scenario.nominal (On Stop 1) (set_clock 60000 Scenario.created) = (Ok tt, w')
    /\ map updated_at (containers (catalog Scenario.created)) = [5]
    /\ map updated_at (containers (catalog w')) = [60]
    /\ map status (containers (catalog w')) = [stopped].
Proof. eexists. vm_compute. repeat split. Qed.

(** * Provisioning *)

Lemma keeps_weaken {A} (R R' : World -> World -> Prop) (m : M A) :
  (forall w w', R w w' -> R' w w') -> keeps R m -> keeps R' m.
Proof. intros HR Hm w. apply HR, Hm. Qed.

Lemma runtime_only_catalog {A} (m : M A) :
  keeps runtime_only m -> keeps (same catalog) m.
Proof. apply keeps_weaken. intros w w' H. apply H. Qed.

Lemma proxy_only_catalog {A} (m : M A) :
  keeps proxy_only m -> keeps (same catalog) m.
Proof. apply keeps_weaken. intros w w' H. apply H. Qed.

Lemma console_same_catalog line : keeps (same catalog) (console line).
Proof. intros w. reflexivity. Qed.

(** The proxy step of [createContainer] with its rollback. *)
Lemma site_step_same_catalog e sub p ident :
  keeps (same catalog)
    (try_catch (fastpanelService.createSite e sub p)
       (fun error =>
          console "❌ FastPanel creation failed, rolling back..." ;;;
          try_catch (dockerService.deleteContainer e ident ;;; ret tt)
            (fun cleanupError =>
               console ("⚠️  Cleanup error: " ++ message cleanupError)) ;;;
          throw (Error ("FastPanel site creation failed: " ++ message error)))).
Proof.
  repeat keeps_step (@same_refl Catalog catalog) (@same_trans Catalog catalog);
    auto using console_same_catalog.
  - apply proxy_only_catalog, createSite_proxy_only.
  - apply runtime_only_catalog, docker_deleteContainer_runtime_only.
Qed.

Lemma query_read_inv {A} e q (f : Catalog -> A) w r w' :
  pool.query e q (pool.read f) w = (r, w') ->
  w' = w /\ forall a, r = Ok a -> a = f (catalog w).
Proof.
  unfold pool.query, pool.read. destruct (db_error e q); intros H.
  - inversion H; subst. split; [reflexivity | discriminate].
  - rewrite set_catalog_same in H. inversion H; subst.
    split; [reflexivity |]. intros a Ha. inversion Ha; reflexivity.
Qed.

Lemma getAvailablePort_inv e w r w' :
  containerService.getAvailablePort e w = (r, w') ->
  w' = w
  /\ forall p, r = Ok p ->
       exists rest, pool.select_available_port (catalog w) = p :: rest.
Proof.
  unfold containerService.getAvailablePort. intros H.
  apply bind_inv in H. destruct H as [[err [H1 ->]] | [ports [w1 [H1 H]]]].
  - apply query_read_inv in H1. split; [apply H1 | discriminate].
  - apply query_read_inv in H1. destruct H1 as [-> Hp].
    specialize (Hp ports eq_refl). rewrite <- Hp.
    destruct ports as [| p rest]; inversion H; subst.
    + split; [reflexivity | discriminate].
    + split; [reflexivity |]. intros q Hq. inversion Hq; subst. eauto.
Qed.

Lemma query_insert_inv e equal cid ident iname sname sub p cpu mem dpath site w r w' :
  pool.query e INSERT_container
    (pool.insert_container equal cid ident iname sname sub p cpu mem dpath site) w
    = (r, w') ->
  (exists err, r = Throw err /\ catalog w' = catalog w)
  \/ (exists id c1,
        pool.insert_container equal cid ident iname sname sub p cpu mem dpath site
          (clock w / 1000) (catalog w) = (Ok id, c1)
        /\ r = Ok id /\ w' = set_catalog c1 w).
Proof.
  unfold pool.query, pool.CURRENT_TIMESTAMP.
  destruct (db_error e INSERT_container).
  - intros H. inversion H; subst. left. eauto.
  - destruct (pool.insert_container _ _ _ _ _ _ _ _ _ _ _ _ _) as [[id | err] c1] eqn:E;
      intros H; inversion H; subst.
    + right. eauto.
    + left. exists err. split; [reflexivity |].
      unfold pool.insert_container in E.
      destruct (pool.duplicate_key _ _ _); inversion E; subst. reflexivity.
Qed.

Lemma query_used_inv e id p w r w' :
  pool.query e UPDATE_port_used (pool.write (fun _ => pool.update_port_used id p)) w
    = (r, w') ->
  (r = Ok tt /\ w' = set_catalog (pool.update_port_used id p (catalog w)) w)
  \/ (exists err, r = Throw err /\ w' = w).
Proof.
  unfold pool.query, pool.write.
  destruct (db_error e UPDATE_port_used); intros H; inversion H; subst; eauto.
Qed.

(** Every run of [createContainer]: either the catalog is untouched, or the
    runtime container and the proxy site were both created, the row was
    inserted and, unless the call then failed, the port was marked. *)
Lemma createContainer_cases e data w r w' :
  containerService.createContainer e data w = (r, w') ->
  catalog w' = catalog w
  \/ exists p rest cpu mem info w1 site w2 id c1,
       let iname := containerService.instanceName data in
       let sname := containerService.serviceName data in
       let ident := iname ++ "-" ++ sname in
       pool.select_available_port (catalog w) = p :: rest
       /\ dockerService.createContainer e iname sname ident p (cpu, mem) w
          = (Ok info, w1)
       /\ fastpanelService.createSite e ident p w1 = (Ok site, w2)
       /\ catalog w2 = catalog w
       /\ pool.insert_container (sql_equal e) (dockerService.containerId info) ident iname sname
            ident p cpu mem (dockerService.dataPath info)
            (Some (fastpanelService.siteId site)) (clock w2 / 1000) (catalog w)
          = (Ok id, c1)
       /\ ((exists err, r = Throw err /\ w' = set_catalog c1 w2)
           \/ ((exists res, r = Ok res)
               /\ w' = set_catalog (pool.update_port_used id p c1) w2)).
Proof.
  unfold containerService.createContainer. cbv zeta.
  destruct (negb _).
  { intros H. inversion H; subst. left. reflexivity. }
  intros H.
  apply bind_inv in H. destruct H as [[err [H1 ->]] | [svcs [w0 [H1 H]]]];
    apply query_read_inv in H1; destruct H1 as [-> _]; [left; reflexivity |].
  destruct svcs as [| service svcs].
  { inversion H; subst. left. reflexivity. }
  apply bind_inv in H. destruct H as [[err [H1 ->]] | [existing [w0 [H1 H]]]];
    apply query_read_inv in H1; destruct H1 as [-> _]; [left; reflexivity |].
  destruct existing as [| x existing].
  2: { inversion H; subst. left. reflexivity. }
  apply bind_inv in H. destruct H as [[err [H1 ->]] | [p [w0 [H1 H]]]];
    apply getAvailablePort_inv in H1; destruct H1 as [-> Hp]; [left; reflexivity |].
  destruct (Hp p eq_refl) as [rest Hsel].
  apply bind_inv in H. destruct H as [[err [H1 ->]] | [info [w1 [H1 H]]]].
  { left. apply (keeps_run (@docker_createContainer_runtime_only e _ _ _ _ _) H1). }
  pose proof (keeps_run (@docker_createContainer_runtime_only e _ _ _ _ _) H1) as [Hc1 _].
  apply bind_inv in H. destruct H as [[err [H2 ->]] | [site [w2 [H2 H]]]].
  { left. pose proof (keeps_run (@site_step_same_catalog e _ _ _) H2) as Hc2.
    unfold same in Hc2. congruence. }
  pose proof (keeps_run (@site_step_same_catalog e _ _ _) H2) as Hc2.
  unfold same in Hc2.
  assert (fastpanelService.createSite e
            (containerService.instanceName data ++ "-" ++ containerService.serviceName data)
            p w1 = (Ok site, w2)) as Hsite.
  { apply try_inv in H2.
    destruct H2 as [[s [E Hs]] | [err [w3 [_ H2]]]].
    - inversion Hs; subst. exact E.
    - exfalso. apply bind_inv in H2.
      destruct H2 as [[err' [_ Hx]] | [a [w4 [_ H2]]]]; [discriminate Hx |].
      apply bind_inv in H2.
      destruct H2 as [[err' [_ Hx]] | [a' [w5 [_ H2]]]]; [discriminate Hx |].
      discriminate H2. }
  apply bind_inv in H. destruct H as [[err [H3 ->]] | [id [w3 [H3 H]]]];
    apply query_insert_inv in H3;
    destruct H3 as [[err' [Hr Hc3]] | [id' [c1 [Hins [Hr ->]]]]];
    try discriminate Hr.
  { left. congruence. }
  inversion Hr; subst id'.
  rewrite Hc2, Hc1 in Hins.
  right. exists p, rest. do 2 eexists. exists info, w1, site, w2, id, c1.
  cbv zeta.
  split; [exact Hsel |]. split; [exact H1 |]. split; [exact Hsite |].
  split; [congruence |]. split; [exact Hins |].
  apply bind_inv in H. destruct H as [[err [H4 ->]] | [u [w4 [H4 H]]]];
    apply query_used_inv in H4;
    destruct H4 as [[Hr' ->] | [err' [Hr' ->]]]; try discriminate Hr'.
  - left. eauto.
  - right. inversion H; subst. split; [eauto |]. reflexivity.
Qed.

(** ** What the runtime driver's delete achieves *)

Lemma find_after_remove name cs :
  find (dockerService.named name)
       (filter (fun c => negb (dockerService.named name c)) cs) = None.
Proof.
  induction cs as [| c cs IH]; simpl; [reflexivity |].
  destruct (dockerService.named name c) eqn:E; simpl; [exact IH |].
  rewrite E. exact IH.
Qed.

Lemma dir_gone_after_rm d ds :
  existsb (String.eqb d)
    (filter (fun p => negb ((p =? d)%string || String.prefix (d ++ "/") p)) ds)
  = false.
Proof.
  induction ds as [| x ds IH]; simpl; [reflexivity |].
  destruct (String.eqb_spec x d) as [-> | Hne]; simpl; [exact IH |].
  destruct (String.prefix (d ++ "/") x); simpl; [exact IH |].
  rewrite IH. destruct (String.eqb_spec d x); [congruence | reflexivity].
Qed.

Lemma docker_deleteContainer_effect e ident w :
  fs_error e Rm = None ->
  exists w',
    dockerService.deleteContainer e ident w = (Ok "deleted", w')
    /\ In (Exec "docker compose down -v" (dockerService.containerDirOf e ident))
          (trace w')
    /\ dockerService.dir_exists (dockerService.containerDirOf e ident) (runtime w')
       = false
    /\ (shell_error e ComposeDown = None ->
        dockerService.dir_exists (dockerService.containerDirOf e ident) (runtime w)
        = true ->
        dockerService.find_container ident (runtime w') = None).
Proof.
  intros Hrm.
  unfold dockerService.deleteContainer, dockerService.execAsync, dockerService.rm,
    dockerService.fs_call, try_catch, bind, console, emit, modify, gets, may_fail,
    ret, throw.
  rewrite Hrm. simpl.
  destruct (shell_error e ComposeDown) as [msg |]; simpl.
  - eexists. split; [reflexivity |]. simpl. split.
    + rewrite !in_app_iff. simpl. auto 10.
    + split; [apply dir_gone_after_rm | discriminate].
  - destruct (dockerService.dir_exists _ (runtime w)) eqn:Hd; simpl.
    + eexists. split; [reflexivity |]. simpl. split.
      * rewrite !in_app_iff. simpl. auto 10.
      * split; [apply dir_gone_after_rm |]. intros _ _.
        apply find_after_remove.
    + eexists. split; [reflexivity |]. simpl. split.
      * rewrite !in_app_iff. simpl. auto 10.
      * split; [apply dir_gone_after_rm | discriminate].
Qed.

Lemma dir_kept_refl d w : dir_kept d w w.
Proof. intros H. exact H. Qed.

Lemma dir_kept_trans d a b c : dir_kept d a b -> dir_kept d b c -> dir_kept d a c.
Proof. unfold dir_kept. auto. Qed.

Lemma dir_kept_same_dirs d w w' :
  dirs (runtime w') = dirs (runtime w) -> dir_kept d w w'.
Proof. unfold dir_kept, dockerService.dir_exists. intros ->. auto. Qed.

Lemma emit_dir_kept d ev : keeps (dir_kept d) (emit ev).
Proof. intros w. apply dir_kept_same_dirs. reflexivity. Qed.

Lemma console_dir_kept d line : keeps (dir_kept d) (console line).
Proof. apply emit_dir_kept. Qed.

Ltac dir_frame d :=
  repeat keeps_step (dir_kept_refl d) (@dir_kept_trans d);
  auto using emit_dir_kept, console_dir_kept.

Lemma mkdir_dir_kept d x e : keeps (dir_kept d) (dockerService.mkdir e x).
Proof.
  unfold dockerService.mkdir, dockerService.fs_call. dir_frame d.
  apply keeps_modify. intros w.
  destruct (dockerService.dir_exists x (runtime w)); [apply dir_kept_refl |].
  unfold dir_kept, dockerService.dir_exists. simpl.
  rewrite existsb_app. intros ->. reflexivity.
Qed.

Lemma mkdir_creates e d w a w' :
  dockerService.mkdir e d w = (Ok a, w') ->
  dockerService.dir_exists d (runtime w') = true.
Proof.
  unfold dockerService.mkdir, dockerService.fs_call, bind, emit, modify, may_fail.
  destruct (fs_error e Mkdir); simpl; [discriminate |].
  unfold dockerService.dir_exists.
  destruct (existsb (String.eqb d) (dirs (runtime w))) eqn:E;
    intros H; inversion H; subst; simpl.
  - exact E.
  - rewrite existsb_app. simpl. rewrite String.eqb_refl.
    rewrite orb_true_r. reflexivity.
Qed.

Lemma docker_create_makes_dir e iname sname sub p res w info w1 :
  dockerService.createContainer e iname sname sub p res w = (Ok info, w1) ->
  dockerService.dir_exists
    (dockerService.containerDirOf e (iname ++ "-" ++ sname)) (runtime w1) = true.
Proof.
  unfold dockerService.createContainer. cbv zeta.
  set (d := dockerService.containerDirOf e (iname ++ "-" ++ sname)).
  intros H. apply try_inv in H.
  destruct H as [[x [E Hx]] | [err [w0 [_ H]]]].
  - inversion Hx; subst x. clear Hx.
    split_ok E. apply mkdir_creates in Hstep.
    revert Hstep. apply (keeps_run (R := dir_kept d)) with (2 := E).
    unfold dockerService.generateEnvFile, dockerService.fs_call,
      dockerService.execAsync.
    dir_frame d; try apply mkdir_dir_kept;
      apply keeps_modify; intros w'; apply dir_kept_same_dirs;
      unfold dockerService.compose_up, dockerService.run_container,
        dockerService.set_running;
      try destruct (dockerService.find_container _ _); reflexivity.
  - exfalso. apply bind_inv in H.
    destruct H as [[err' [_ Hx]] | [a [w4 [_ H]]]]; [discriminate Hx |].
    apply bind_inv in H.
    destruct H as [[err' [_ Hx]] | [a' [w5 [_ H]]]]; [discriminate Hx |].
    discriminate H.
Qed.

(** C3 (as amended): when [createContainer] changes the catalog at all, the
    runtime container and the proxy site had both been created before, with
    the catalog still untouched at the end of the proxy step; what it then
    writes are two statements committed one after the other, the insert of
    the row and the marking of the port: either both are in the catalog and
    the call succeeded, or the call failed after the insert and only the row
    is there. *)
Theorem createContainer_persists_after_both
    (e : Env) (data : containerService.CreateData) (w : World)
    (r : Result containerService.Created) (w' : World) :
  containerService.createContainer e data w = (r, w') ->
  catalog w' <> catalog w ->
  let iname := containerService.instanceName data in
  let sname := containerService.serviceName data in
  let ident := iname ++ "-" ++ sname in
  exists p cpu mem info w1 site w2 id c1,
    dockerService.createContainer e iname sname ident p (cpu, mem) w = (Ok info, w1)
    /\ fastpanelService.createSite e ident p w1 = (Ok site, w2)
    /\ catalog w2 = catalog w
    /\ pool.insert_container (sql_equal e) (dockerService.containerId info) ident iname sname
         ident p cpu mem (dockerService.dataPath info)
         (Some (fastpanelService.siteId site)) (clock w2 / 1000) (catalog w)
       = (Ok id, c1)
    /\ (((exists err, r = Throw err) /\ catalog w' = c1)
        \/ ((exists res, r = Ok res)
            /\ catalog w' = pool.update_port_used id p c1)).
Proof.
  intros H Hneq. cbv zeta.
  apply createContainer_cases in H. destruct H as [H | H]; [contradiction |].
  destruct H as (p & rest & cpu & mem & info & w1 & site & w2 & id & c1 & H).
  cbv zeta in H. destruct H as (_ & Hd & Hs & Hc & Hi & Hw).
  exists p, cpu, mem, info, w1, site, w2, id, c1.
  repeat (split; [assumption |]).
  destruct Hw as [[err [-> ->]] | [Hr ->]]; [left | right]; eauto.
Qed.

Lemma createContainer_persists_after_both_witness :
  exists p cpu mem info w1 site w2 id c1,
    dockerService.createContainer Scenario.nominal "alpha" "demo" "alpha-demo" p
      (cpu, mem) Scenario.world0 = (Ok info, w1)
    /\ fastpanelService.createSite Scenario.nominal "alpha-demo" p w1 = (Ok site, w2)
    /\ catalog w2 = catalog Scenario.world0
    /\ pool.insert_container (sql_equal Scenario.nominal)
         (dockerService.containerId info) "alpha-demo" "alpha"
         "demo" "alpha-demo" p cpu mem (dockerService.dataPath info)
         (Some (fastpanelService.siteId site)) (clock w2 / 1000)
         (catalog Scenario.world0)
       = (Ok id, c1)
    /\ (((exists err,
            fst (containerService.createContainer Scenario.nominal Scenario.alpha
                   Scenario.world0) = Throw err)
         /\ catalog Scenario.created = c1)
        \/ ((exists res,
               fst (containerService.createContainer Scenario.nominal Scenario.alpha
                      Scenario.world0) = Ok res)
            /\ catalog Scenario.created = pool.update_port_used id p c1)).
Proof.
  apply (@createContainer_persists_after_both Scenario.nominal Scenario.alpha
           Scenario.world0
           (fst (containerService.createContainer Scenario.nominal Scenario.alpha
                   Scenario.world0))
           Scenario.created).
  - vm_compute. reflexivity.
  - vm_compute. discriminate.
Defined.

(** C3 (as stated) fails: when the statement that marks the port fails, the
    row inserted just before stays in the catalog while the port is still
    available: the two writes are not one transaction. *)
Lemma insert_survives_failed_port_update :
  exists w',
    containerService.createContainer
      (Scenario.failing
         (fun q => match q with
                   | UPDATE_port_used => Some "Connection lost"
                   | _ => None
                   end)
         (fun _ => None) (fun _ => None))
      Scenario.alpha Scenario.world0
    = (Throw (Error "Connection lost"), w')
    /\ map container_identifier (containers (catalog w')) = ["alpha-demo"]
    /\ port_assignments (catalog w') = [Scenario.free 14000; Scenario.free 14001].
Proof. eexists. vm_compute. repeat split. Qed.

Lemma select_available_port_In c p rest :
  pool.select_available_port c = p :: rest ->
  exists r, In r (port_assignments c) /\ pa_port r = p /\ is_available r = true.
Proof.
  unfold pool.select_available_port.
  pose proof (lowest_spec (filter is_available (port_assignments c))) as L.
  destruct (pool.lowest _) as [m |]; [| discriminate].
  intros H. inversion H; subst. destruct L as [Hin _].
  apply filter_In in Hin. exists m. tauto.
Qed.

Lemma query_read_eval {A} e q (f : Catalog -> A) w :
  db_error e q = None -> pool.query e q (pool.read f) w = (Ok (f (catalog w)), w).
Proof.
  intros H. unfold pool.query, pool.read. rewrite H, set_catalog_same. reflexivity.
Qed.

Lemma docker_deleteContainer_trace e ident w :
  In (Exec "docker compose down -v" (dockerService.containerDirOf e ident))
     (trace (snd (dockerService.deleteContainer e ident w))).
Proof.
  destruct (docker_deleteContainer_starts e ident w) as [rest ->].
  apply in_or_app. right. left. reflexivity.
Qed.

Lemma execAsync_ok_inv e call cmd dir effect w a w' :
  dockerService.execAsync e call cmd dir effect w = (Ok a, w') ->
  runtime w' = effect (runtime w).
Proof.
  unfold dockerService.execAsync, bind, emit, modify, may_fail, gets.
  destruct (shell_error e call); simpl; [discriminate |].
  destruct (dockerService.dir_exists dir (runtime w)); intros H; inversion H.
  reflexivity.
Qed.

Lemma find_after_set_running name cs c :
  find (dockerService.named name) cs = Some c ->
  exists c',
    find (dockerService.named name)
      (map (fun x => if dockerService.named name x
                     then {| Name := Name x; Id := Id x; Running := true |} else x) cs)
    = Some c'
    /\ Running c' = true.
Proof.
  induction cs as [| x cs IH]; simpl; [discriminate |].
  destruct (dockerService.named name x) eqn:E.
  - intros _. simpl. unfold dockerService.named in *. simpl. rewrite E.
    eexists. split; reflexivity.
  - intros H. simpl. rewrite E. apply IH. exact H.
Qed.

Lemma compose_up_runs name r :
  exists c, dockerService.find_container name (dockerService.compose_up name r) = Some c
            /\ Running c = true.
Proof.
  unfold dockerService.compose_up.
  destruct (dockerService.find_container name r) as [c |] eqn:E.
  - unfold dockerService.find_container in *. simpl.
    apply find_after_set_running with (c := c). exact E.
  - unfold dockerService.find_container, dockerService.run_container. simpl.
    unfold dockerService.named at 1. simpl. rewrite String.eqb_refl.
    eexists. split; reflexivity.
Qed.

Lemma docker_create_makes_container e iname sname sub p res w info w1 :
  dockerService.createContainer e iname sname sub p res w = (Ok info, w1) ->
  exists c,
    dockerService.find_container (iname ++ "-" ++ sname) (runtime w1) = Some c
    /\ Running c = true.
Proof.
  unfold dockerService.createContainer. cbv zeta.
  intros H. apply try_inv in H.
  destruct H as [[x [E Hx]] | [err [w0 [_ H]]]].
  - inversion Hx; subst x. clear Hx.
    do 8 (split_ok E).
    match goal with
    | Hexec : dockerService.execAsync ?a1 ?a2 ?a3 ?a4 ?a5 ?a6 = ?rhs |- _ =>
        apply execAsync_ok_inv in Hexec; rename Hexec into Hrt
    end.
    match goal with
    | Hg : gets ?f ?wa = (Ok ?found, ?wb) |- _ => inversion Hg; subst; clear Hg
    end.
    match goal with
    | Hr : runtime ?wx = dockerService.compose_up _ _ |- _ =>
        assert (runtime w1 = runtime wx) as Hw
          by (destruct (dockerService.listContainers _ _); inversion E; reflexivity);
        rewrite Hw, Hr
    end.
    apply compose_up_runs.
  - exfalso. apply bind_inv in H.
    destruct H as [[err' [_ Hx]] | [a [w4 [_ H]]]]; [discriminate Hx |].
    apply bind_inv in H.
    destruct H as [[err' [_ Hx]] | [a' [w5 [_ H]]]]; [discriminate Hx |].
    discriminate H.
Qed.

(** A teardown that fails leaves the containers of the daemon alone. *)
Lemma docker_deleteContainer_keeps_containers e ident msg w :
  shell_error e ComposeDown = Some msg ->
  docker_containers (runtime (snd (dockerService.deleteContainer e ident w)))
  = docker_containers (runtime w).
Proof.
  intros Hdown.
  unfold dockerService.deleteContainer, dockerService.execAsync, dockerService.rm,
    dockerService.fs_call, try_catch, bind, console, emit, modify, gets, may_fail,
    ret, throw.
  rewrite Hdown. simpl. destruct (fs_error e Rm); reflexivity.
Qed.

(** A removal that fails leaves the directories alone. *)
Lemma docker_deleteContainer_keeps_dirs e ident msg w :
  fs_error e Rm = Some msg ->
  dirs (runtime (snd (dockerService.deleteContainer e ident w))) = dirs (runtime w).
Proof.
  intros Hrm.
  unfold dockerService.deleteContainer, dockerService.execAsync, dockerService.rm,
    dockerService.fs_call, try_catch, bind, console, emit, modify, gets, may_fail,
    ret, throw.
  rewrite Hrm. destruct (shell_error e ComposeDown); simpl; [reflexivity |].
  destruct (dockerService.dir_exists _ (runtime w)); reflexivity.
Qed.

(** The rollback of [createContainer], run after the proxy step failed with
    an error of message [msg]. *)
Lemma rollback_effect {A} e ident msg w :
  exists w',
    (console "❌ FastPanel creation failed, rolling back..." ;;;
     try_catch (dockerService.deleteContainer e ident ;;; ret tt)
       (fun cleanupError =>
          console ("⚠️  Cleanup error: " ++ message cleanupError)) ;;;
     throw (A := A) (Error ("FastPanel site creation failed: " ++ msg))) w
    = (Throw (Error ("FastPanel site creation failed: " ++ msg)), w')
    /\ In (Exec "docker compose down -v" (dockerService.containerDirOf e ident))
          (trace w')
    /\ (fs_error e Rm = None ->
        dockerService.dir_exists (dockerService.containerDirOf e ident) (runtime w')
        = false
        /\ (shell_error e ComposeDown = None ->
            dockerService.dir_exists (dockerService.containerDirOf e ident)
              (runtime w) = true ->
            dockerService.find_container ident (runtime w') = None))
    /\ catalog w' = catalog w
    /\ (shell_error e ComposeDown <> None ->
        docker_containers (runtime w') = docker_containers (runtime w))
    /\ (fs_error e Rm <> None -> dirs (runtime w') = dirs (runtime w)).
Proof.
  set (wa := add_event (Log "❌ FastPanel creation failed, rolling back...") w).
  pose proof (docker_deleteContainer_trace e ident wa) as Htr.
  pose proof (@docker_deleteContainer_runtime_only e ident wa) as [Hcat _].
  assert (Hkeep : shell_error e ComposeDown <> None ->
                  docker_containers
                    (runtime (snd (dockerService.deleteContainer e ident wa)))
                  = docker_containers (runtime w)).
  { intros Hdown. destruct (shell_error e ComposeDown) as [m |] eqn:Hm;
      [| contradiction].
    apply (docker_deleteContainer_keeps_containers e ident wa Hm). }
  assert (Hdirs : fs_error e Rm <> None ->
                  dirs (runtime (snd (dockerService.deleteContainer e ident wa)))
                  = dirs (runtime w)).
  { intros Hrm. destruct (fs_error e Rm) as [m |] eqn:Hm; [| contradiction].
    apply (docker_deleteContainer_keeps_dirs e ident wa Hm). }
  unfold bind, try_catch, console, emit, modify, throw, ret. fold wa.
  destruct (dockerService.deleteContainer e ident wa) as [[x | ce] wd] eqn:E;
    simpl in Htr, Hcat, Hkeep, Hdirs; eexists; (split; [reflexivity |]).
  - split; [exact Htr |].
    split; [| split; [exact Hcat | split; [exact Hkeep | exact Hdirs]]].
    intros Hrm.
    destruct (docker_deleteContainer_effect e ident wa Hrm)
      as (w'' & Hdel & _ & Hnodir & Hnocont).
    rewrite E in Hdel. inversion Hdel; subst w''. auto.
  - simpl. split; [apply in_or_app; left; exact Htr |].
    split; [| split; [exact Hcat | split; [exact Hkeep | exact Hdirs]]].
    intros Hrm.
    destruct (docker_deleteContainer_effect e ident wa Hrm) as (w'' & Hdel & _).
    rewrite E in Hdel. discriminate Hdel.
Qed.

(** C1 (as amended): when the proxy-site step of [createContainer] fails after
    the runtime container was created, the call fails with
    "FastPanel site creation failed: " followed by the message of the proxy
    failure, whatever the rollback does; the runtime driver's delete has been
    run on the identifier, so that the working directory is gone when its
    removal succeeds and the container too when the teardown succeeds as
    well, whereas a teardown that fails leaves the container running and a
    removal that fails leaves the directory; the port chosen is still
    available; and no row has been written:
    the catalog is as it was before the call, without any row that equals
    the identifier and is not deleted. *)
Theorem createContainer_compensates
    (e : Env) (data : containerService.CreateData) (w : World)
    (service : ServiceRow) (svcs : list ServiceRow) (p : Z) (rest : list Z)
    (info : dockerService.ContainerInfo) (w1 : World) (err : JsError) (w2 : World) :
  let iname := containerService.instanceName data in
  let sname := containerService.serviceName data in
  let ident := iname ++ "-" ++ sname in
  let res := match containerService.resources data with
             | Some r => (containerService.cpu r, containerService.memory r)
             | None => (None, None)
             end in
  let dir := dockerService.containerDirOf e ident in
  containerService.valid_instance_name iname = true ->
  (forall q, db_error e q = None) ->
  pool.select_service (sql_equal e) sname (catalog w) = service :: svcs ->
  pool.select_existing (sql_equal e) ident (catalog w) = [] ->
  pool.select_available_port (catalog w) = p :: rest ->
  dockerService.createContainer e iname sname ident p
    (js_or (fst res) (default_cpu service), js_or (snd res) (default_memory service)) w
    = (Ok info, w1) ->
  fastpanelService.createSite e ident p w1 = (Throw err, w2) ->
  exists w',
    containerService.createContainer e data w
    = (Throw (Error ("FastPanel site creation failed: " ++ message err)), w')
    /\ In (Exec "docker compose down -v" dir) (trace w')
    /\ (fs_error e Rm = None ->
        dockerService.dir_exists dir (runtime w') = false
        /\ (shell_error e ComposeDown = None ->
            dockerService.find_container ident (runtime w') = None))
    /\ (shell_error e ComposeDown <> None ->
        exists c, dockerService.find_container ident (runtime w') = Some c
                  /\ Running c = true)
    /\ (fs_error e Rm <> None -> dockerService.dir_exists dir (runtime w') = true)
    /\ (exists r, In r (port_assignments (catalog w'))
                  /\ pa_port r = p /\ is_available r = true)
    /\ catalog w' = catalog w
    /\ pool.select_existing (sql_equal e) ident (catalog w') = [].
Proof.
  cbv zeta. intros Hvalid Hdb Hsvc Hex Hport Hdocker Hsite.
  pose proof (docker_create_makes_dir _ _ _ _ _ _ _ Hdocker) as Hdir.
  pose proof (keeps_run (@docker_createContainer_runtime_only e _ _ _ _ _) Hdocker)
    as [Hc1 _].
  pose proof (keeps_run (@createSite_proxy_only e _ _) Hsite) as [Hc2 Hr2].
  set (ident := containerService.instanceName data ++ "-"
                ++ containerService.serviceName data) in *.
  destruct (@rollback_effect fastpanelService.SiteDescriptor e ident (message err) w2)
    as (w' & Hroll & Htrace & Hgone & Hc3 & Hkept & Hdirs).
  pose proof (docker_create_makes_container _ _ _ _ _ _ _ Hdocker) as Hcont.
  exists w'. split.
  - unfold containerService.createContainer. cbv zeta. rewrite Hvalid.
    change (negb true) with false. cbv iota.
    erewrite bind_ok by (apply query_read_eval, Hdb). rewrite Hsvc.
    erewrite bind_ok by (apply query_read_eval, Hdb). fold ident. rewrite Hex.
    erewrite bind_ok.
    2: { unfold containerService.getAvailablePort.
         erewrite bind_ok by (apply query_read_eval, Hdb).
         rewrite Hport. reflexivity. }
    assert (forall (x y : option string * option string), x = y ->
              dockerService.createContainer e (containerService.instanceName data)
                (containerService.serviceName data) ident p x w = (Ok info, w1) ->
              dockerService.createContainer e (containerService.instanceName data)
                (containerService.serviceName data) ident p y w = (Ok info, w1))
      as Hcast by (intros x y ->; auto).
    erewrite bind_ok.
    2: { eapply Hcast; [| exact Hdocker].
         destruct (containerService.resources data); reflexivity. }
    erewrite bind_throw; [reflexivity |].
    erewrite try_throw by exact Hsite. exact Hroll.
  - split; [exact Htrace |]. split.
    + intros Hrm. destruct (Hgone Hrm) as [Hnodir Hnocont].
      split; [exact Hnodir |]. intros Hdown. apply Hnocont; [exact Hdown |].
      rewrite Hr2. exact Hdir.
    + split.
      { intros Hdown. unfold dockerService.find_container.
        rewrite (Hkept Hdown), Hr2. exact Hcont. }
      split.
      { intros Hrm. unfold dockerService.dir_exists.
        rewrite (Hdirs Hrm), Hr2. exact Hdir. }
      assert (catalog w' = catalog w) as Hcat by congruence.
      rewrite Hcat. split; [| split; [reflexivity | exact Hex]].
      eapply select_available_port_In. exact Hport.
Qed.

Lemma createContainer_compensates_witness :
  exists w',
    containerService.createContainer Scenario.proxy_down Scenario.alpha Scenario.world0
    = (Throw (Error ("FastPanel site creation failed: "
                     ++ "Failed to create FastPanel site: connect ECONNREFUSED")), w')
    /\ In (Exec "docker compose down -v" "/srv/users/alpha-demo") (trace w')
    /\ (fs_error Scenario.proxy_down Rm = None ->
        dockerService.dir_exists "/srv/users/alpha-demo" (runtime w') = false
        /\ (shell_error Scenario.proxy_down ComposeDown = None ->
            dockerService.find_container "alpha-demo" (runtime w') = None))
    /\ (shell_error Scenario.proxy_down ComposeDown <> None ->
        exists c, dockerService.find_container "alpha-demo" (runtime w') = Some c
                  /\ Running c = true)
    /\ (fs_error Scenario.proxy_down Rm <> None ->
        dockerService.dir_exists "/srv/users/alpha-demo" (runtime w') = true)
    /\ (exists r, In r (port_assignments (catalog w'))
                  /\ pa_port r = 14000 /\ is_available r = true)
    /\ catalog w' = catalog Scenario.world0
    /\ pool.select_existing (sql_equal Scenario.proxy_down) "alpha-demo" (catalog w') = [].
Proof.
  eapply (@createContainer_compensates Scenario.proxy_down Scenario.alpha
            Scenario.world0 _ _ 14000 [] _ _
            (Error "Failed to create FastPanel site: connect ECONNREFUSED")).
  - reflexivity.
  - intros q. reflexivity.
  - reflexivity.
  - reflexivity.
  - reflexivity.
  - vm_compute. reflexivity.
  - vm_compute. reflexivity.
Defined.

(** C1 (as stated) fails: the removal of the runtime instance is attempted,
    not ensured.  On a fresh installation, with the creation of the proxy
    site refused and, in the rollback, [docker compose down -v] and the
    removal of the directory failing, the call fails with the wrapped proxy
    error while the container it has just created is still there, running,
    and so is its working directory. *)
Lemma failed_rollback_leaves_container_running :
  exists err w' c,
    containerService.createContainer Scenario.rollback_down Scenario.alpha
      Scenario.world0 = (Throw err, w')
    /\ message err = "FastPanel site creation failed: "
                     ++ "Failed to create FastPanel site: connect ECONNREFUSED"
    /\ dockerService.find_container "alpha-demo" (runtime Scenario.world0) = None
    /\ dockerService.dir_exists "/srv/users/alpha-demo" (runtime Scenario.world0) = false
    /\ dockerService.find_container "alpha-demo" (runtime w') = Some c
    /\ Running c = true
    /\ dockerService.dir_exists "/srv/users/alpha-demo" (runtime w') = true.
Proof. do 3 eexists. vm_compute. repeat split. Qed.

(** * The port pool invariant *)

Lemma NoDup_map_inj {A} (f : A -> Z) (l : list A) x y :
  NoDup (map f l) -> In x l -> In y l -> f x = f y -> x = y.
Proof.
  induction l as [| a l IH]; simpl; [tauto |].
  intros Hnd Hx Hy Hf. inversion Hnd as [| ? ? Hnotin Hnd']; subst.
  destruct Hx as [-> | Hx], Hy as [-> | Hy]; auto.
  - exfalso. apply Hnotin. rewrite Hf. apply in_map. exact Hy.
  - exfalso. apply Hnotin. rewrite <- Hf. apply in_map. exact Hx.
Qed.

Lemma NoDup_snoc (l : list Z) x : NoDup l -> ~ In x l -> NoDup (l ++ [x]).
Proof.
  induction l as [| a l IH]; simpl; intros Hnd Hx.
  - constructor; [tauto | constructor].
  - inversion Hnd; subst. constructor.
    + rewrite in_app_iff. simpl. intros [H | [H | []]]; [tauto |].
      apply Hx. auto.
    + apply IH; tauto.
Qed.

Lemma distinct_NoDup l : distinct l = true -> NoDup l.
Proof.
  induction l as [| x l IH]; simpl; [constructor |].
  intros H. apply andb_true_iff in H. destruct H as [H1 H2].
  constructor; [| auto].
  intros Hin. apply negb_true_iff in H1.
  assert (existsb (Z.eqb x) l = true) as Hx.
  { apply existsb_exists. exists x. split; [exact Hin | apply Z.eqb_refl]. }
  congruence.
Qed.

Lemma live_iff r : live r = true <-> status r <> deleted.
Proof. unfold live. destruct (status r); simpl; split; congruence. Qed.

Lemma Inv_b_sound c : Inv_b c = true -> Inv c.
Proof.
  unfold Inv_b. intros H.
  repeat (apply andb_true_iff in H; destruct H as [H ?]).
  rewrite forallb_forall in H.
  constructor.
  - intros pa Hpa Hav. specialize (H pa Hpa). unfold port_row_ok in H.
    rewrite Hav in H. apply existsb_exists in H. destruct H as [r [Hr H]].
    repeat (apply andb_true_iff in H; destruct H as [H ?]).
    exists r. split; [exact Hr |]. split; [apply live_iff; exact H |].
    split; [apply Z.eqb_eq; assumption |].
    destruct (pa_container_id pa) as [o |]; [| discriminate].
    f_equal. apply Z.eqb_eq. assumption.
  - intros pa Hpa Hav. specialize (H pa Hpa). unfold port_row_ok in H.
    rewrite Hav in H. destruct (pa_container_id pa); [discriminate |].
    split; [reflexivity |]. intros r Hr Hlive Hport.
    rewrite forallb_forall in H. specialize (H r Hr).
    apply live_iff in Hlive. apply Z.eqb_eq in Hport.
    rewrite Hlive, Hport in H. discriminate H.
  - apply distinct_NoDup. assumption.
  - intros r Hr.
    match goal with
    | F : forallb _ (containers c) = true |- _ =>
        rewrite forallb_forall in F; apply Z.ltb_lt, F, Hr
    end.
  - apply distinct_NoDup. assumption.
Qed.

Lemma Inv_flag c : Inv c -> flag_matches_rows c.
Proof.
  intros I pa Hpa. split.
  - intros Hav. destruct (inv_taken I pa Hpa Hav) as (r & Hr & Hl & Hp & _).
    eauto.
  - intros (r & Hr & Hl & Hp).
    destruct (is_available pa) eqn:Hav; [| reflexivity].
    destruct (inv_free I pa Hpa Hav) as [_ Hno]. exfalso. eapply Hno; eauto.
Qed.

(** The catalog of a fresh installation: no instance, every port free. *)
Lemma Inv_fresh_installation c :
  containers c = [] ->
  (forall pa, In pa (port_assignments c) ->
              is_available pa = true /\ pa_container_id pa = None) ->
  Inv c.
Proof.
  intros Hrows Hports. constructor; rewrite ?Hrows; simpl.
  - intros pa Hpa Hav. destruct (Hports pa Hpa) as [Ht _]. congruence.
  - intros pa Hpa _. destruct (Hports pa Hpa) as [_ Ho]. split; [exact Ho |].
    intros r [].
  - constructor.
  - intros r [].
  - constructor.
Qed.

(** A rewrite of the rows that keeps ids and ports. *)
Lemma map_keeps_column {B} (col : ContainerRow -> B) (g : ContainerRow -> ContainerRow) rows :
  (forall r, col (g r) = col r) -> map col (map g rows) = map col rows.
Proof. intros H. rewrite map_map. apply map_ext. exact H. Qed.

Lemma with_status_or_same_id s id now r :
  row_id (if row_id r =? id then pool.with_status s now r else r) = row_id r.
Proof. destruct (row_id r =? id); reflexivity. Qed.

Lemma with_status_or_same_port s id now r :
  port (if row_id r =? id then pool.with_status s now r else r) = port r.
Proof. destruct (row_id r =? id); reflexivity. Qed.

(** Writing a status other than deleted into rows that are not deleted. *)
Lemma Inv_update_status_live c s id now :
  Inv c ->
  s <> deleted ->
  (forall r, In r (containers c) -> row_id r = id -> status r <> deleted) ->
  Inv (pool.update_status s id now c).
Proof.
  intros I Hs Hlive.
  set (g := fun r => if row_id r =? id then pool.with_status s now r else r).
  assert (Hg : forall r, In r (containers c) ->
                         (status (g r) <> deleted <-> status r <> deleted)).
  { intros r Hr. unfold g. destruct (Z.eqb_spec (row_id r) id) as [E | E]; [| tauto].
    simpl. split; intros _; auto. }
  constructor; simpl.
  - intros pa Hpa Hav. destruct (inv_taken I pa Hpa Hav) as (r & Hr & Hl & Hp & Ho).
    exists (g r). split; [apply in_map; exact Hr |].
    split; [apply Hg; assumption |].
    unfold g. rewrite with_status_or_same_id, with_status_or_same_port. auto.
  - intros pa Hpa Hav. destruct (inv_free I pa Hpa Hav) as [Ho Hno].
    split; [exact Ho |]. intros r' Hr' Hl'.
    apply in_map_iff in Hr'. destruct Hr' as (r & <- & Hr).
    rewrite with_status_or_same_port. apply Hno; [exact Hr |].
    apply (Hg r Hr). exact Hl'.
  - rewrite map_keeps_column; [apply (inv_ids I) |].
    intros r. apply with_status_or_same_id.
  - intros r' Hr'. apply in_map_iff in Hr'. destruct Hr' as (r & <- & Hr).
    rewrite with_status_or_same_id. apply (inv_fresh I). exact Hr.
  - rewrite map_keeps_column; [apply (inv_ports I) |].
    intros r. apply with_status_or_same_port.
Qed.

(** Releasing the ports of an id, then marking its rows deleted. *)
Lemma Inv_delete c id now :
  Inv c -> Inv (pool.update_status deleted id now (pool.update_port_free id c)).
Proof.
  intros I.
  set (g := fun r => if row_id r =? id then pool.with_status deleted now r else r).
  assert (Hg : forall r, status (g r) <> deleted ->
                         g r = r /\ row_id r <> id /\ status r <> deleted).
  { intros r. unfold g. destruct (Z.eqb_spec (row_id r) id) as [E | E]; simpl.
    - congruence.
    - auto. }
  constructor; simpl.
  - intros pa' Hpa' Hav. apply in_map_iff in Hpa'. destruct Hpa' as (pa & <- & Hpa).
    destruct (pa_container_id pa) as [o |] eqn:Ho.
    + destruct (Z.eqb_spec o id) as [-> | Hne]; [discriminate Hav |].
      destruct (inv_taken I pa Hpa Hav) as (r & Hr & Hl & Hp & Hown).
      assert (row_id r <> id) as Hid by congruence.
      assert (g r = r) as Hgr
        by (unfold g; apply Z.eqb_neq in Hid; rewrite Hid; reflexivity).
      exists r. split; [apply in_map_iff; exists r; auto |].
      repeat split; assumption.
    + destruct (inv_taken I pa Hpa Hav) as (r & _ & _ & _ & Hown). congruence.
  - intros pa' Hpa' Hav. apply in_map_iff in Hpa'. destruct Hpa' as (pa & <- & Hpa).
    assert (forall r, In r (containers c) -> status r <> deleted ->
                      row_id r <> id -> pa_container_id pa = Some id ->
                      port r <> pa_port pa) as Hfreed.
    { intros r Hr Hl Hid Hown Hport.
      destruct (is_available pa) eqn:Hav0.
      - destruct (inv_free I pa Hpa Hav0) as [Hnone _]. congruence.
      - destruct (inv_taken I pa Hpa Hav0) as (r0 & Hr0 & _ & Hp0 & Hown0).
        assert (r = r0) as ->.
        { apply (NoDup_map_inj port (containers c)); auto.
          - apply (inv_ports I).
          - congruence. }
        rewrite Hown in Hown0. inversion Hown0. congruence. }
    destruct (pa_container_id pa) as [o |] eqn:Ho.
    + destruct (Z.eqb_spec o id) as [-> | Hne]; simpl.
      * split; [reflexivity |]. intros r' Hr' Hl'.
        apply in_map_iff in Hr'. destruct Hr' as (r & <- & Hr).
        destruct (Hg r Hl') as (Hgr & Hid & Hl).
        change (port (g r) <> pa_port pa). rewrite Hgr. apply Hfreed; auto.
      * destruct (inv_free I pa Hpa Hav) as [Hnone _]. congruence.
    + split; [exact Ho |]. intros r' Hr' Hl'.
      apply in_map_iff in Hr'. destruct Hr' as (r & <- & Hr).
      destruct (Hg r Hl') as (Hgr & Hid & Hl).
      change (port (g r) <> pa_port pa). rewrite Hgr.
      destruct (inv_free I pa Hpa Hav) as [_ Hno]. apply Hno; assumption.
  - rewrite map_keeps_column; [apply (inv_ids I) |].
    intros r. apply with_status_or_same_id.
  - intros r' Hr'. apply in_map_iff in Hr'. destruct Hr' as (r & <- & Hr).
    rewrite with_status_or_same_id. apply (inv_fresh I). exact Hr.
  - rewrite map_keeps_column; [apply (inv_ports I) |].
    intros r. apply with_status_or_same_port.
Qed.

(** Inserting a row, then marking its port. *)
Lemma Inv_create equal c cid ident iname sname sub p cpu mem dpath site now id c1 :
  Inv c ->
  pool.insert_container equal cid ident iname sname sub p cpu mem dpath site now c
    = (Ok id, c1) ->
  Inv (pool.update_port_used id p c1).
Proof.
  intros I. unfold pool.insert_container.
  destruct (pool.duplicate_key _ _ c) eqn:Hdup; [discriminate |].
  intros H. inversion H; subst. clear H.
  match goal with
  | |- context [(containers c ++ [?row])%list] => set (n := row)
  end.
  assert (Hfresh_port : forall r, In r (containers c) -> port r <> p).
  { intros r Hr Hp. unfold pool.duplicate_key in Hdup.
    assert (existsb
              (fun r0 => equal (container_id r0) (container_id n)
                         || equal (container_identifier r0) (container_identifier n)
                         || equal (subdomain r0) (subdomain n)
                         || (port r0 =? port n)) (containers c) = true) as Hx.
    { apply existsb_exists. exists r. split; [exact Hr |].
      simpl. apply Z.eqb_eq in Hp. rewrite Hp. apply orb_true_r. }
    unfold n in Hx. simpl in Hx. simpl in Hdup. congruence. }
  constructor; simpl.
  - intros pa' Hpa' Hav. apply in_map_iff in Hpa'. destruct Hpa' as (pa & <- & Hpa).
    destruct (Z.eqb_spec (pa_port pa) p) as [E | E].
    + exists n. rewrite in_app_iff. simpl. repeat split; auto. discriminate.
    + destruct (inv_taken I pa Hpa Hav) as (r & Hr & Hl & Hp & Ho).
      exists r. rewrite in_app_iff. auto.
  - intros pa' Hpa' Hav. apply in_map_iff in Hpa'. destruct Hpa' as (pa & <- & Hpa).
    destruct (Z.eqb_spec (pa_port pa) p) as [E | E]; [discriminate Hav |].
    destruct (inv_free I pa Hpa Hav) as [Ho Hno]. split; [exact Ho |].
    intros r Hr Hl. apply in_app_iff in Hr. destruct Hr as [Hr | [<- | []]].
    + apply Hno; assumption.
    + simpl. congruence.
  - rewrite map_app. simpl. apply NoDup_snoc; [apply (inv_ids I) |].
    intros Hin. apply in_map_iff in Hin. destruct Hin as (r & Hid & Hr).
    pose proof (inv_fresh I r Hr). lia.
  - intros r Hr. apply in_app_iff in Hr. destruct Hr as [Hr | [<- | []]].
    + pose proof (inv_fresh I r Hr). lia.
    + simpl. lia.
  - rewrite map_app. simpl. apply NoDup_snoc; [apply (inv_ports I) |].
    intros Hin. apply in_map_iff in Hin. destruct Hin as (r & Hp & Hr).
    exact (Hfresh_port r Hr Hp).
Qed.

Lemma select_container_In id c r rest :
  pool.select_container id c = r :: rest -> In r (containers c) /\ row_id r = id.
Proof.
  intros H.
  assert (In r (pool.select_container id c)) as Hin by (rewrite H; left; reflexivity).
  apply filter_In in Hin. destruct Hin as [Hin Hid].
  apply Z.eqb_eq in Hid. auto.
Qed.

(** C5 (as amended): on a catalog that satisfies [Inv], every operation of the
    orchestrator that succeeds, other than a stop, start, restart or redeploy
    addressed to a row whose status is deleted, leaves a catalog that
    satisfies [Inv]; in it a port's availability flag is false if and only if
    some row that is not deleted references the port. *)
Theorem flag_invariant_preserved (e : Env) (o : Operation) (w w' : World) :
  Inv (catalog w) ->
  ~ revives o (catalog w) ->
  run e o w = (Ok tt, w') ->
  Inv (catalog w') /\ flag_matches_rows (catalog w').
Proof.
  intros I Hrev H.
  assert (Inv (catalog w')) as I'; [| split; [exact I' | apply Inv_flag, I']].
  assert (forall (driver : M string) s id (msg x : string),
             keeps runtime_only driver ->
             s <> deleted ->
             (forall r, In r (containers (catalog w)) -> row_id r = id ->
                        status r <> deleted) ->
             (driver ;;; containerService.set_status e s id ;;; ret msg) w = (Ok x, w') ->
             Inv (catalog w')) as Hlife.
  { intros driver s id msg x Hk Hs Hl Hrun.
    apply lifecycle_ok in Hrun; [| exact Hk].
    destruct Hrun as (y & w1 & _ & _ & ->). simpl.
    apply Inv_update_status_live; assumption. }
  assert (forall id, (~ exists r, In r (containers (catalog w))
                                  /\ row_id r = id /\ status r = deleted) ->
                     forall r, In r (containers (catalog w)) -> row_id r = id ->
                               status r <> deleted) as Hnot.
  { intros id Hn r Hr Hid Hst. apply Hn. eauto. }
  destruct o as [data | a id]; [| destruct a]; unfold_ops; apply void_inv in H;
    destruct H as [[x0 [H _]] | [err [_ H]]]; try discriminate H.
  - (* create *)
    apply createContainer_cases in H. destruct H as [-> | H]; [exact I |].
    destruct H as (p & rest & cpu & mem & info & w1 & site & w2 & id & c1 & H).
    cbv zeta in H. destruct H as (_ & _ & _ & _ & Hins & Hw).
    destruct Hw as [[err [Hx _]] | [_ ->]]; [discriminate Hx |].
    simpl. eapply Inv_create; eassumption.
  - split_ok H. apply select_by_id_inv in Hstep. destruct Hstep as [-> _].
    eapply Hlife with (4 := H);
      [apply docker_stopContainer_runtime_only | discriminate | apply Hnot, Hrev].
  - split_ok H. apply select_by_id_inv in Hstep. destruct Hstep as [-> _].
    eapply Hlife with (4 := H);
      [apply docker_startContainer_runtime_only | discriminate | apply Hnot, Hrev].
  - split_ok H. apply select_by_id_inv in Hstep. destruct Hstep as [-> _].
    eapply Hlife with (4 := H);
      [apply docker_restartContainer_runtime_only | discriminate | apply Hnot, Hrev].
  - split_ok H. apply select_by_id_inv in Hstep. destruct Hstep as [-> _].
    eapply Hlife with (4 := H);
      [apply docker_redeployContainer_runtime_only | discriminate | apply Hnot, Hrev].
  - split_ok H. apply select_by_id_inv in Hstep. destruct Hstep as [-> _].
    split_ok H. inversion H; subst.
    destruct (keeps_run (@docker_backupContainer_runtime_only e _) Hstep) as [-> _].
    exact I.
  - split_ok H. apply select_by_id_inv in Hstep. destruct Hstep as [-> _].
    split_ok H. inversion H; subst.
    destruct (keeps_run (@docker_getContainerStatus_runtime_only e _) Hstep) as [-> _].
    exact I.
  - split_ok H. apply select_by_id_inv in Hstep. destruct Hstep as [-> _].
    destruct (keeps_run (@docker_getContainerLogs_runtime_only e _ _) H) as [-> _].
    exact I.
  - split_ok H. apply select_by_id_inv in Hstep. destruct Hstep as [-> _].
    apply delete_ok in H. destruct H as (w1 & w2 & _ & _ & _ & ->).
    simpl. apply Inv_delete. exact I.
Qed.

Lemma flag_invariant_preserved_witness :
  Inv (catalog Scenario.removed) /\ flag_matches_rows (catalog Scenario.removed).
Proof.
  apply (@flag_invariant_preserved Scenario.nominal (On Delete 1) Scenario.created).
  - apply Inv_b_sound. vm_compute. reflexivity.
  - simpl. tauto.
  - vm_compute. reflexivity.
Defined.

(** C5 (as stated) fails.  "alpha" is provisioned and deleted; provisioning
    it again fails at the insert (the deleted row holds the identifier) and
    leaves its container running; restarting the instance of id 1 then
    succeeds and writes 'running' into the deleted row.  After this completed
    operation port 14000 is available although the row of id 1, not deleted,
    references it. *)
Lemma restart_of_deleted_row_breaks_flag :
  Inv (catalog Scenario.retried)
  /\ run Scenario.nominal (On Restart 1) Scenario.retried = (Ok tt, Scenario.revived)
  /\ ~ flag_matches_rows (catalog Scenario.revived).
Proof.
  split; [apply Inv_b_sound; vm_compute; reflexivity |].
  split; [vm_compute; reflexivity |].
  intros H.
  specialize (H (Scenario.free 14000) (or_introl eq_refl)).
  destruct H as [_ H].
  assert (is_available (Scenario.free 14000) = false) as Hx; [| discriminate Hx].
  apply H. eexists. split; [left; reflexivity |]. split; [discriminate | reflexivity].
Qed.

(** * Deletion *)

Lemma free_port_eval e id w :
  db_error e UPDATE_port_free = None ->
  pool.query e UPDATE_port_free (pool.write (fun _ => pool.update_port_free id)) w
  = (Ok tt, set_catalog (pool.update_port_free id (catalog w)) w).
Proof. intros H. unfold pool.query, pool.write. rewrite H. reflexivity. Qed.

Lemma set_status_eval e s id w :
  db_error e UPDATE_status = None ->
  containerService.set_status e s id w
  = (Ok tt, set_catalog (pool.update_status s id (clock w / 1000) (catalog w)) w).
Proof.
  intros H. unfold containerService.set_status, pool.query, pool.write. rewrite H.
  reflexivity.
Qed.

(** The best-effort deletion of the proxy site never throws; when
    [deleteSite] does, its message is logged. *)
Lemma delete_proxy_step_eval e d w r w2 :
  fastpanelService.deleteSite e d w = (r, w2) ->
  exists w3,
    try_catch (fastpanelService.deleteSite e d ;;; ret tt)
      (fun error => console ("FastPanel deletion failed: " ++ message error)) w
    = (Ok tt, w3)
    /\ catalog w3 = catalog w /\ runtime w3 = runtime w
    /\ grows w2 w3
    /\ forall err, r = Throw err ->
         In (Log ("FastPanel deletion failed: " ++ message err)) (trace w3).
Proof.
  intros H.
  pose proof (keeps_run (@deleteSite_proxy_only e d) H) as [Hc Hr].
  unfold try_catch, bind. rewrite H. destruct r as [x | err].
  - exists w2. repeat split; auto using grows_refl. discriminate.
  - eexists. split; [reflexivity |]. simpl. repeat split; auto.
    + exists [Log ("FastPanel deletion failed: " ++ message err)]. reflexivity.
    + intros err' Herr. inversion Herr; subst.
      apply in_or_app. right. left. reflexivity.
Qed.



(** * The proxy client *)

Lemma no_cert_refl w : no_cert_request w w.
Proof. exists []. split; [symmetry; apply app_nil_r | reflexivity]. Qed.

Lemma no_cert_trans a b c :
  no_cert_request a b -> no_cert_request b c -> no_cert_request a c.
Proof.
  intros (l1 & H1 & F1) (l2 & H2 & F2). exists (l1 ++ l2)%list. split.
  - rewrite H2, H1. symmetry. apply app_assoc.
  - rewrite forallb_app, F1, F2. reflexivity.
Qed.

Lemma no_cert_same_trace w w' : trace w' = trace w -> no_cert_request w w'.
Proof.
  intros H. exists []. split; [rewrite H; symmetry; apply app_nil_r | reflexivity].
Qed.

Lemma emit_no_cert ev : is_cert_request ev = false -> keeps no_cert_request (emit ev).
Proof.
  intros H w. exists [ev]. split; [reflexivity |]. simpl. rewrite H. reflexivity.
Qed.

Lemma console_no_cert line : keeps no_cert_request (console line).
Proof. apply emit_no_cert. reflexivity. Qed.

Ltac no_cert_frame :=
  repeat keeps_step no_cert_refl no_cert_trans;
  auto using console_no_cert;
  try (apply keeps_modify; intros w; apply no_cert_same_trace; reflexivity).

Lemma request_no_cert {A} e r (serve : Panel -> Result A * Panel) :
  is_cert_request (Http r) = false ->
  keeps no_cert_request (fastpanelService.request e r serve).
Proof.
  intros H. unfold fastpanelService.request. no_cert_frame.
  - apply emit_no_cert. exact H.
  - intros w. destruct (serve (panel w)). apply no_cert_same_trace. reflexivity.
Qed.

Lemma login_no_cert e : keeps no_cert_request (fastpanelService.login e).
Proof.
  unfold fastpanelService.login. no_cert_frame. apply request_no_cert. reflexivity.
Qed.

Lemma getToken_no_cert e : keeps no_cert_request (fastpanelService.getToken e).
Proof. unfold fastpanelService.getToken. no_cert_frame; apply login_no_cert. Qed.

Lemma addDomain_no_cert e d : keeps no_cert_request (fastpanelService.addDomain e d).
Proof.
  unfold fastpanelService.addDomain. no_cert_frame.
  - apply getToken_no_cert.
  - apply request_no_cert. reflexivity.
Qed.

Lemma request_ok_inv {A} e r (serve : Panel -> Result A * Panel) w a w' :
  fastpanelService.request e r serve w = (Ok a, w') ->
  http_error e r = None /\ trace w' = (trace w ++ [Http r])%list.
Proof.
  unfold fastpanelService.request, bind, emit, modify, may_fail.
  destruct (http_error e r); simpl; [discriminate |].
  destruct (serve (panel w)) as [x p]. intros H. inversion H; subst.
  split; reflexivity.
Qed.

Lemma createSSL_grows e d site : keeps grows (fastpanelService.createSSL e d site).
Proof. unfold fastpanelService.createSSL; grows_frame; auto with grows. Qed.

(** [createSSL] never throws. *)
Lemma createSSL_spec e d site w :
  exists cert w' post,
    fastpanelService.createSSL e d site w = (Ok cert, w')
    /\ trace w' = (trace w ++ post)%list
    /\ (cert <> None -> In (Http (POST_certificates d site)) post)
    /\ (forall msg, http_error e (POST_certificates d site) = Some msg ->
          cert = None
          /\ In (Log "⚠️  Continuing without SSL...") post
          /\ exists m, In (Log ("❌ FastPanel SSL creation error: " ++ m)) post).
Proof.
  unfold fastpanelService.createSSL.
  match goal with
  | |- context [try_catch ?b ?h] => set (body := b); set (handler := h)
  end.
  assert (keeps grows body) as Hg by (unfold body; grows_frame; auto with grows).
  destruct (body w) as [[x | err] w1] eqn:E.
  - destruct (keeps_run Hg E) as [post Hpost].
    exists x, w1, post. split; [apply try_ok; exact E |]. split; [exact Hpost |].
    unfold body in E. split_ok E. split_ok E.
    apply request_ok_inv in Hstep0. destruct Hstep0 as [Hnone Htr].
    split_ok E. inversion E; subst. clear E.
    match goal with
    | Hc : console _ _ = (Ok _, _) |- _ => inversion Hc; subst; clear Hc
    end.
    split.
    + intros _.
      destruct (keeps_run (@getToken_grows e) Hstep) as [l0 Hl0].
      assert (post = l0 ++ [Http (POST_certificates d site);
                            Log ("✅ FastPanel SSL certificate created for: " ++ d)])%list
        as ->.
      { apply (app_inv_head (trace w)). rewrite <- Hpost. simpl.
        rewrite Htr, Hl0, <- !app_assoc. reflexivity. }
      apply in_or_app. right. left. reflexivity.
    + intros msg Hmsg. congruence.
  - destruct (keeps_run Hg E) as [l Hl].
    exists None. eexists.
    exists (l ++ [Log ("❌ FastPanel SSL creation error: " ++ message err);
                  Log "⚠️  Continuing without SSL..."])%list.
    split; [erewrite try_throw by exact E; reflexivity |]. simpl. split.
    + rewrite Hl, <- !app_assoc. reflexivity.
    + split; [congruence |]. intros msg _. split; [reflexivity |]. split.
      * apply in_or_app. right. right. left. reflexivity.
      * exists (message err). apply in_or_app. right. left. reflexivity.
Qed.

Lemma request_same_panel_login e :
  keeps (same panel) (fastpanelService.request e POST_login (fun p => (Ok tt, p))).
Proof.
  intros w. unfold fastpanelService.request, bind, emit, modify, may_fail.
  destruct (http_error e POST_login); reflexivity.
Qed.

Lemma login_same_panel e : keeps (same panel) (fastpanelService.login e).
Proof.
  unfold fastpanelService.login.
  repeat keeps_step (@same_refl Panel panel) (@same_trans Panel panel);
    try (intros w; reflexivity).
  apply request_same_panel_login.
Qed.

Lemma getToken_same_panel e : keeps (same panel) (fastpanelService.getToken e).
Proof.
  unfold fastpanelService.getToken.
  repeat keeps_step (@same_refl Panel panel) (@same_trans Panel panel);
    apply login_same_panel.
Qed.

(** When the login request is answered, [getToken] returns, from the cache
    or from a new login. *)
Lemma getToken_answers e w :
  http_error e POST_login = None ->
  exists tok w1, fastpanelService.getToken e w = (Ok tok, w1).
Proof.
  intros Hnet.
  assert (exists tok w1, fastpanelService.login e w = (Ok tok, w1)) as Hlogin.
  { unfold fastpanelService.login, fastpanelService.request, try_catch, bind,
      console, emit, modify, gets, may_fail, ret.
    rewrite Hnet. simpl. eauto. }
  unfold fastpanelService.getToken, bind, gets.
  destruct (if truthy _ then _ else _) as [expire |]; [| exact Hlogin].
  destruct (fastpanelService.fresh_enough _ _); [| exact Hlogin].
  unfold ret. eauto.
Qed.

(** With a token at hand [createSSL] sends the certificate request, and when
    the request is answered for a site that exists it returns the new
    certificate. *)
Lemma createSSL_requests e d site w cert w' post :
  fastpanelService.createSSL e d site w = (Ok cert, w') ->
  trace w' = (trace w ++ post)%list ->
  http_error e POST_login = None ->
  In (Http (POST_certificates d site)) post
  /\ (http_error e (POST_certificates d site) = None ->
      existsb (fun s => site_id s =? site) (sites (panel w)) = true ->
      exists cid,
        cert = Some {| fastpanelService.certificateId := cid;
                       fastpanelService.cert_domain := d;
                       fastpanelService.cert_status := "creating" |}
        /\ In (cid, d) (certificates (panel w'))).
Proof.
  intros Hrun Hpost Hnet.
  destruct (getToken_answers e w Hnet) as (tok & w1 & Htok).
  pose proof (keeps_run (@getToken_same_panel e) Htok) as Hp. unfold same in Hp.
  destruct (keeps_run (@getToken_grows e) Htok) as [l1 Hl1].
  unfold fastpanelService.createSSL in Hrun.
  unfold try_catch in Hrun. erewrite bind_ok in Hrun by exact Htok.
  unfold fastpanelService.request, bind, console, emit, modify, may_fail, ret,
    throw in Hrun.
  destruct (http_error e (POST_certificates d site)) as [msg |]; simpl in Hrun.
  - inversion Hrun; subst. clear Hrun. simpl in Hpost.
    rewrite Hl1, <- !app_assoc in Hpost. apply app_inv_head in Hpost. subst post.
    split; [| discriminate].
    apply in_or_app. right. left. reflexivity.
  - unfold fastpanelService.serve_create_certificate in Hrun. rewrite Hp in Hrun.
    destruct (existsb (fun s => site_id s =? site) (sites (panel w))) eqn:Hsite;
      simpl in Hrun; inversion Hrun; subst; clear Hrun; simpl in Hpost;
      rewrite Hl1, <- !app_assoc in Hpost; apply app_inv_head in Hpost; subst post.
    + split; [apply in_or_app; right; left; reflexivity |].
      intros _ _. eexists. split; [reflexivity |]. simpl.
      apply in_or_app. right. left. reflexivity.
    + split; [apply in_or_app; right; left; reflexivity |].
      intros _ Hx. discriminate Hx.
Qed.

(** C8: once the reverse-proxy site has been created, [createSite] logs,
    awaits a timer of 5000 ms and only then calls [createSSL]: no certificate
    is requested before the timer, and after it the request for the
    certificate of the new site is sent (provided a login that may be needed
    for the token is answered) and, when it is answered, the descriptor
    carries the certificate.  [createSSL] cannot make the call fail: it
    returns the site descriptor, and when the certificate request fails the
    descriptor has [ssl] null and the failure is in the log. *)
Theorem createSite_waits_and_tolerates_ssl_failure
    (e : Env) (sub : string) (p : Z) (w : World)
    (tok : option string) (w1 : World) (dr : fastpanelService.DomainResult)
    (w2 : World) (id : Z) (w3 : World) :
  let d := sub ++ "." ++ BASE_DOMAIN e in
  let up := "http://127.0.0.1:" ++ dec p in
  fastpanelService.getToken e w = (Ok tok, w1) ->
  fastpanelService.addDomain e d w1 = (Ok dr, w2) ->
  fastpanelService.request e (PUT_master d up)
    (fastpanelService.serve_create_site d up) w2 = (Ok id, w3) ->
  exists cert w5 pre post,
    fastpanelService.createSite e sub p w
    = (Ok {| fastpanelService.siteId := id; fastpanelService.domain := d;
             fastpanelService.site_status := "created";
             fastpanelService.upstream := up; fastpanelService.ssl := cert |}, w5)
    /\ trace w5
       = (trace w ++ pre
          ++ [Http (PUT_master d up);
              Log ("✅ FastPanel site created: " ++ d ++ " → port " ++ dec p);
              Log "⏳ Waiting 5 seconds for DNS propagation...";
              Timer 5000]
          ++ post)%list
    /\ forallb (fun ev => negb (is_cert_request ev)) pre = true
    /\ (cert <> None -> In (Http (POST_certificates d id)) post)
    /\ (forall msg, http_error e (POST_certificates d id) = Some msg ->
          cert = None
          /\ In (Log "⚠️  Continuing without SSL...") post
          /\ exists m, In (Log ("❌ FastPanel SSL creation error: " ++ m)) post)
    /\ (http_error e POST_login = None ->
        In (Http (POST_certificates d id)) post
        /\ (http_error e (POST_certificates d id) = None ->
            exists cid,
              cert = Some {| fastpanelService.certificateId := cid;
                             fastpanelService.cert_domain := d;
                             fastpanelService.cert_status := "creating" |}
              /\ In (cid, d) (certificates (panel w5)))).
Proof.
  cbv zeta. intros Htok Hdom Hput.
  set (d := sub ++ "." ++ BASE_DOMAIN e) in *.
  set (up := "http://127.0.0.1:" ++ dec p) in *.
  set (w4 := set_clock (clock w3 + 5000)
               (add_event (Timer 5000)
                  (add_event (Log "⏳ Waiting 5 seconds for DNS propagation...")
                     (add_event
                        (Log ("✅ FastPanel site created: " ++ d ++ " → port " ++ dec p))
                        w3)))).
  destruct (createSSL_spec e d id w4) as (cert & w5 & post & Hssl & Htr & Hreq & Hfail).
  destruct (keeps_run (@getToken_no_cert e) Htok) as (l1 & Hl1 & F1).
  destruct (keeps_run (@addDomain_no_cert e d) Hdom) as (l2 & Hl2 & F2).
  apply request_ok_inv in Hput as Hput'. destruct Hput' as [_ Hl3].
  assert (Hsite : existsb (fun s => site_id s =? id) (sites (panel w4)) = true).
  { unfold w4. simpl.
    unfold fastpanelService.request, bind, emit, modify, may_fail in Hput.
    destruct (http_error e (PUT_master d up)); simpl in Hput; [discriminate Hput |].
    unfold fastpanelService.serve_create_site in Hput.
    destruct (existsb _ (sites (panel w2))); inversion Hput; subst. simpl.
    rewrite existsb_app. simpl. rewrite Z.eqb_refl. apply orb_true_r. }
  exists cert, w5, (l1 ++ l2)%list, post.
  split; [| split; [| split; [| split; [| split]]]].
  - unfold fastpanelService.createSite. fold d. fold up.
    apply try_ok.
    erewrite bind_ok by exact Htok.
    erewrite bind_ok by exact Hdom.
    erewrite bind_ok by exact Hput.
    unfold console, fastpanelService.setTimeout.
    erewrite bind_ok by reflexivity.
    erewrite bind_ok by reflexivity.
    erewrite bind_ok by (erewrite bind_ok by reflexivity; reflexivity).
    erewrite bind_ok by exact Hssl. reflexivity.
  - rewrite Htr. unfold w4. simpl. rewrite Hl3, Hl2, Hl1.
    rewrite <- !app_assoc. reflexivity.
  - rewrite forallb_app, F1, F2. reflexivity.
  - exact Hreq.
  - exact Hfail.
  - intros Hnet.
    destruct (@createSSL_requests e d id w4 cert w5 post Hssl Htr Hnet)
      as [Hsent Hcert].
    split; [exact Hsent |]. intros Hans. apply Hcert; assumption.
Qed.

Lemma createSite_waits_and_tolerates_ssl_failure_witness :
  exists w5 post,
    fastpanelService.createSite Scenario.cert_down "alpha-demo" 14000 Scenario.world0
    = (Ok {| fastpanelService.siteId := 2;
             fastpanelService.domain := "alpha-demo.example.test";
             fastpanelService.site_status := "created";
             fastpanelService.upstream := "http://127.0.0.1:14000";
             fastpanelService.ssl := None |}, w5)
    /\ In (Timer 5000) (trace w5)
    /\ In (Http (POST_certificates "alpha-demo.example.test" 2)) post.
Proof.
  edestruct (@createSite_waits_and_tolerates_ssl_failure Scenario.cert_down
               "alpha-demo" 14000 Scenario.world0)
    as (cert & w5 & pre & post & Hrun & Htr & _ & _ & Hfail & Hsent).
  - vm_compute. reflexivity.
  - vm_compute. reflexivity.
  - vm_compute. reflexivity.
  - destruct (Hfail _ eq_refl) as (-> & _ & _).
    exists w5, post. split; [exact Hrun |]. split.
    + rewrite Htr. apply in_or_app. right. apply in_or_app. right.
      apply in_or_app. left. simpl. auto.
    + apply Hsent. reflexivity.
Defined.

(** ** Repetition of [addDomain] and [deleteSite] *)

Lemma login_throws_plain e w err w' :
  fastpanelService.login e w = (Throw err, w') -> response err = None.
Proof.
  unfold fastpanelService.login. intros H. apply try_inv in H.
  destruct H as [[a [_ Hx]] | [err0 [w1 [_ H]]]]; [discriminate Hx |].
  apply bind_inv in H. destruct H as [[x [Hc _]] | [a [w2 [_ H]]]].
  - discriminate Hc.
  - inversion H; subst. reflexivity.
Qed.

Lemma getToken_throws_plain e w err w' :
  fastpanelService.getToken e w = (Throw err, w') -> response err = None.
Proof.
  unfold fastpanelService.getToken, bind, gets.
  destruct (if truthy _ then _ else _) as [expire |].
  - destruct (fastpanelService.fresh_enough _ _); [discriminate |].
    apply login_throws_plain.
  - apply login_throws_plain.
Qed.

Lemma has_domain_snoc d id p :
  fastpanelService.has_domain d
    {| dns_domains := dns_domains p ++ [(id, d)]; sites := sites p;
       certificates := certificates p; next_panel_id := next_panel_id p + 1 |}
  = true.
Proof.
  unfold fastpanelService.has_domain. simpl. rewrite existsb_app. simpl.
  rewrite String.eqb_refl. rewrite orb_true_r. reflexivity.
Qed.

(** What the POST of a domain can do. *)
Lemma add_domain_request_cases e d w r w' :
  fastpanelService.request e (POST_dns_domains d) (fastpanelService.serve_add_domain d) w
    = (r, w') ->
  (exists msg, r = Throw (Error msg) /\ panel w' = panel w
               /\ http_error e (POST_dns_domains d) = Some msg)
  \/ (fastpanelService.has_domain d (panel w) = true
      /\ r = Throw (fastpanelService.http_reply 409 "Domain already exists")
      /\ panel w' = panel w /\ http_error e (POST_dns_domains d) = None)
  \/ (exists id, r = Ok id /\ fastpanelService.has_domain d (panel w') = true
                  /\ fastpanelService.has_domain d (panel w) = false).
Proof.
  unfold fastpanelService.request, bind, emit, modify, may_fail.
  destruct (http_error e (POST_dns_domains d)) as [msg |]; simpl.
  - intros H. inversion H; subst. left. eauto.
  - unfold fastpanelService.serve_add_domain.
    destruct (fastpanelService.has_domain d (panel w)) eqn:Hd;
      intros H; inversion H; subst.
    + right. left. auto.
    + right. right. eexists. split; [reflexivity |]. simpl.
      split; [apply has_domain_snoc | reflexivity].
Qed.

Lemma addDomain_registers e d w r w' :
  fastpanelService.addDomain e d w = (Ok r, w') ->
  fastpanelService.has_domain d (panel w') = true.
Proof.
  unfold fastpanelService.addDomain. intros H. apply try_inv in H.
  destruct H as [[a [H _]] | [err [w1 [H Hh]]]].
  - split_ok H. split_ok H. split_ok H. inversion H; subst.
    apply add_domain_request_cases in Hstep0.
    destruct Hstep0 as [[msg [Hx _]] | [[_ [Hx _]] | [id [_ [Hd _]]]]];
      try discriminate Hx.
    inversion Hstep1; subst. exact Hd.
  - destruct (fastpanelService.already_exists err) eqn:Hex.
    + split_ok Hh. inversion Hh; subst. inversion Hstep; subst. simpl.
      apply bind_inv in H. destruct H as [[x [Ht Hx]] | [tok [w2 [Ht H]]]].
      * inversion Hx; subst. apply getToken_throws_plain in Ht.
        unfold fastpanelService.already_exists in Hex. rewrite Ht in Hex.
        discriminate Hex.
      * apply bind_inv in H. destruct H as [[x [Hr Hx]] | [id [w3 [_ H]]]].
        -- inversion Hx; subst.
           apply add_domain_request_cases in Hr.
           destruct Hr as [[msg [Hy _]] | [[Hd [_ [Hp _]]] | [id [Hy _]]]].
           ++ inversion Hy; subst. discriminate Hex.
           ++ rewrite Hp. exact Hd.
           ++ discriminate Hy.
        -- apply bind_inv in H. destruct H as [[x [Hc _]] | [u [w4 [_ H]]]];
             [discriminate Hc | discriminate H].
    + apply bind_inv in Hh. destruct Hh as [[x [_ Hx]] | [u [w4 [_ Hh]]]];
        [discriminate Hx | discriminate Hh].
Qed.

Lemma addDomain_again e d w r w' :
  fastpanelService.has_domain d (panel w) = true ->
  fastpanelService.addDomain e d w = (r, w') ->
  panel w' = panel w
  /\ (forall x, r = Ok x ->
        x = {| fastpanelService.domainId := None; fastpanelService.dom_domain := d;
               fastpanelService.dom_status := "exists" |})
  /\ (forall tok w0, fastpanelService.getToken e w = (Ok tok, w0) ->
        http_error e (POST_dns_domains d) = None ->
        exists x, r = Ok x).
Proof.
  intros Hd. unfold fastpanelService.addDomain. intros H. apply try_inv in H.
  destruct H as [[a [H _]] | [err [w1 [H Hh]]]].
  - exfalso. split_ok H. split_ok H.
    pose proof (keeps_run (@getToken_same_panel e) Hstep) as Hp. unfold same in Hp.
    apply add_domain_request_cases in Hstep0.
    destruct Hstep0 as [[msg [Hx _]] | [[_ [Hx _]] | [id [_ [_ Hd']]]]];
      try discriminate Hx.
    congruence.
  - apply bind_inv in H. destruct H as [[x [Ht Hx]] | [tok [w2 [Ht H]]]].
    + inversion Hx; subst.
      pose proof (keeps_run (@getToken_same_panel e) Ht) as Hp. unfold same in Hp.
      apply getToken_throws_plain in Ht as Hplain.
      unfold fastpanelService.already_exists in Hh. rewrite Hplain in Hh.
      apply bind_inv in Hh. destruct Hh as [[y [Hc Hy]] | [u [w3 [Hc Hh]]]];
        inversion Hc; subst.
      inversion Hh; subst. simpl. split; [exact Hp |]. split; [discriminate |].
      intros tok w0 Htok. rewrite Ht in Htok. discriminate Htok.
    + pose proof (keeps_run (@getToken_same_panel e) Ht) as Hp. unfold same in Hp.
      apply bind_inv in H. destruct H as [[x [Hr Hx]] | [id [w3 [_ H]]]].
      * inversion Hx; subst.
        apply add_domain_request_cases in Hr.
        destruct Hr as [[msg [Hy [Hq Hdown]]] | [[_ [Hy [Hq Hnet]]] | [id [Hy _]]]];
          try discriminate Hy; inversion Hy; subst; simpl in Hh.
        -- apply bind_inv in Hh. destruct Hh as [[y [Hc _]] | [u [w3 [Hc Hh]]]];
             inversion Hc; subst.
           inversion Hh; subst. simpl. split; [congruence |].
           split; [discriminate |].
           intros tok' w0 _ Hnet. congruence.
        -- apply bind_inv in Hh. destruct Hh as [[y [Hc _]] | [u [w3 [Hc Hh]]]];
             inversion Hc; subst.
           inversion Hh; subst. simpl. split; [congruence |].
           split; [intros x Hx'; inversion Hx'; reflexivity | eauto].
      * apply bind_inv in H. destruct H as [[x [Hc _]] | [u [w4 [_ H]]]];
          [discriminate Hc | discriminate H].
Qed.

Lemma NoDup_map_inj_string {A} (f : A -> string) (l : list A) x y :
  NoDup (map f l) -> In x l -> In y l -> f x = f y -> x = y.
Proof.
  induction l as [| a l IH]; simpl; [tauto |].
  intros Hnd Hx Hy Hf. inversion Hnd as [| ? ? Hnotin Hnd']; subst.
  destruct Hx as [-> | Hx], Hy as [-> | Hy]; auto.
  - exfalso. apply Hnotin. rewrite Hf. apply in_map. exact Hy.
  - exfalso. apply Hnotin. rewrite <- Hf. apply in_map. exact Hx.
Qed.

Lemma find_after_delete d (l : list Site) site :
  NoDup (map site_domain l) ->
  find (fun s => (site_domain s =? d)%string) l = Some site ->
  find (fun s => (site_domain s =? d)%string)
       (filter (fun s => negb (site_id s =? site_id site)) l) = None.
Proof.
  intros Hnd Hfind.
  apply find_some in Hfind. destruct Hfind as [Hin Hd].
  apply String.eqb_eq in Hd.
  destruct (find _ (filter _ l)) as [s |] eqn:E; [| reflexivity].
  exfalso. apply find_some in E. destruct E as [Hs Hsd].
  apply filter_In in Hs. destruct Hs as [Hs Hid].
  apply String.eqb_eq in Hsd.
  assert (s = site) as -> by (apply (NoDup_map_inj_string site_domain l); congruence).
  rewrite Z.eqb_refl in Hid. discriminate Hid.
Qed.

(** Every run of [deleteSite]. *)
Lemma deleteSite_cases e d w r w' :
  fastpanelService.deleteSite e d w = (r, w') ->
  (exists err, r = Throw err /\ panel w' = panel w)
  \/ (find (fun s => (site_domain s =? d)%string) (sites (panel w)) = None
      /\ r = Ok {| fastpanelService.del_siteId := None;
                   fastpanelService.del_domain := None;
                   fastpanelService.del_status := "not_found" |}
      /\ panel w' = panel w)
  \/ (exists site,
        find (fun s => (site_domain s =? d)%string) (sites (panel w)) = Some site
        /\ r = Ok {| fastpanelService.del_siteId := Some (site_id site);
                     fastpanelService.del_domain := Some d;
                     fastpanelService.del_status := "deleted" |}
        /\ sites (panel w')
           = filter (fun s => negb (site_id s =? site_id site)) (sites (panel w))
        /\ dns_domains (panel w') = dns_domains (panel w)
        /\ certificates (panel w') = certificates (panel w)).
Proof.
  unfold fastpanelService.deleteSite. intros H. apply try_inv in H.
  assert (forall x w1,
             (fastpanelService.getToken e ;;;
              all <- fastpanelService.request e GET_master
                       fastpanelService.serve_list_sites ;;
              match find (fun s => (site_domain s =? d)%string) all with
              | None =>
                  console ("⚠️  Site " ++ d ++ " not found in FastPanel") ;;;
                  ret {| fastpanelService.del_siteId := None;
                         fastpanelService.del_domain := None;
                         fastpanelService.del_status := "not_found" |}
              | Some site =>
                  fastpanelService.request e (PUT_site_delete (site_id site))
                    (fastpanelService.serve_delete_site (site_id site)) ;;;
                  console ("✅ FastPanel site deleted: " ++ d) ;;;
                  ret {| fastpanelService.del_siteId := Some (site_id site);
                         fastpanelService.del_domain := Some d;
                         fastpanelService.del_status := "deleted" |}
              end) w = (x, w1) ->
             (exists err, x = Throw err /\ panel w1 = panel w)
             \/ (find (fun s => (site_domain s =? d)%string) (sites (panel w)) = None
                 /\ x = Ok {| fastpanelService.del_siteId := None;
                              fastpanelService.del_domain := None;
                              fastpanelService.del_status := "not_found" |}
                 /\ panel w1 = panel w)
             \/ (exists site,
                   find (fun s => (site_domain s =? d)%string) (sites (panel w))
                   = Some site
                   /\ x = Ok {| fastpanelService.del_siteId := Some (site_id site);
                                fastpanelService.del_domain := Some d;
                                fastpanelService.del_status := "deleted" |}
                   /\ sites (panel w1)
                      = filter (fun s => negb (site_id s =? site_id site))
                               (sites (panel w))
                   /\ dns_domains (panel w1) = dns_domains (panel w)
                   /\ certificates (panel w1) = certificates (panel w))) as Hbody.
  { intros x w1 Hb.
    apply bind_inv in Hb. destruct Hb as [[err [Ht ->]] | [tok [w2 [Ht Hb]]]];
      pose proof (keeps_run (@getToken_same_panel e) Ht) as Hp; unfold same in Hp;
      [left; eauto |].
    apply bind_inv in Hb. destruct Hb as [[err [Hg ->]] | [all [w3 [Hg Hb]]]].
    { left. exists err. split; [reflexivity |].
      unfold fastpanelService.request, bind, emit, modify, may_fail in Hg.
      destruct (http_error e GET_master); simpl in Hg; inversion Hg; subst;
        simpl; exact Hp. }
    assert (all = sites (panel w) /\ panel w3 = panel w) as [-> Hp3].
    { unfold fastpanelService.request, bind, emit, modify, may_fail in Hg.
      destruct (http_error e GET_master); simpl in Hg; inversion Hg; subst.
      simpl. rewrite Hp. auto. }
    destruct (find _ (sites (panel w))) as [site |] eqn:Hfind.
    - apply bind_inv in Hb. destruct Hb as [[err [Hd ->]] | [u [w4 [Hd Hb]]]].
      + left. exists err. split; [reflexivity |].
        unfold fastpanelService.request, bind, emit, modify, may_fail in Hd.
        destruct (http_error e _); simpl in Hd; [inversion Hd; subst; exact Hp3 |].
        unfold fastpanelService.serve_delete_site in Hd.
        destruct (existsb _ _); inversion Hd; subst. simpl. exact Hp3.
      + right. right. exists site. split; [reflexivity |].
        apply bind_inv in Hb. destruct Hb as [[err [Hc _]] | [u' [w5 [Hc Hb]]]];
          inversion Hc; subst.
        inversion Hb; subst. split; [reflexivity |]. simpl.
        unfold fastpanelService.request, bind, emit, modify, may_fail in Hd.
        destruct (http_error e _); simpl in Hd; [discriminate Hd |].
        unfold fastpanelService.serve_delete_site in Hd.
        simpl in Hd. rewrite Hp3 in Hd.
        destruct (existsb _ _); inversion Hd; subst. simpl. auto.
    - right. left. split; [reflexivity |].
      apply bind_inv in Hb. destruct Hb as [[err [Hc _]] | [u' [w5 [Hc Hb]]]];
        inversion Hc; subst.
      inversion Hb; subst. split; [reflexivity | exact Hp3]. }
  destruct H as [[a [H ->]] | [err [w1 [H Hh]]]].
  - apply Hbody in H. exact H.
  - apply Hbody in H.
    destruct H as [[err' [_ Hp]] | [[_ [Hx _]] | [site [_ [Hx _]]]]];
      try discriminate Hx.
    left. apply bind_inv in Hh. destruct Hh as [[x [Hc _]] | [u [w2 [Hc Hh]]]];
      inversion Hc; subst.
    inversion Hh; subst. eauto.
Qed.

(** C9: against a control plane that keeps one site per domain, [addDomain]
    and [deleteSite] can be repeated.  After an [addDomain] that succeeded, a
    second one for the same domain (under any conditions) leaves the control
    plane as the first left it, can only succeed with status 'exists', and
    does succeed with it when its request reaches the control plane.  After a
    [deleteSite] that succeeded, a second one leaves the control plane as the
    first left it and can only succeed with status 'not_found'.  And
    [deleteSite] for a domain without a site answers 'not_found' instead of
    throwing, whenever the sites could be listed. *)
Theorem addDomain_deleteSite_repeatable (e1 e2 : Env) (d : string) (w : World) :
  one_site_per_domain (panel w) ->
  (forall r1 w1 r2 w2,
      fastpanelService.addDomain e1 d w = (Ok r1, w1) ->
      fastpanelService.addDomain e2 d w1 = (r2, w2) ->
      panel w2 = panel w1
      /\ (forall x, r2 = Ok x ->
            x = {| fastpanelService.domainId := None;
                   fastpanelService.dom_domain := d;
                   fastpanelService.dom_status := "exists" |})
      /\ (forall tok w0, fastpanelService.getToken e2 w1 = (Ok tok, w0) ->
            http_error e2 (POST_dns_domains d) = None ->
            exists x, r2 = Ok x))
  /\ (forall r1 w1 r2 w2,
        fastpanelService.deleteSite e1 d w = (Ok r1, w1) ->
        fastpanelService.deleteSite e2 d w1 = (r2, w2) ->
        panel w2 = panel w1
        /\ (forall x, r2 = Ok x ->
              x = {| fastpanelService.del_siteId := None;
                     fastpanelService.del_domain := None;
                     fastpanelService.del_status := "not_found" |}))
  /\ (forall r1 w1,
        find (fun s => (site_domain s =? d)%string) (sites (panel w)) = None ->
        fastpanelService.deleteSite e1 d w = (r1, w1) ->
        panel w1 = panel w
        /\ forall tok w0 all w0',
             fastpanelService.getToken e1 w = (Ok tok, w0) ->
             fastpanelService.request e1 GET_master fastpanelService.serve_list_sites w0
             = (Ok all, w0') ->
             r1 = Ok {| fastpanelService.del_siteId := None;
                        fastpanelService.del_domain := None;
                        fastpanelService.del_status := "not_found" |}).
Proof.
  intros Huniq. split; [| split].
  - intros r1 w1 r2 w2 H1 H2.
    apply addDomain_registers in H1.
    exact (addDomain_again _ _ _ H1 H2).
  - intros r1 w1 r2 w2 H1 H2.
    assert (find (fun s => (site_domain s =? d)%string) (sites (panel w1)) = None)
      as Hgone.
    { apply deleteSite_cases in H1.
      destruct H1 as [[err [Hx _]] | [[Hf [_ Hp]] | [site [Hf [_ [Hs _]]]]]].
      - discriminate Hx.
      - rewrite Hp. exact Hf.
      - rewrite Hs. apply find_after_delete; assumption. }
    apply deleteSite_cases in H2.
    destruct H2 as [[err [-> Hp]] | [[_ [-> Hp]] | [site [Hf _]]]].
    + split; [exact Hp | discriminate].
    + split; [exact Hp |]. intros x Hx. inversion Hx; reflexivity.
    + congruence.
  - intros r1 w1 Hnone H1. 
    pose proof H1 as H1'. apply deleteSite_cases in H1'.
    destruct H1' as [[err [-> Hp]] | [[_ [-> Hp]] | [site [Hf _]]]].
    + split; [exact Hp |]. intros tok w0 all w0' Htok Hget. exfalso.
      assert (all = sites (panel w)) as ->.
      { pose proof (keeps_run (@getToken_same_panel e1) Htok) as Hp0.
        unfold same in Hp0.
        unfold fastpanelService.request, bind, emit, modify, may_fail in Hget.
        destruct (http_error e1 GET_master); simpl in Hget; inversion Hget; subst.
        simpl. rewrite Hp0. reflexivity. }
      unfold fastpanelService.deleteSite in H1.
      erewrite try_ok in H1; [discriminate H1 |].
      erewrite bind_ok by exact Htok. erewrite bind_ok by exact Hget.
      rewrite Hnone. reflexivity.
    + split; [exact Hp |]. reflexivity.
    + congruence.
Qed.

Lemma addDomain_deleteSite_repeatable_witness :
  exists r1 w1 r2 w2,
    fastpanelService.deleteSite Scenario.nominal "alpha-demo.example.test"
      Scenario.created = (Ok r1, w1)
    /\ fastpanelService.deleteSite Scenario.nominal "alpha-demo.example.test" w1
       = (r2, w2)
    /\ panel w2 = panel w1.
Proof.
  destruct (@addDomain_deleteSite_repeatable Scenario.nominal Scenario.nominal
              "alpha-demo.example.test" Scenario.created) as (_ & Hdel & _).
  - unfold one_site_per_domain. simpl.
    constructor; [simpl; tauto | constructor].
  - do 4 eexists. split; [vm_compute; reflexivity |].
    split; [vm_compute; reflexivity |].
    eapply Hdel; vm_compute; reflexivity.
Defined.

(** * Further properties of provisioning *)

(** A successful [createContainer], taken apart. *)
Lemma createContainer_ok_inv e data w res w' :
  containerService.createContainer e data w = (Ok res, w') ->
  let iname := containerService.instanceName data in
  let sname := containerService.serviceName data in
  let ident := iname ++ "-" ++ sname in
  containerService.valid_instance_name iname = true
  /\ exists service svcs p rest cpu mem info w1 site w2 id c1,
       pool.select_service (sql_equal e) sname (catalog w) = service :: svcs
       /\ pool.select_existing (sql_equal e) ident (catalog w) = []
       /\ pool.select_available_port (catalog w) = p :: rest
       /\ dockerService.createContainer e iname sname ident p (cpu, mem) w
          = (Ok info, w1)
       /\ fastpanelService.createSite e ident p w1 = (Ok site, w2)
       /\ catalog w2 = catalog w
       /\ pool.insert_container (sql_equal e) (dockerService.containerId info)
            ident iname sname
            ident p cpu mem (dockerService.dataPath info)
            (Some (fastpanelService.siteId site)) (clock w2 / 1000) (catalog w)
          = (Ok id, c1)
       /\ w' = set_catalog (pool.update_port_used id p c1) w2
       /\ res = {| containerService.res_id := id;
                   containerService.res_info := info;
                   containerService.res_subdomain := ident;
                   containerService.res_port := p;
                   containerService.res_url := "https://" ++ ident ++ "." ++ BASE_DOMAIN e;
                   containerService.res_fastpanel := site |}.
Proof.
  unfold containerService.createContainer. cbv zeta.
  destruct (containerService.valid_instance_name _) eqn:Hvalid;
    [| intros H; discriminate H].
  change (negb true) with false. cbv iota. intros H. split; [reflexivity |].
  split_ok H. apply query_read_inv in Hstep. destruct Hstep as [-> Hsvc].
  specialize (Hsvc _ eq_refl). subst a.
  destruct (pool.select_service _ _ (catalog w)) as [| service svcs] eqn:Esvc;
    [discriminate H |].
  split_ok H. apply query_read_inv in Hstep. destruct Hstep as [-> Hex].
  specialize (Hex _ eq_refl). subst a.
  destruct (pool.select_existing _ _ (catalog w)) as [| x xs] eqn:Eex;
    [| discriminate H].
  split_ok H. apply getAvailablePort_inv in Hstep. destruct Hstep as [-> Hp].
  destruct (Hp a eq_refl) as [rest Hsel].
  split_ok H.
  pose proof (keeps_run (@docker_createContainer_runtime_only e _ _ _ _ _) Hstep)
    as [Hc1 _].
  split_ok H.
  pose proof (keeps_run (@site_step_same_catalog e _ _ _) Hstep0) as Hc2.
  unfold same in Hc2.
  assert (fastpanelService.createSite e
            (containerService.instanceName data ++ "-" ++ containerService.serviceName data)
            a w0 = (Ok a1, w1)) as Hsite.
  { apply try_inv in Hstep0.
    destruct Hstep0 as [[s [E Hs]] | [err [w3 [_ H2]]]].
    - inversion Hs; subst. exact E.
    - exfalso. apply bind_inv in H2.
      destruct H2 as [[err' [_ Hx]] | [u [w4 [_ H2]]]]; [discriminate Hx |].
      apply bind_inv in H2.
      destruct H2 as [[err' [_ Hx]] | [u' [w5 [_ H2]]]]; [discriminate Hx |].
      discriminate H2. }
  split_ok H. apply query_insert_inv in Hstep1.
  destruct Hstep1 as [[err' [Hr _]] | [id [c1 [Hins [Hr ->]]]]];
    [discriminate Hr |].
  inversion Hr; subst a2. rewrite Hc2, Hc1 in Hins.
  split_ok H. apply query_used_inv in Hstep1.
  destruct Hstep1 as [[_ ->] | [err' [Hr' _]]]; [| discriminate Hr'].
  inversion H; subst. simpl.
  exists service, svcs, a, rest. do 2 eexists. exists a0, w0, a1, w1, id, c1.
  repeat (split; [first [reflexivity | eassumption | congruence] |]).
  reflexivity.
Qed.

Lemma insert_container_inv equal cid ident iname sname sub p cpu mem dpath site now c
    id c1 :
  pool.insert_container equal cid ident iname sname sub p cpu mem dpath site now c
    = (Ok id, c1) ->
  id = auto_increment c
  /\ services c1 = services c
  /\ port_assignments c1 = port_assignments c
  /\ (exists n,
        containers c1 = (containers c ++ [n])%list
        /\ row_id n = id /\ container_identifier n = ident /\ subdomain n = sub
        /\ instance_name n = iname /\ service_name n = sname
        /\ port n = p /\ status n = running)
  /\ (forall r, In r (containers c) ->
        equal (container_id r) cid = false
        /\ equal (container_identifier r) ident = false
        /\ equal (subdomain r) sub = false /\ port r <> p).
Proof.
  unfold pool.insert_container.
  destruct (pool.duplicate_key _ _ c) eqn:Hdup; [discriminate |].
  intros H. inversion H; subst. clear H. simpl.
  repeat (split; [reflexivity |]).
  split; [eexists; repeat split |].
  intros r Hr. unfold pool.duplicate_key in Hdup. simpl in Hdup.
  assert ((equal (container_id r) cid || equal (container_identifier r) ident
           || equal (subdomain r) sub || (port r =? p)) = false) as Hr'.
  { destruct (_ || (port r =? p)) eqn:E; [| reflexivity].
    assert (existsb
              (fun r0 => equal (container_id r0) cid
                         || equal (container_identifier r0) ident
                         || equal (subdomain r0) sub || (port r0 =? p))
              (containers c) = true) as Hx
      by (apply existsb_exists; exists r; auto).
    congruence. }
  repeat (apply orb_false_iff in Hr'; destruct Hr' as [Hr' ?]).
  repeat split; try assumption.
  apply Z.eqb_neq. assumption.
Qed.

Lemma no_port_available c :
  (forall pa, In pa (port_assignments c) -> is_available pa = false) ->
  pool.select_available_port c = [].
Proof.
  intros H. unfold pool.select_available_port.
  assert (filter is_available (port_assignments c) = []) as ->; [| reflexivity].
  induction (port_assignments c) as [| pa l IH]; simpl; [reflexivity |].
  rewrite (H pa (or_introl eq_refl)). apply IH. intros x Hx. apply H. right. exact Hx.
Qed.

(** X1: the checks that open [createContainer] reject a request before
    anything is done: an instance name outside [a-zA-Z0-9-]+, a service that
    no row of [services] equals, an identifier that a row not deleted
    already equals (both in the sense of the collation of the server), and
    an exhausted port pool each make it throw its own message and leave the
    whole world (catalog, runtime, control plane, trace) as it was. *)
Theorem createContainer_rejects_before_any_effect
    (e : Env) (data : containerService.CreateData) (w : World) :
  (forall q, db_error e q = None) ->
  let iname := containerService.instanceName data in
  let sname := containerService.serviceName data in
  let ident := iname ++ "-" ++ sname in
  (containerService.valid_instance_name iname = false ->
   containerService.createContainer e data w
   = (Throw (Error "Instance name must contain only letters, numbers, and dashes"), w))
  /\ (containerService.valid_instance_name iname = true ->
      pool.select_service (sql_equal e) sname (catalog w) = [] ->
      containerService.createContainer e data w
      = (Throw (Error ("Service '" ++ sname ++ "' not found")), w))
  /\ (containerService.valid_instance_name iname = true ->
      pool.select_service (sql_equal e) sname (catalog w) <> [] ->
      pool.select_existing (sql_equal e) ident (catalog w) <> [] ->
      containerService.createContainer e data w
      = (Throw (Error ("Container '" ++ ident ++ "' already exists")), w))
  /\ (containerService.valid_instance_name iname = true ->
      pool.select_service (sql_equal e) sname (catalog w) <> [] ->
      pool.select_existing (sql_equal e) ident (catalog w) = [] ->
      (forall pa, In pa (port_assignments (catalog w)) -> is_available pa = false) ->
      containerService.createContainer e data w
      = (Throw (Error "No available ports"), w)).
Proof.
  intros Hdb. cbv zeta. unfold containerService.createContainer. cbv zeta.
  split; [| split; [| split]].
  - intros ->. reflexivity.
  - intros -> Hsvc. change (negb true) with false. cbv iota.
    erewrite bind_ok by (apply query_read_eval, Hdb). rewrite Hsvc. reflexivity.
  - intros -> Hsvc Hex. change (negb true) with false. cbv iota.
    erewrite bind_ok by (apply query_read_eval, Hdb).
    destruct (pool.select_service _ _ _) as [| service svcs]; [congruence |].
    erewrite bind_ok by (apply query_read_eval, Hdb).
    destruct (pool.select_existing _ _ _); [congruence | reflexivity].
  - intros -> Hsvc Hex Hfull. change (negb true) with false. cbv iota.
    erewrite bind_ok by (apply query_read_eval, Hdb).
    destruct (pool.select_service _ _ _) as [| service svcs]; [congruence |].
    erewrite bind_ok by (apply query_read_eval, Hdb). rewrite Hex.
    erewrite bind_throw; [reflexivity |].
    unfold containerService.getAvailablePort.
    erewrite bind_ok by (apply query_read_eval, Hdb).
    rewrite (no_port_available _ Hfull). reflexivity.
Qed.

Lemma createContainer_rejects_before_any_effect_witness :
  containerService.createContainer Scenario.mysql_default
    {| containerService.instanceName := "Alpha";
       containerService.serviceName := "DEMO";
       containerService.resources := None |} Scenario.created
  = (Throw (Error "Container 'Alpha-DEMO' already exists"), Scenario.created).
Proof.
  refine (proj1 (proj2 (proj2
            (@createContainer_rejects_before_any_effect Scenario.mysql_default
               {| containerService.instanceName := "Alpha";
                  containerService.serviceName := "DEMO";
                  containerService.resources := None |} Scenario.created _)))
            _ _ _).
  - intros q. reflexivity.
  - reflexivity.
  - vm_compute. discriminate.
  - vm_compute. discriminate.
Defined.

(** X2: what a successful [createContainer] has done.  The port it returns
    was the lowest available one; the id it returns is the AUTO_INCREMENT
    value; the catalog has gained exactly one row, of that id, identifier,
    subdomain and port, with status running; every port-assignment row of
    that port is now unavailable and owned by the id, the others are as they
    were; and the URL returned is https://<identifier>.<BASE_DOMAIN>. *)
Theorem createContainer_success_postcondition
    (e : Env) (data : containerService.CreateData) (w : World)
    (res : containerService.Created) (w' : World) :
  containerService.createContainer e data w = (Ok res, w') ->
  let iname := containerService.instanceName data in
  let sname := containerService.serviceName data in
  let ident := iname ++ "-" ++ sname in
  let p := containerService.res_port res in
  let id := containerService.res_id res in
  (exists pa, In pa (port_assignments (catalog w))
              /\ pa_port pa = p /\ is_available pa = true)
  /\ (forall pa, In pa (port_assignments (catalog w)) ->
                 is_available pa = true -> p <= pa_port pa)
  /\ id = auto_increment (catalog w)
  /\ (exists n,
        containers (catalog w') = (containers (catalog w) ++ [n])%list
        /\ row_id n = id /\ container_identifier n = ident /\ subdomain n = ident
        /\ instance_name n = iname /\ service_name n = sname
        /\ port n = p /\ status n = running)
  /\ port_assignments (catalog w')
     = map (fun pa => if pa_port pa =? p
                      then {| pa_port := pa_port pa; pa_container_id := Some id;
                              is_available := false |}
                      else pa)
           (port_assignments (catalog w))
  /\ services (catalog w') = services (catalog w)
  /\ containerService.res_subdomain res = ident
  /\ containerService.res_url res = "https://" ++ ident ++ "." ++ BASE_DOMAIN e.
Proof.
  intros H. apply createContainer_ok_inv in H. cbv zeta in *.
  destruct H as (_ & service & svcs & p & rest & cpu & mem & info & w1 & site & w2
                 & id & c1 & _ & _ & Hport & _ & _ & _ & Hins & -> & ->).
  simpl. apply insert_container_inv in Hins.
  destruct Hins as (Hid & Hsvc & Hpa & Hrow & _).
  split; [apply (select_available_port_In _ Hport) |].
  split.
  { intros pa Hin Hav. unfold pool.select_available_port in Hport.
    pose proof (lowest_spec (filter is_available (port_assignments (catalog w)))) as L.
    destruct (pool.lowest _) as [m |]; [| discriminate Hport].
    inversion Hport; subst. apply L. apply filter_In. auto. }
  split; [exact Hid |]. split; [exact Hrow |].
  rewrite Hpa, Hsvc. repeat split.
Qed.

Lemma createContainer_success_postcondition_witness :
  exists res w',
    containerService.createContainer Scenario.nominal Scenario.alpha Scenario.world0
    = (Ok res, w')
    /\ containerService.res_id res = auto_increment (catalog Scenario.world0).
Proof.
  do 2 eexists. split; [vm_compute; reflexivity |].
  eapply (@createContainer_success_postcondition Scenario.nominal Scenario.alpha
            Scenario.world0).
  vm_compute. reflexivity.
Defined.

Lemma select_existing_after_insert equal ident c rows n :
  equal ident ident = true ->
  containers c = (rows ++ [n])%list ->
  container_identifier n = ident -> status n = running ->
  pool.select_existing equal ident c <> [].
Proof.
  intros Hrefl Hc Hid Hst Hnil.
  assert (In n (pool.select_existing equal ident c)) as Hin.
  { unfold pool.select_existing. apply filter_In. split.
    - rewrite Hc. apply in_or_app. right. left. reflexivity.
    - rewrite Hid, Hst, Hrefl. reflexivity. }
  rewrite Hnil in Hin. destruct Hin.
Qed.

(** X3: provisioning the same instance twice.  After a successful
    [createContainer], a second call with the same data, under any conditions
    in which the catalog can be read, throws "Container '<identifier>' already
    exists" and changes nothing.  The collation is the same for both calls
    and, as every collation does, finds a string equal to itself. *)
Theorem createContainer_twice_already_exists
    (e e2 : Env) (data : containerService.CreateData) (w : World)
    (res : containerService.Created) (w' : World) :
  containerService.createContainer e data w = (Ok res, w') ->
  (forall q, db_error e2 q = None) ->
  (forall a b, sql_equal e2 a b = sql_equal e a b) ->
  (forall a, sql_equal e a a = true) ->
  containerService.createContainer e2 data w'
  = (Throw (Error ("Container '"
                   ++ (containerService.instanceName data ++ "-"
                       ++ containerService.serviceName data)
                   ++ "' already exists")), w').
Proof.
  intros H Hdb Hsame Hrefl.
  apply createContainer_ok_inv in H. cbv zeta in H.
  destruct H as (Hvalid & service & svcs & p & rest & cpu & mem & info & w1 & site
                 & w2 & id & c1 & Hs & _ & _ & _ & _ & _ & Hins & -> & _).
  apply insert_container_inv in Hins.
  destruct Hins as (_ & Hsvc & _ & (n & Hrows & _ & Hid & _ & _ & _ & _ & Hst) & _).
  unfold containerService.createContainer. cbv zeta. rewrite Hvalid.
  change (negb true) with false. cbv iota.
  erewrite bind_ok by (apply query_read_eval, Hdb).
  assert (pool.select_service (sql_equal e2) (containerService.serviceName data)
            (catalog (set_catalog (pool.update_port_used id p c1) w2))
          = service :: svcs) as ->.
  { rewrite <- Hs. unfold pool.select_service. simpl. rewrite Hsvc.
    apply filter_ext. intros x. apply Hsame. }
  erewrite bind_ok by (apply query_read_eval, Hdb).
  destruct (pool.select_existing _ _ _) as [| x xs] eqn:Hex; [| reflexivity].
  exfalso. revert Hex. simpl.
  eapply select_existing_after_insert; try eassumption.
  rewrite Hsame. apply Hrefl.
Qed.

Lemma createContainer_twice_already_exists_witness :
  containerService.createContainer Scenario.nominal Scenario.alpha Scenario.created
  = (Throw (Error "Container 'alpha-demo' already exists"), Scenario.created).
Proof.
  eapply (@createContainer_twice_already_exists Scenario.nominal Scenario.nominal
            Scenario.alpha Scenario.world0).
  - vm_compute. reflexivity.
  - intros q. reflexivity.
  - intros a b. reflexivity.
  - intros a. simpl. apply String.eqb_refl.
Defined.

(** X4: [createContainer] never succeeds on an identifier, a subdomain or a
    port that some row of [containers] holds, whatever the status of that
    row: the insert is refused by the UNIQUE keys, which compare strings as
    the collation does.  In particular the identifier of a deleted instance
    cannot be provisioned again, and while the lowest available port is the
    port of a deleted row no instance at all can be provisioned. *)
Theorem held_identifier_or_port_blocks_create
    (e : Env) (data : containerService.CreateData) (w : World) :
  let ident := containerService.instanceName data ++ "-"
               ++ containerService.serviceName data in
  ((exists r, In r (containers (catalog w))
              /\ (sql_equal e (container_identifier r) ident = true
                  \/ sql_equal e (subdomain r) ident = true)) ->
   forall res w', containerService.createContainer e data w <> (Ok res, w'))
  /\ (forall p rest,
        pool.select_available_port (catalog w) = p :: rest ->
        (exists r, In r (containers (catalog w)) /\ port r = p) ->
        forall res w', containerService.createContainer e data w <> (Ok res, w')).
Proof.
  cbv zeta. split.
  - intros (r & Hr & Hheld) res w' H.
    apply createContainer_ok_inv in H. cbv zeta in H.
    destruct H as (_ & service & svcs & p & rest & cpu & mem & info & w1 & site
                   & w2 & id & c1 & _ & _ & _ & _ & _ & _ & Hins & _).
    apply insert_container_inv in Hins.
    destruct Hins as (_ & _ & _ & _ & Hfree).
    destruct (Hfree r Hr) as (_ & Hi & Hs & _).
    destruct Hheld; congruence.
  - intros p rest Hport (r & Hr & Hp) res w' H.
    apply createContainer_ok_inv in H. cbv zeta in H.
    destruct H as (_ & service & svcs & p' & rest' & cpu & mem & info & w1 & site
                   & w2 & id & c1 & _ & _ & Hport' & _ & _ & _ & Hins & _).
    rewrite Hport in Hport'. inversion Hport'; subst p' rest'.
    apply insert_container_inv in Hins.
    destruct Hins as (_ & _ & _ & _ & Hfree).
    destruct (Hfree r Hr) as (_ & _ & _ & Hne). tauto.
Qed.

(** X5: two successful calls of [createContainer] in a row return ports in
    strictly increasing order; in particular the two instances do not share
    a port. *)
Theorem consecutive_creates_get_increasing_ports
    (e1 e2 : Env) (d1 d2 : containerService.CreateData) (w w1 w2 : World)
    (r1 r2 : containerService.Created) :
  containerService.createContainer e1 d1 w = (Ok r1, w1) ->
  containerService.createContainer e2 d2 w1 = (Ok r2, w2) ->
  containerService.res_port r1 < containerService.res_port r2.
Proof.
  intros H1 H2.
  apply createContainer_ok_inv in H1. cbv zeta in H1.
  destruct H1 as (_ & s1 & ss1 & p1 & rest1 & cpu1 & mem1 & info1 & wa & site1
                  & wb & id1 & c1 & _ & _ & Hport1 & _ & _ & _ & Hins1 & -> & ->).
  apply createContainer_ok_inv in H2. cbv zeta in H2.
  destruct H2 as (_ & s2 & ss2 & p2 & rest2 & cpu2 & mem2 & info2 & wc & site2
                  & wd & id2 & c2 & _ & _ & Hport2 & _ & _ & _ & _ & _ & ->).
  simpl in *.
  apply insert_container_inv in Hins1. destruct Hins1 as (_ & _ & Hpa & _).
  apply select_available_port_In in Hport2.
  destruct Hport2 as (pa' & Hin & Hp2 & Hav). simpl in Hin. rewrite Hpa in Hin.
  apply in_map_iff in Hin. destruct Hin as (pa & Hpa' & Hin).
  destruct (Z.eqb_spec (pa_port pa) p1) as [E | E].
  - subst pa'. discriminate Hav.
  - subst pa'.
    unfold pool.select_available_port in Hport1.
    pose proof (lowest_spec (filter is_available (port_assignments (catalog w)))) as L.
    destruct (pool.lowest _) as [m |]; [| discriminate Hport1].
    inversion Hport1; subst. destruct L as [_ L].
    assert (pa_port m <= pa_port pa) by (apply L, filter_In; auto).
    lia.
Qed.

Lemma consecutive_creates_get_increasing_ports_witness :
  exists r1 w1 r2 w2,
    containerService.createContainer Scenario.nominal Scenario.alpha Scenario.world0
    = (Ok r1, w1)
    /\ containerService.createContainer Scenario.nominal Scenario.beta w1 = (Ok r2, w2)
    /\ containerService.res_port r1 < containerService.res_port r2.
Proof.
  do 4 eexists. split; [vm_compute; reflexivity |].
  split; [vm_compute; reflexivity |].
  eapply (@consecutive_creates_get_increasing_ports Scenario.nominal Scenario.nominal
            Scenario.alpha Scenario.beta Scenario.world0);
    vm_compute; reflexivity.
Defined.

(** ** What is left behind when the insert is refused *)

Lemma request_same_sites {A} e r (serve : Panel -> Result A * Panel) :
  (forall p, sites (snd (serve p)) = sites p) ->
  keeps (same (fun w => sites (panel w))) (fastpanelService.request e r serve).
Proof.
  intros Hs w. unfold fastpanelService.request, bind, emit, modify, may_fail, same.
  destruct (http_error e r); simpl; [reflexivity |].
  specialize (Hs (panel w)). destruct (serve (panel w)). simpl in *. exact Hs.
Qed.

Lemma getToken_same_sites e :
  keeps (same (fun w => sites (panel w))) (fastpanelService.getToken e).
Proof.
  intros w. pose proof (@getToken_same_panel e w) as H. unfold same in *.
  rewrite H. reflexivity.
Qed.

Ltac sites_frame :=
  repeat keeps_step (@same_refl (list Site) (fun w => sites (panel w)))
                    (@same_trans (list Site) (fun w => sites (panel w)));
  try apply getToken_same_sites;
  try (intros w; reflexivity).

Lemma createSSL_same_sites e d site :
  keeps (same (fun w => sites (panel w))) (fastpanelService.createSSL e d site).
Proof.
  unfold fastpanelService.createSSL. sites_frame.
  apply request_same_sites. intros p.
  unfold fastpanelService.serve_create_certificate.
  destruct (existsb _ _); reflexivity.
Qed.

Lemma addDomain_same_sites e d :
  keeps (same (fun w => sites (panel w))) (fastpanelService.addDomain e d).
Proof.
  unfold fastpanelService.addDomain. sites_frame.
  apply request_same_sites. intros p.
  unfold fastpanelService.serve_add_domain.
  destruct (fastpanelService.has_domain _ _); reflexivity.
Qed.

(** A successful [createSite] has registered the site it describes. *)
Lemma createSite_ok_registers e sub p w site w' :
  fastpanelService.createSite e sub p w = (Ok site, w') ->
  fastpanelService.domain site = sub ++ "." ++ BASE_DOMAIN e
  /\ fastpanelService.upstream site = "http://127.0.0.1:" ++ dec p
  /\ exists s, In s (sites (panel w'))
               /\ site_id s = fastpanelService.siteId site
               /\ site_domain s = sub ++ "." ++ BASE_DOMAIN e
               /\ site_upstreams s = ["http://127.0.0.1:" ++ dec p].
Proof.
  unfold fastpanelService.createSite. intros H. apply try_inv in H.
  destruct H as [[x [E Hx]] | [err [w0 [_ H]]]].
  2: { exfalso. apply bind_inv in H.
       destruct H as [[err' [_ Hx]] | [a [w4 [_ H]]]]; [discriminate Hx |].
       discriminate H. }
  inversion Hx; subst x. clear Hx.
  split_ok E. split_ok E. split_ok E.
  assert (exists s, In s (sites (panel w2))
                    /\ site_id s = a1
                    /\ site_domain s = sub ++ "." ++ BASE_DOMAIN e
                    /\ site_upstreams s = ["http://127.0.0.1:" ++ dec p]) as Hreg.
  { unfold fastpanelService.request, bind, emit, modify, may_fail in Hstep1.
    destruct (http_error e _); simpl in Hstep1; [discriminate Hstep1 |].
    unfold fastpanelService.serve_create_site in Hstep1.
    destruct (existsb _ _); inversion Hstep1; subst. simpl.
    eexists. split; [apply in_or_app; right; left; reflexivity |].
    repeat split. }
  split_ok E. split_ok E. split_ok E. split_ok E. inversion E; subst. simpl.
  split; [reflexivity |]. split; [reflexivity |].
  inversion Hstep2; subst. inversion Hstep3; subst.
  unfold fastpanelService.setTimeout, bind, emit, modify in Hstep4.
  inversion Hstep4; subst.
  pose proof (keeps_run (@createSSL_same_sites e _ _) Hstep5) as Hs.
  unfold same in Hs. simpl in Hs. rewrite Hs. exact Hreg.
Qed.

Lemma duplicate_key_of_row equal n c r :
  In r (containers c) ->
  equal (container_identifier r) (container_identifier n) = true \/ port r = port n ->
  pool.duplicate_key equal n c = true.
Proof.
  intros Hr Hheld. unfold pool.duplicate_key. apply existsb_exists.
  exists r. split; [exact Hr |].
  destruct Hheld as [-> | ->].
  - rewrite orb_true_r. reflexivity.
  - rewrite Z.eqb_refl. rewrite orb_true_r. reflexivity.
Qed.

(** X6: nothing compensates a refused insert.  When a row of the catalog
    (the row of a deleted instance, for one) already holds the identifier,
    in the sense of the collation, or the port chosen, and runtime
    provisioning and proxy site creation both succeed, [createContainer]
    throws at the insert and stops there: the rows of [containers] and of
    [port_assignments] are as before, while the container is running, its
    working directory exists and the proxy site is registered. *)
Theorem refused_insert_is_not_compensated
    (e : Env) (data : containerService.CreateData) (w : World)
    (service : ServiceRow) (svcs : list ServiceRow) (p : Z) (rest : list Z)
    (r : ContainerRow)
    (info : dockerService.ContainerInfo) (w1 : World)
    (site : fastpanelService.SiteDescriptor) (w2 : World) :
  let iname := containerService.instanceName data in
  let sname := containerService.serviceName data in
  let ident := iname ++ "-" ++ sname in
  let res := match containerService.resources data with
             | Some r => (containerService.cpu r, containerService.memory r)
             | None => (None, None)
             end in
  containerService.valid_instance_name iname = true ->
  (forall q, db_error e q = None) ->
  pool.select_service (sql_equal e) sname (catalog w) = service :: svcs ->
  pool.select_existing (sql_equal e) ident (catalog w) = [] ->
  pool.select_available_port (catalog w) = p :: rest ->
  In r (containers (catalog w)) ->
  sql_equal e (container_identifier r) ident = true \/ port r = p ->
  dockerService.createContainer e iname sname ident p
    (js_or (fst res) (default_cpu service), js_or (snd res) (default_memory service)) w
    = (Ok info, w1) ->
  fastpanelService.createSite e ident p w1 = (Ok site, w2) ->
  exists err w',
    containerService.createContainer e data w = (Throw err, w')
    /\ containers (catalog w') = containers (catalog w)
    /\ port_assignments (catalog w') = port_assignments (catalog w)
    /\ (exists c, dockerService.find_container ident (runtime w') = Some c
                  /\ Running c = true)
    /\ dockerService.dir_exists (dockerService.containerDirOf e ident) (runtime w') = true
    /\ (exists s, In s (sites (panel w'))
                  /\ site_id s = fastpanelService.siteId site
                  /\ site_domain s = ident ++ "." ++ BASE_DOMAIN e).
Proof.
  cbv zeta. intros Hvalid Hdb Hsvc Hex Hport Hr Hheld Hdocker Hsite.
  pose proof (docker_create_makes_dir _ _ _ _ _ _ _ Hdocker) as Hdir.
  pose proof (docker_create_makes_container _ _ _ _ _ _ _ Hdocker) as Hcont.
  pose proof (keeps_run (@docker_createContainer_runtime_only e _ _ _ _ _) Hdocker)
    as [Hc1 _].
  pose proof (keeps_run (@createSite_proxy_only e _ _) Hsite) as [Hc2 Hr2].
  pose proof (createSite_ok_registers _ _ _ _ Hsite) as (_ & _ & s & Hs & Hsid & Hsd & _).
  set (ident := containerService.instanceName data ++ "-"
                ++ containerService.serviceName data) in *.
  exists (Error "Duplicate entry"), w2.
  split; [| split; [congruence | split; [congruence | split; [rewrite Hr2; exact Hcont
                                  | split; [rewrite Hr2; exact Hdir | eauto]]]]].
  unfold containerService.createContainer. cbv zeta. rewrite Hvalid.
  change (negb true) with false. cbv iota.
  erewrite bind_ok by (apply query_read_eval, Hdb). rewrite Hsvc.
  erewrite bind_ok by (apply query_read_eval, Hdb). fold ident. rewrite Hex.
  erewrite bind_ok.
  2: { unfold containerService.getAvailablePort.
       erewrite bind_ok by (apply query_read_eval, Hdb).
       rewrite Hport. reflexivity. }
  assert (forall (x y : option string * option string), x = y ->
            dockerService.createContainer e (containerService.instanceName data)
              (containerService.serviceName data) ident p x w = (Ok info, w1) ->
            dockerService.createContainer e (containerService.instanceName data)
              (containerService.serviceName data) ident p y w = (Ok info, w1))
    as Hcast by (intros x y ->; auto).
  erewrite bind_ok.
  2: { eapply Hcast; [| exact Hdocker].
       destruct (containerService.resources data); reflexivity. }
  erewrite bind_ok by (apply try_ok; exact Hsite).
  erewrite bind_throw; [reflexivity |].
  unfold pool.query. rewrite Hdb. unfold pool.insert_container.
  rewrite (@duplicate_key_of_row _ _ _ r); [rewrite set_catalog_same; reflexivity | |].
  - rewrite Hc2, Hc1. exact Hr.
  - simpl. exact Hheld.
Qed.

Lemma refused_insert_is_not_compensated_witness :
  exists err w',
    containerService.createContainer Scenario.nominal Scenario.alpha Scenario.removed
    = (Throw err, w')
    /\ map status (containers (catalog w')) = [deleted]
    /\ (exists c, dockerService.find_container "alpha-demo" (runtime w') = Some c
                  /\ Running c = true).
Proof.
  assert (Hrow : exists r, In r (containers (catalog Scenario.removed))
                           /\ container_identifier r = "alpha-demo").
  { eexists. split; [left; reflexivity | reflexivity]. }
  destruct Hrow as (r & Hr & Hid).
  edestruct (@refused_insert_is_not_compensated Scenario.nominal Scenario.alpha
               Scenario.removed) as (err & w' & Hrun & Hrows & _ & Hcont & _).
  - reflexivity.
  - intros q. reflexivity.
  - reflexivity.
  - reflexivity.
  - reflexivity.
  - exact Hr.
  - left. rewrite Hid. reflexivity.
  - vm_compute. reflexivity.
  - vm_compute. reflexivity.
  - exists err, w'. split; [exact Hrun |]. split; [rewrite Hrows; reflexivity |].
    exact Hcont.
Defined.

(** * Further properties of the lifecycle operations *)

(** X7: when the runtime driver fails, a stop, start, restart or redeploy
    fails with the driver's own error and writes nothing: the catalog still
    shows the status the instance had. *)
Theorem lifecycle_failure_writes_nothing
    (e : Env) (a : Action) (id : Z) (w : World) (c : ContainerRow)
    (rows : list ContainerRow) (err : JsError) (w1 : World) :
  In a [Stop; Start; Restart; Redeploy] ->
  db_error e SELECT_container = None ->
  pool.select_container id (catalog w) = c :: rows ->
  match a with
  | Stop => dockerService.stopContainer
  | Start => dockerService.startContainer
  | Restart => dockerService.restartContainer
  | _ => dockerService.redeployContainer
  end e (container_identifier c) w = (Throw err, w1) ->
  run e (On a id) w = (Throw err, w1)
  /\ catalog w1 = catalog w.
Proof.
  intros Ha Hdb Hsel Hdrv.
  pose proof (select_by_id_eval e id w Hdb) as Hlook. rewrite Hsel in Hlook.
  simpl in Ha.
  destruct Ha as [<- | [<- | [<- | [<- | []]]]]; unfold_ops;
    (split;
     [ erewrite void_bind_ok by exact Hlook; unfold void;
       erewrite bind_throw; [reflexivity |];
       erewrite bind_throw; [reflexivity | exact Hdrv]
     | ]).
  - apply (keeps_run (@docker_stopContainer_runtime_only e _) Hdrv).
  - apply (keeps_run (@docker_startContainer_runtime_only e _) Hdrv).
  - apply (keeps_run (@docker_restartContainer_runtime_only e _) Hdrv).
  - apply (keeps_run (@docker_redeployContainer_runtime_only e _) Hdrv).
Qed.

Lemma lifecycle_failure_writes_nothing_witness :
  exists err w1,
    run Scenario.nominal (On Start 1) Scenario.created = (Throw err, w1)
    /\ catalog w1 = catalog Scenario.created.
Proof.
  do 2 eexists.
  eapply (@lifecycle_failure_writes_nothing Scenario.nominal Start 1 Scenario.created).
  - simpl. auto.
  - reflexivity.
  - vm_compute. reflexivity.
  - vm_compute. reflexivity.
Defined.

Lemma map_fixed {A} (f : A -> A) (l : list A) :
  (forall x, In x l -> f x = x) -> map f l = l.
Proof.
  intros H. rewrite <- (map_id l) at 2. apply map_ext_in. exact H.
Qed.

Lemma with_status_same s now r : status r = s -> pool.with_status s now r = r.
Proof.
  intros <-. destruct r. unfold pool.with_status. simpl.
  destruct status0; reflexivity.
Qed.

(** X8: deleting an instance that is already deleted.  On a catalog that
    satisfies [Inv], a [deleteContainer] on the id of a row whose status is
    deleted, when it succeeds, leaves the catalog exactly as it was: no port
    changes hands and no row changes. *)
Theorem delete_again_changes_nothing
    (e : Env) (id : Z) (w : World) (c : ContainerRow) (rows : list ContainerRow)
    (w' : World) :
  Inv (catalog w) ->
  pool.select_container id (catalog w) = c :: rows ->
  status c = deleted ->
  run e (On Delete id) w = (Ok tt, w') ->
  catalog w' = catalog w.
Proof.
  intros I Hsel Hdel H.
  destruct (select_container_In _ _ Hsel) as [Hcin Hcid].
  assert (forall r, In r (containers (catalog w)) -> row_id r = id -> r = c) as Honly.
  { intros r Hr Hid. apply (NoDup_map_inj row_id (containers (catalog w))); auto.
    - apply (inv_ids I).
    - congruence. }
  unfold_ops. apply void_inv in H. destruct H as [[x [H _]] | [err [_ H]]];
    [| discriminate H].
  split_ok H. apply select_by_id_inv in Hstep. destruct Hstep as [-> _].
  apply delete_ok in H. destruct H as (w1 & w2 & _ & _ & _ & ->). simpl.
  assert (pool.update_port_free id (catalog w) = catalog w) as ->.
  { unfold pool.update_port_free, pool.set_ports. rewrite map_fixed.
    - destruct (catalog w); reflexivity.
    - intros pa Hpa. destruct (pa_container_id pa) as [o |] eqn:Ho; [| reflexivity].
      destruct (Z.eqb_spec o id) as [-> | Hne]; [| reflexivity].
      exfalso. destruct (is_available pa) eqn:Hav.
      + destruct (inv_free I pa Hpa Hav) as [Hnone _]. congruence.
      + destruct (inv_taken I pa Hpa Hav) as (r & Hr & Hl & _ & Hown).
        assert (r = c) as -> by (apply Honly; congruence).
        contradiction. }
  unfold pool.update_status, pool.set_containers. rewrite map_fixed.
  - destruct (catalog w); reflexivity.
  - intros r Hr. destruct (Z.eqb_spec (row_id r) id) as [E | E]; [| reflexivity].
    apply with_status_same. rewrite (Honly r Hr E). exact Hdel.
Qed.

Lemma delete_again_changes_nothing_witness :
  catalog (snd (run Scenario.nominal (On Delete 1) Scenario.removed))
  = catalog Scenario.removed.
Proof.
  eapply (@delete_again_changes_nothing Scenario.nominal 1 Scenario.removed).
  - apply Inv_b_sound. vm_compute. reflexivity.
  - vm_compute. reflexivity.
  - reflexivity.
  - vm_compute. reflexivity.
Defined.

(** * Further properties of the runtime driver *)

Lemma find_after_remove_runtime name r :
  dockerService.find_container name (dockerService.remove_container name r) = None.
Proof. apply find_after_remove. Qed.

(** The cleanup of a failed creation never throws. *)
Lemma cleanupFailedContainer_effect e ident dir w :
  exists w',
    dockerService.cleanupFailedContainer e ident dir w = (Ok tt, w')
    /\ (fs_error e Rm = None -> docker_error e "remove" = None ->
        dockerService.dir_exists dir (runtime w') = false
        /\ dockerService.find_container ident (runtime w') = None).
Proof.
  unfold dockerService.cleanupFailedContainer, dockerService.docker_call,
    dockerService.rm, dockerService.fs_call,
    try_catch, bind, console, emit, modify, gets, may_fail, ret, throw.
  destruct (docker_error e "remove") as [m |] eqn:Hd;
    destruct (fs_error e Rm) as [m' |] eqn:Hf; simpl;
    destruct (dockerService.find_container ident (runtime w)) as [c |] eqn:Hfind;
    simpl; eexists; (split; [reflexivity |]); intros Hf' Hd';
    try discriminate Hf'; try discriminate Hd'; simpl.
  - split; [apply dir_gone_after_rm | apply find_after_remove].
  - split; [apply dir_gone_after_rm | exact Hfind].
Qed.

(** X9: a failed [createContainer] of the runtime driver cleans up after
    itself.  It has logged the failure, has touched nothing outside the
    runtime and, when the removals of the cleanup themselves work, leaves
    neither a working directory nor a container for the identifier. *)
Theorem failed_provisioning_leaves_no_residue
    (e : Env) (iname sname sub : string) (p : Z)
    (res : option string * option string) (w : World) (err : JsError) (w' : World) :
  dockerService.createContainer e iname sname sub p res w = (Throw err, w') ->
  let ident := iname ++ "-" ++ sname in
  runtime_only w w'
  /\ In (Log "❌ Container creation failed, cleaning up...") (trace w')
  /\ (fs_error e Rm = None -> docker_error e "remove" = None ->
      dockerService.dir_exists (dockerService.containerDirOf e ident) (runtime w')
      = false
      /\ dockerService.find_container ident (runtime w') = None).
Proof.
  intros H. cbv zeta.
  split; [apply (keeps_run (@docker_createContainer_runtime_only e _ _ _ _ _) H) |].
  unfold dockerService.createContainer in H. cbv zeta in H.
  apply try_inv in H. destruct H as [[x [_ Hx]] | [err0 [w0 [_ H]]]];
    [discriminate Hx |].
  apply bind_inv in H. destruct H as [[x [Hc _]] | [u [wa [Hc H]]]];
    [discriminate Hc |].
  inversion Hc; subst. clear Hc.
  destruct (cleanupFailedContainer_effect e (iname ++ "-" ++ sname)
              (dockerService.containerDirOf e (iname ++ "-" ++ sname))
              (add_event (Log "❌ Container creation failed, cleaning up...") w0))
    as (w2 & Hclean & Heff).
  erewrite bind_ok in H by exact Hclean. inversion H; subst. clear H.
  split; [| exact Heff].
  destruct (keeps_run (@cleanupFailedContainer_grows e _ _) Hclean) as [l Hl].
  rewrite Hl. simpl. apply in_or_app. left. apply in_or_app. right. left. reflexivity.
Qed.

Lemma failed_provisioning_leaves_no_residue_witness :
  exists err w',
    dockerService.createContainer Scenario.compose_down_only "alpha" "demo"
      "alpha-demo" 14000 (None, None) Scenario.world0 = (Throw err, w')
    /\ dockerService.dir_exists "/srv/users/alpha-demo" (runtime w') = false.
Proof.
  do 2 eexists. split; [vm_compute; reflexivity |].
  eapply (@failed_provisioning_leaves_no_residue Scenario.compose_down_only
            "alpha" "demo" "alpha-demo" 14000 (None, None) Scenario.world0);
    [vm_compute; reflexivity | reflexivity | reflexivity].
Defined.

(** X10: [getContainerStatus] of the runtime driver never throws and never
    changes the runtime.  For a name without container it answers status
    'not_found' with running false, as it does when the inspection fails;
    otherwise it reports whether the container is running. *)
Theorem docker_status_fails_soft (e : Env) (ident : string) (w : World) :
  exists ds w',
    dockerService.getContainerStatus e ident w = (Ok ds, w')
    /\ runtime_only w w' /\ runtime w' = runtime w
    /\ (dockerService.find_container ident (runtime w) = None ->
        ds = {| dockerService.ds_status := "not_found";
                dockerService.ds_running := false |})
    /\ (forall msg, docker_error e "inspect" = Some msg ->
        ds = {| dockerService.ds_status := "not_found";
                dockerService.ds_running := false |})
    /\ (forall c, docker_error e "inspect" = None ->
        dockerService.find_container ident (runtime w) = Some c ->
        ds = {| dockerService.ds_status := if Running c then "running" else "exited";
                dockerService.ds_running := Running c |}).
Proof.
  pose proof (@docker_getContainerStatus_runtime_only e ident w) as Hro.
  unfold dockerService.getContainerStatus, dockerService.docker_call,
    try_catch, bind, emit, modify, gets, may_fail, ret, throw in *.
  destruct (docker_error e "inspect") as [m |]; simpl in *.
  - do 2 eexists. split; [reflexivity |]. split; [exact Hro |].
    split; [reflexivity |]. repeat split; intros; try reflexivity; discriminate.
  - destruct (dockerService.find_container ident (runtime w)) as [c |] eqn:Hfind;
      simpl in *.
    + unfold dockerService.find_container in *. simpl in *. rewrite Hfind in *.
      simpl in *.
      do 2 eexists. split; [reflexivity |]. split; [exact Hro |].
      split; [destruct w, runtime0; reflexivity |].
      repeat split; intros; try discriminate.
      match goal with Hc : Some _ = Some _ |- _ => inversion Hc; subst end.
      reflexivity.
    + do 2 eexists. split; [reflexivity |]. split; [exact Hro |].
      split; [reflexivity |]. repeat split; intros; try reflexivity; discriminate.
Qed.

(** X11: [getContainerLogs] of the runtime driver never changes the runtime;
    every failure, a missing container included, is rethrown as a plain error
    whose message starts with "Failed to get logs: ", and a success returns
    what the daemon holds for the container. *)
Theorem docker_logs_failures_are_wrapped
    (e : Env) (ident : string) (lines : Z) (w : World) :
  exists r w',
    dockerService.getContainerLogs e ident lines w = (r, w')
    /\ runtime_only w w' /\ runtime w' = runtime w
    /\ match r with
       | Ok text =>
           text = docker_logs e ident
           /\ docker_error e "logs" = None
           /\ dockerService.find_container ident (runtime w) <> None
       | Throw err =>
           response err = None
           /\ (exists m, message err = "Failed to get logs: " ++ m)
           /\ (docker_error e "logs" <> None
               \/ dockerService.find_container ident (runtime w) = None)
       end.
Proof.
  pose proof (@docker_getContainerLogs_runtime_only e ident lines w) as Hro.
  unfold dockerService.getContainerLogs, dockerService.docker_call,
    try_catch, bind, emit, modify, gets, may_fail, ret, throw in *.
  destruct (docker_error e "logs") as [m |]; simpl in *.
  - do 2 eexists. split; [reflexivity |]. split; [exact Hro |].
    split; [reflexivity |]. simpl. split; [reflexivity |].
    split; [eauto | left; discriminate].
  - destruct (dockerService.find_container ident (runtime w)) as [c |] eqn:Hfind;
      simpl in *.
    + do 2 eexists. split; [reflexivity |]. split; [exact Hro |].
      split; [destruct w, runtime0; reflexivity |]. simpl.
      repeat split. discriminate.
    + do 2 eexists. split; [reflexivity |]. split; [exact Hro |].
      split; [reflexivity |]. simpl. split; [reflexivity |].
      split; [eauto | right; reflexivity].
Qed.
(** * Reading the catalog and the runtime *)

(** ** The listing *)

Lemma insert_newest_perm r l : Permutation (pool.insert_newest r l) (r :: l).
Proof.
  induction l as [| x l IH]; simpl; [reflexivity |].
  destruct (created_at r <? created_at x); [| reflexivity].
  rewrite IH. apply perm_swap.
Qed.

Lemma newest_first_perm rows : Permutation (pool.newest_first rows) rows.
Proof.
  induction rows as [| r rows IH]; simpl; [constructor |].
  rewrite insert_newest_perm. constructor. exact IH.
Qed.

Lemma insert_newest_sorted r l :
  StronglySorted newer_or_equal l ->
  StronglySorted newer_or_equal (pool.insert_newest r l).
Proof.
  induction 1 as [| x l Hs IH Hall]; simpl.
  - constructor; constructor.
  - destruct (Z.ltb_spec (created_at r) (created_at x)) as [Hlt | Hge].
    + constructor; [exact IH |].
      apply (Permutation_Forall (Permutation_sym (insert_newest_perm r l))).
      constructor; [unfold newer_or_equal; lia | exact Hall].
    + constructor; [constructor; assumption |].
      constructor; [exact Hge |].
      eapply Forall_impl; [| exact Hall].
      unfold newer_or_equal. intros y Hy. lia.
Qed.

Lemma newest_first_sorted rows : StronglySorted newer_or_equal (pool.newest_first rows).
Proof.
  induction rows as [| r rows IH]; simpl; [constructor |].
  apply insert_newest_sorted. exact IH.
Qed.

Lemma and_equals_passes equal filter column :
  pool.and_equals equal filter column = true <-> passes equal filter column.
Proof.
  unfold pool.and_equals, passes, truthy.
  destruct filter as [v |].
  - destruct (String.eqb_spec v EmptyString) as [-> | Hne]; simpl.
    + split; [| reflexivity]. intros _ v' Hv Hne. inversion Hv; subst.
      contradiction.
    + split.
      * intros H v' Hv _. inversion Hv; subst. exact H.
      * intros H. apply H; [reflexivity | exact Hne].
  - split; [| reflexivity]. intros _ v Hv. discriminate.
Qed.

Lemma live_not_deleted r : live r = true <-> status r <> deleted.
Proof.
  unfold live. destruct (status r); simpl; split; congruence.
Qed.

Lemma listed_iff equal iname sname st r :
  pool.listed equal iname sname st r = true <->
  status r <> deleted
  /\ passes equal iname (instance_name r)
  /\ passes equal sname (service_name r)
  /\ passes equal st (pool.status_name (status r)).
Proof.
  unfold pool.listed. rewrite !andb_true_iff, !and_equals_passes.
  fold (live r). rewrite live_not_deleted. tauto.
Qed.

Lemma listContainers_eval (h : Host) f w :
  list_error h = None ->
  containerService.listContainers h f w =
  (Ok (pool.select_list (sql_equal h) (containerService.by_instanceName f)
         (containerService.by_service f) (containerService.by_status f)
         (catalog w)), w).
Proof.
  intros Herr. unfold containerService.listContainers, pool.statement, pool.read.
  rewrite Herr, set_catalog_same. reflexivity.
Qed.

(** X12: when its statement runs, [listContainers] returns, without changing
    anything, the rows of [containers] that are not deleted and pass every
    truthy filter, the newest first; with no truthy filter these are all the
    rows that are not deleted, each as often as the table holds it. *)
Theorem listContainers_live_rows_newest_first
    (h : Host) (f : containerService.Filters) (w : World) :
  list_error h = None ->
  exists rows,
    containerService.listContainers h f w = (Ok rows, w)
    /\ StronglySorted newer_or_equal rows
    /\ (forall r, In r rows <->
          In r (containers (catalog w)) /\ status r <> deleted
          /\ passes (sql_equal h) (containerService.by_instanceName f) (instance_name r)
          /\ passes (sql_equal h) (containerService.by_service f) (service_name r)
          /\ passes (sql_equal h) (containerService.by_status f)
               (pool.status_name (status r)))
    /\ (truthy (containerService.by_instanceName f) = false ->
        truthy (containerService.by_service f) = false ->
        truthy (containerService.by_status f) = false ->
        Permutation rows (filter live (containers (catalog w)))).
Proof.
  intros Herr. eexists. split; [apply listContainers_eval; exact Herr |].
  unfold pool.select_list. split; [apply newest_first_sorted |]. split.
  - intros r. split.
    + intros Hin.
      apply (Permutation_in _ (newest_first_perm _)) in Hin.
      apply filter_In in Hin. destruct Hin as [Hin Hl].
      apply listed_iff in Hl. tauto.
    + intros [Hin Hl].
      apply (Permutation_in _ (Permutation_sym (newest_first_perm _))).
      apply filter_In. split; [exact Hin |]. apply listed_iff. exact Hl.
  - intros Hi Hs Ht. rewrite newest_first_perm.
    erewrite filter_ext; [reflexivity |].
    intros r. unfold pool.listed, pool.and_equals, live.
    rewrite Hi, Hs, Ht. rewrite !andb_true_r. reflexivity.
Qed.

Lemma listContainers_live_rows_newest_first_witness :
  exists rows,
    containerService.listContainers Scenario.host
      {| containerService.by_instanceName := None;
         containerService.by_service := Some "demo";
         containerService.by_status := Some EmptyString |} Scenario.created
    = (Ok rows, Scenario.created)
    /\ StronglySorted newer_or_equal rows.
Proof.
  destruct (@listContainers_live_rows_newest_first Scenario.host
              {| containerService.by_instanceName := None;
                 containerService.by_service := Some "demo";
                 containerService.by_status := Some EmptyString |}
              Scenario.created) as [rows [H [Hs _]]];
    [reflexivity |].
  exists rows. split; assumption.
Defined.

(** X13: a status filter that equals neither 'running' nor 'stopped' makes
    [listContainers] return no row at all: the deleted rows cannot be listed,
    not even by asking for them. *)
Theorem listContainers_never_lists_deleted
    (h : Host) (f : containerService.Filters) (v : string) (w : World) :
  list_error h = None ->
  containerService.by_status f = Some v ->
  v <> EmptyString ->
  sql_equal h "running" v = false ->
  sql_equal h "stopped" v = false ->
  containerService.listContainers h f w = (Ok [], w).
Proof.
  intros Herr Hst Hne Hr Hs. rewrite (@listContainers_eval h f w Herr).
  unfold pool.select_list.
  replace (filter _ (containers (catalog w))) with (@nil ContainerRow);
    [reflexivity |].
  symmetry. induction (containers (catalog w)) as [| r rows IH]; [reflexivity |].
  simpl. rewrite <- IH.
  assert (Hl : pool.listed (sql_equal h) (containerService.by_instanceName f)
                 (containerService.by_service f) (containerService.by_status f) r
               = false).
  { destruct (pool.listed _ _ _ _ r) eqn:Hl; [| reflexivity].
    apply listed_iff in Hl. destruct Hl as [Hd [_ [_ Hp]]].
    specialize (Hp v Hst Hne).
    destruct (status r); simpl in Hp; congruence. }
  rewrite Hl. reflexivity.
Qed.

Lemma listContainers_never_lists_deleted_witness :
  map status (containers (catalog Scenario.removed)) = [deleted]
  /\ containerService.listContainers Scenario.host
       {| containerService.by_instanceName := None;
          containerService.by_service := None;
          containerService.by_status := Some "deleted" |} Scenario.removed
     = (Ok [], Scenario.removed).
Proof.
  split; [reflexivity |].
  apply (@listContainers_never_lists_deleted Scenario.host
           {| containerService.by_instanceName := None;
              containerService.by_service := None;
              containerService.by_status := Some "deleted" |} "deleted");
    [reflexivity | reflexivity | discriminate | reflexivity | reflexivity].
Defined.

(** ** Status by id *)



(** * More of the proxy client *)

(** ** The session *)

(** X15: a [login] that gets no answer throws a plain error whose message is
    "FastPanel login failed: " followed by the cause, and leaves the cached
    token and its expiry, like the control plane, as they were. *)
Theorem login_failure_keeps_session (e : Env) (msg : string) (w : World) :
  http_error e POST_login = Some msg ->
  exists w',
    fastpanelService.login e w
      = (Throw (Error ("FastPanel login failed: " ++ msg)), w')
    /\ session w' = session w /\ panel w' = panel w
    /\ trace w' = (trace w ++ [Http POST_login;
                               Log ("❌ FastPanel login failed: " ++ msg)])%list.
Proof.
  intros Hnet. eexists.
  unfold fastpanelService.login, fastpanelService.request, try_catch, bind,
    console, emit, modify, may_fail, throw.
  rewrite Hnet. simpl. split; [reflexivity |].
  destruct w; simpl. repeat split. rewrite <- app_assoc. reflexivity.
Qed.

Lemma login_failure_keeps_session_witness :
  exists w',
    fastpanelService.login
      (Scenario.failing (fun _ => None) (fun _ => None)
         (fun _ => Some "connect ECONNREFUSED")) Scenario.created
      = (Throw (Error "FastPanel login failed: connect ECONNREFUSED"), w')
    /\ session w' = session Scenario.created.
Proof.
  destruct (@login_failure_keeps_session
              (Scenario.failing (fun _ => None) (fun _ => None)
                 (fun _ => Some "connect ECONNREFUSED"))
              "connect ECONNREFUSED" Scenario.created)
    as [w' [H [Hs _]]]; [reflexivity |].
  exists w'. split; [exact H | exact Hs].
Defined.

(** X16: [testConnection] never throws and never uses a cached token: it
    always sends the login request, answers true exactly when that request
    is answered, and then the session holds the token and expiry of the
    reply; when it answers false the session is as before. *)
Theorem testConnection_never_throws (e : Env) (w : World) :
  exists ok w',
    fastpanelService.testConnection e w = (Ok ok, w')
    /\ panel w' = panel w
    /\ (exists rest, trace w' = (trace w ++ Http POST_login :: rest)%list)
    /\ (ok = true <-> http_error e POST_login = None)
    /\ (ok = true ->
        session w' = {| token := login_token e;
                        tokenExpire := Some (login_expire e) |})
    /\ (ok = false -> session w' = session w).
Proof.
  unfold fastpanelService.testConnection, fastpanelService.login,
    fastpanelService.request, try_catch, bind, console, emit, modify, gets,
    may_fail, throw, ret.
  destruct (http_error e POST_login) as [msg |]; simpl.
  - exists false. eexists. split; [reflexivity |]. destruct w; simpl.
    split; [reflexivity |]. split.
    + eexists. rewrite <- !app_assoc. reflexivity.
    + repeat split; congruence.
  - exists true. eexists. split; [reflexivity |]. destruct w; simpl.
    split; [reflexivity |]. split.
    + eexists. rewrite <- !app_assoc. reflexivity.
    + repeat split; congruence.
Qed.

(** ** A failed [createSite] *)

Lemma registers_refl d w : registers_at_most d w w.
Proof.
  split; [reflexivity |]. split; [reflexivity |].
  exists []. split; [symmetry; apply app_nil_r | constructor].
Qed.

Lemma registers_trans d a b c :
  registers_at_most d a b -> registers_at_most d b c -> registers_at_most d a c.
Proof.
  intros (S1 & C1 & l1 & D1 & F1) (S2 & C2 & l2 & D2 & F2).
  split; [congruence |]. split; [congruence |].
  exists (l1 ++ l2)%list. split.
  - rewrite D2, D1. symmetry. apply app_assoc.
  - apply Forall_app. split; assumption.
Qed.

Lemma same_panel_registers d w w' : panel w' = panel w -> registers_at_most d w w'.
Proof. intros H. unfold registers_at_most. rewrite H. apply registers_refl. Qed.

Ltac registers_frame d :=
  repeat keeps_step (registers_refl d) (@registers_trans d);
  try (intros w; apply same_panel_registers; reflexivity).

Lemma getToken_registers d e : keeps (registers_at_most d) (fastpanelService.getToken e).
Proof.
  intros w. apply same_panel_registers. apply (@getToken_same_panel e w).
Qed.

Lemma add_domain_request_registers e d :
  keeps (registers_at_most d)
    (fastpanelService.request e (POST_dns_domains d)
       (fastpanelService.serve_add_domain d)).
Proof.
  intros w. unfold fastpanelService.request, bind, emit, modify, may_fail.
  destruct (http_error e (POST_dns_domains d)); simpl;
    [apply same_panel_registers; reflexivity |].
  unfold fastpanelService.serve_add_domain.
  destruct (fastpanelService.has_domain d (panel w)); simpl;
    [apply same_panel_registers; reflexivity |].
  split; [reflexivity |]. split; [reflexivity |].
  eexists. split; [reflexivity |]. constructor; [reflexivity | constructor].
Qed.

Lemma addDomain_registers_at_most e d :
  keeps (registers_at_most d) (fastpanelService.addDomain e d).
Proof.
  unfold fastpanelService.addDomain. registers_frame d.
  - apply getToken_registers.
  - apply add_domain_request_registers.
Qed.

Lemma create_site_request_inv e d up w r w' :
  fastpanelService.request e (PUT_master d up) (fastpanelService.serve_create_site d up) w
    = (r, w') ->
  (exists id, r = Ok id) \/ panel w' = panel w.
Proof.
  unfold fastpanelService.request, bind, emit, modify, may_fail.
  destruct (http_error e (PUT_master d up)); simpl.
  - intros H. inversion H; subst. right. reflexivity.
  - unfold fastpanelService.serve_create_site.
    destruct (existsb _ (sites (panel w))); intros H; inversion H; subst.
    + right. reflexivity.
    + left. eauto.
Qed.

(** X17: a [createSite] that throws has created neither a site nor a
    certificate and has requested no certificate; at most the DNS entry of
    the domain has been added.  What it throws is a plain error whose
    message starts with "Failed to create FastPanel site: ", and the failure
    can only come from the login, the DNS entry or the creation of the site:
    the steps after it cannot make the call fail. *)
Theorem createSite_failure_creates_no_site
    (e : Env) (sub : string) (p : Z) (w : World) (err : JsError) (w' : World) :
  fastpanelService.createSite e sub p w = (Throw err, w') ->
  response err = None
  /\ (exists m, message err = "Failed to create FastPanel site: " ++ m)
  /\ registers_at_most (sub ++ "." ++ BASE_DOMAIN e) w w'
  /\ no_cert_request w w'.
Proof.
  unfold fastpanelService.createSite. intros H. apply try_inv in H.
  destruct H as [[x [_ Hx]] | [err0 [w1 [E H]]]]; [discriminate Hx |].
  apply bind_inv in H.
  destruct H as [[x [Hc _]] | [u [w2 [Hc H]]]]; [discriminate Hc |].
  inversion H; subst. clear H. simpl.
  split; [reflexivity |]. split; [eauto |].
  inversion Hc; subst. clear Hc.
  set (d := sub ++ "." ++ BASE_DOMAIN e) in *.
  assert (registers_at_most d w w1 /\ no_cert_request w w1) as [Hreg Hno].
  { apply bind_inv in E.
    destruct E as [[x [Ht _]] | [tok [wa [Ht E]]]].
    { split; [exact (keeps_run (@getToken_registers d e) Ht)
             | exact (keeps_run (@getToken_no_cert e) Ht)]. }
    pose proof (keeps_run (@getToken_registers d e) Ht) as R1.
    pose proof (keeps_run (@getToken_no_cert e) Ht) as N1.
    apply bind_inv in E.
    destruct E as [[x [Hd _]] | [dom [wb [Hd E]]]].
    { split; [exact (registers_trans R1 (keeps_run (@addDomain_registers_at_most e d) Hd))
             | exact (no_cert_trans N1 (keeps_run (@addDomain_no_cert e d) Hd))]. }
    pose proof (registers_trans R1 (keeps_run (@addDomain_registers_at_most e d) Hd)) as R2.
    pose proof (no_cert_trans N1 (keeps_run (@addDomain_no_cert e d) Hd)) as N2.
    apply bind_inv in E.
    destruct E as [[x [Hput _]] | [id [wc [_ E]]]].
    { pose proof (keeps_run (@request_no_cert _ e (PUT_master d _) _ eq_refl) Hput) as N3.
      apply create_site_request_inv in Hput.
      destruct Hput as [[id Hid] | Hp]; [discriminate Hid |].
      split; [exact (registers_trans R2 (same_panel_registers d _ _ Hp))
             | exact (no_cert_trans N2 N3)]. }
    exfalso.
    apply bind_inv in E.
    destruct E as [[x [Hx _]] | [u1 [wd [_ E]]]]; [discriminate Hx |].
    apply bind_inv in E.
    destruct E as [[x [Hx _]] | [u2 [we [_ E]]]]; [discriminate Hx |].
    apply bind_inv in E.
    destruct E as [[x [Hx _]] | [u3 [wf [_ E]]]]; [discriminate Hx |].
    apply bind_inv in E.
    destruct E as [[x [Hx _]] | [cert [wg [_ E]]]]; [| discriminate E].
    destruct (createSSL_spec e d id wf) as [c [wz [post [Hok _]]]].
    rewrite Hok in Hx. discriminate Hx. }
  split.
  - eapply registers_trans; [exact Hreg |].
    apply same_panel_registers. reflexivity.
  - eapply no_cert_trans; [exact Hno |].
    apply (@console_no_cert _ w1).
Qed.

Lemma createSite_failure_creates_no_site_witness :
  exists err w',
    fastpanelService.createSite Scenario.proxy_down "alpha-demo" 14000 Scenario.world0
      = (Throw err, w')
    /\ registers_at_most "alpha-demo.example.test" Scenario.world0 w'
    /\ dns_domains (panel w') <> dns_domains (panel Scenario.world0).
Proof.
  do 2 eexists. split; [vm_compute; reflexivity |].
  split; [| vm_compute; discriminate].
  refine (proj1 (proj2 (proj2
            (@createSite_failure_creates_no_site Scenario.proxy_down "alpha-demo"
               14000 Scenario.world0 _ _ _)))).
  vm_compute. reflexivity.
Defined.

(** ** Looking a site up *)

Lemma list_sites_request_cases e w :
  (exists msg w1, http_error e GET_master = Some msg
     /\ fastpanelService.request e GET_master fastpanelService.serve_list_sites w
        = (Throw (Error msg), w1)
     /\ panel w1 = panel w)
  \/ (exists w1, http_error e GET_master = None
     /\ fastpanelService.request e GET_master fastpanelService.serve_list_sites w
        = (Ok (sites (panel w)), w1)
     /\ panel w1 = panel w).
Proof.
  unfold fastpanelService.request, fastpanelService.serve_list_sites, bind, emit,
    modify, may_fail, throw, ret.
  destruct (http_error e GET_master) as [msg |]; simpl.
  - left. do 2 eexists. repeat split.
  - right. eexists. split; [reflexivity |]. split; [reflexivity |].
    destruct w; reflexivity.
Qed.


(** X19: [updateSiteProxy] for a domain without site throws a plain error
    whose message starts with "Failed to update FastPanel site: " and leaves
    the control plane as it was; when the login and the listing work, the
    message names the missing site. *)
Theorem updateSiteProxy_unknown_site
    (e : Env) (d : string) (newPort : Z) (w : World) :
  find (fun s => (site_domain s =? d)%string) (sites (panel w)) = None ->
  exists err w',
    fastpanelService.updateSiteProxy e d newPort w = (Throw err, w')
    /\ response err = None
    /\ panel w' = panel w
    /\ (exists m, message err = "Failed to update FastPanel site: " ++ m)
    /\ (forall tok w0, fastpanelService.getToken e w = (Ok tok, w0) ->
        http_error e GET_master = None ->
        message err = "Failed to update FastPanel site: Site " ++ d ++ " not found").
Proof.
  intros Hfind. unfold fastpanelService.updateSiteProxy.
  destruct (fastpanelService.getToken e w) as [[tok | err] w1] eqn:Ht.
  - pose proof (keeps_run (@getToken_same_panel e) Ht) as Hp. unfold same in Hp.
    destruct (list_sites_request_cases e w1)
      as [(msg & w2 & Hnet & Hreq & Hp2) | (w2 & Hnet & Hreq & Hp2)].
    + do 2 eexists. split.
      { erewrite try_throw by (erewrite bind_ok by exact Ht;
                               erewrite bind_throw by exact Hreq; reflexivity).
        reflexivity. }
      simpl. split; [reflexivity |]. split; [congruence |].
      split; [eauto |]. intros; congruence.
    + rewrite Hp in Hreq.
      do 2 eexists. split.
      { erewrite try_throw by (erewrite bind_ok by exact Ht;
                               erewrite bind_ok by exact Hreq;
                               rewrite Hfind; reflexivity).
        reflexivity. }
      simpl. split; [reflexivity |]. split; [congruence |].
      split; [eauto |]. intros; reflexivity.
  - pose proof (keeps_run (@getToken_same_panel e) Ht) as Hp. unfold same in Hp.
    do 2 eexists. split.
    { erewrite try_throw by (erewrite bind_throw by exact Ht; reflexivity).
      reflexivity. }
    simpl. split; [reflexivity |]. split; [exact Hp |].
    split; [eauto |]. intros tok w0 Hx. discriminate Hx.
Qed.

Lemma updateSiteProxy_unknown_site_witness :
  exists err w',
    fastpanelService.updateSiteProxy Scenario.nominal "gone.example.test" 14001
      Scenario.created = (Throw err, w')
    /\ panel w' = panel Scenario.created.
Proof.
  destruct (@updateSiteProxy_unknown_site Scenario.nominal "gone.example.test" 14001
              Scenario.created) as [err [w' [H [_ [Hp _]]]]];
    [reflexivity |].
  exists err, w'. split; [exact H | exact Hp].
Defined.
(** * The routes *)

Lemma respond_inv {A} ok fail (m : M A) w resp w' :
  containerRoutes.respond ok fail m w = (resp, w') ->
  (exists a, m w = (Ok a, w')
             /\ resp = {| containerRoutes.code := ok; containerRoutes.body := inr a |})
  \/ (exists err, m w = (Throw err, w')
                  /\ resp = {| containerRoutes.code := fail;
                               containerRoutes.body := inl (message err) |}).
Proof.
  unfold containerRoutes.respond. destruct (m w) as [[a | err] w1];
    intros H; inversion H; subst; eauto.
Qed.

Lemma respond_throw {A} ok fail (m : M A) w err w' :
  m w = (Throw err, w') ->
  containerRoutes.respond ok fail m w
  = ({| containerRoutes.code := fail; containerRoutes.body := inl (message err) |}, w').
Proof. unfold containerRoutes.respond. intros ->. reflexivity. Qed.

Lemma select_by_id_missing e id w :
  db_error e SELECT_container = None ->
  pool.select_container id (catalog w) = [] ->
  containerService.select_by_id e id w = (Throw (Error "Container not found"), w).
Proof. intros Hdb Hsel. rewrite (@select_by_id_eval e id w Hdb), Hsel. reflexivity. Qed.

(** X20: for an id that no row of the catalog has, every route on [/:id]
    answers with the body [{ error: 'Container not found' }] and changes
    nothing, but only [GET /:id] answers 404: stop, start, restart, redeploy,
    backup, logs and delete answer 500. *)
Theorem unknown_id_is_404_only_on_get
    (h : Host) (id : Z) (lines : option Z) (w : World) :
  db_error h SELECT_container = None ->
  pool.select_container id (catalog w) = [] ->
  let not_found (A : Type) (status : Z) : containerRoutes.Response A * World :=
    ({| containerRoutes.code := status;
        containerRoutes.body := inl "Container not found" |}, w) in
  containerRoutes.get_id h id w = not_found _ 404
  /\ containerRoutes.post_stop h id w = not_found _ 500
  /\ containerRoutes.post_start h id w = not_found _ 500
  /\ containerRoutes.post_restart h id w = not_found _ 500
  /\ containerRoutes.post_redeploy h id w = not_found _ 500
  /\ containerRoutes.post_backup h id w = not_found _ 500
  /\ containerRoutes.get_logs h id lines w = not_found _ 500
  /\ containerRoutes.delete_id h id w = not_found _ 500.
Proof.
  intros Hdb Hsel not_found. subst not_found.
  pose proof (select_by_id_missing h id w Hdb Hsel) as Hmiss.
  unfold containerRoutes.get_id, containerRoutes.post_stop,
    containerRoutes.post_start, containerRoutes.post_restart,
    containerRoutes.post_redeploy, containerRoutes.post_backup,
    containerRoutes.get_logs, containerRoutes.delete_id.
  unfold containerService.getContainerStatus, containerService.stopContainer,
    containerService.startContainer, containerService.restartContainer,
    containerService.redeployContainer, containerService.backupContainer,
    containerService.getContainerLogs, containerService.deleteContainer.
  repeat split;
    (erewrite respond_throw by (erewrite bind_throw by exact Hmiss; reflexivity);
     reflexivity).
Qed.

Lemma unknown_id_is_404_only_on_get_witness :
  containerRoutes.code (fst (containerRoutes.get_id Scenario.host 7 Scenario.created)) = 404
  /\ containerRoutes.code (fst (containerRoutes.delete_id Scenario.host 7 Scenario.created)) = 500.
Proof.
  destruct (@unknown_id_is_404_only_on_get Scenario.host 7 None Scenario.created)
    as [Hget [_ [_ [_ [_ [_ [_ Hdel]]]]]]]; [reflexivity | reflexivity |].
  rewrite Hget, Hdel. split; reflexivity.
Defined.


(** X22: [POST /] answers 400, without calling the orchestrator and without
    any effect, exactly when [instanceName] or [service] is missing or
    empty.  Otherwise it answers 201 with the result when [createContainer]
    returns and 500 with the message when it throws: an invalid instance
    name, an unknown service and a name already taken are all 500. *)
Theorem post_root_status_codes
    (h : Host) (b : containerRoutes.CreateBody) (w : World) :
  exists resp w',
    containerRoutes.post_root h b w = (resp, w')
    /\ let missing :=
         truthy (containerRoutes.body_instanceName b) = false
         \/ truthy (containerRoutes.body_service b) = false in
       let data :=
         {| containerService.instanceName :=
              containerRoutes.text (containerRoutes.body_instanceName b);
            containerService.serviceName :=
              containerRoutes.text (containerRoutes.body_service b);
            containerService.resources := containerRoutes.body_resources b |} in
       (containerRoutes.code resp = 400 <-> missing)
       /\ (missing ->
           w' = w
           /\ containerRoutes.body resp
              = inl "Missing required fields: instanceName and service")
       /\ (~ missing ->
           match containerService.createContainer h data w with
           | (Ok a, w1) =>
               resp = {| containerRoutes.code := 201; containerRoutes.body := inr a |}
               /\ w' = w1
           | (Throw err, w1) =>
               resp = {| containerRoutes.code := 500;
                         containerRoutes.body := inl (message err) |}
               /\ w' = w1
           end).
Proof.
  unfold containerRoutes.post_root.
  destruct (truthy (containerRoutes.body_instanceName b)) eqn:Hi;
    destruct (truthy (containerRoutes.body_service b)) eqn:Hs; simpl.
  2-4: do 2 eexists; (split; [reflexivity |]); simpl;
       (split; [split; auto |]); (split; [auto |]);
       intros Hn; exfalso; apply Hn; auto.
  unfold containerRoutes.respond.
  destruct (containerService.createContainer h _ w) as [[a | err] w1] eqn:E;
    do 2 eexists; (split; [reflexivity |]); simpl;
    (split; [split; [discriminate | intros [Hx | Hx]; discriminate Hx] |]);
    (split; [intros [Hx | Hx]; discriminate Hx |]);
    intros _; split; reflexivity.
Qed.

(** X23: a well-formed request to [POST /] whose instance name has a
    character outside letters, digits and the dash is answered 500, not 400,
    after no statement and no call: the world is as it was. *)
Theorem post_root_invalid_name_is_500
    (h : Host) (b : containerRoutes.CreateBody) (iname : string) (w : World) :
  containerRoutes.body_instanceName b = Some iname ->
  truthy (containerRoutes.body_service b) = true ->
  iname <> EmptyString ->
  containerService.valid_instance_name iname = false ->
  containerRoutes.post_root h b w
  = ({| containerRoutes.code := 500;
        containerRoutes.body :=
          inl "Instance name must contain only letters, numbers, and dashes" |}, w).
Proof.
  intros Hb Hs Hne Hbad. unfold containerRoutes.post_root.
  rewrite Hb, Hs. simpl.
  destruct (String.eqb_spec iname EmptyString) as [-> | _]; [contradiction |].
  simpl. unfold containerRoutes.respond, containerService.createContainer. simpl.
  rewrite Hbad. reflexivity.
Qed.

Lemma post_root_invalid_name_is_500_witness :
  containerRoutes.code
    (fst (containerRoutes.post_root Scenario.host
            {| containerRoutes.body_instanceName := Some "my app";
               containerRoutes.body_service := Some "demo";
               containerRoutes.body_resources := None |} Scenario.world0)) = 500.
Proof.
  rewrite (@post_root_invalid_name_is_500 Scenario.host _ "my app" Scenario.world0);
    [reflexivity | reflexivity | reflexivity | discriminate | reflexivity].
Defined.
(** * A teardown that fails *)

Lemma docker_deleteContainer_failed_teardown e ident msg w :
  fs_error e Rm = None ->
  shell_error e ComposeDown = Some msg ->
  exists w',
    dockerService.deleteContainer e ident w = (Ok "deleted", w')
    /\ docker_containers (runtime w') = docker_containers (runtime w)
    /\ dockerService.dir_exists (dockerService.containerDirOf e ident) (runtime w')
       = false
    /\ In (Log ("Error stopping container: " ++ msg)) (trace w').
Proof.
  intros Hrm Hdown.
  unfold dockerService.deleteContainer, dockerService.execAsync, dockerService.rm,
    dockerService.fs_call, try_catch, bind, console, emit, modify, gets, may_fail,
    ret, throw.
  rewrite Hrm, Hdown. simpl.
  eexists. split; [reflexivity |]. simpl. split; [reflexivity |].
  split; [apply dir_gone_after_rm |].
  rewrite !in_app_iff. simpl. auto 10.
Qed.

(** X24: [deleteContainer] does not notice a teardown that fails.  When
    [docker compose down -v] fails while the catalog and the removal of the
    directory work, the call still returns its success message: the failure
    is only logged, the containers of the runtime are exactly those of
    before, the working directory is gone, every row of the id has status
    deleted and no port row is owned by the id any more. *)
Theorem deleteContainer_ignores_failed_teardown
    (e : Env) (id : Z) (w : World) (c : ContainerRow) (rows : list ContainerRow)
    (msg : string) :
  (forall q, db_error e q = None) ->
  pool.select_container id (catalog w) = c :: rows ->
  fs_error e Rm = None ->
  shell_error e ComposeDown = Some msg ->
  exists w',
    containerService.deleteContainer e id w
    = (Ok "Container deleted successfully", w')
    /\ docker_containers (runtime w') = docker_containers (runtime w)
    /\ dockerService.dir_exists
         (dockerService.containerDirOf e (container_identifier c)) (runtime w') = false
    /\ In (Log ("Error stopping container: " ++ msg)) (trace w')
    /\ (forall r', In r' (containers (catalog w')) -> row_id r' = id ->
                   status r' = deleted)
    /\ (forall pa, In pa (port_assignments (catalog w')) ->
                   pa_container_id pa <> Some id).
Proof.
  intros Hdb Hsel Hrm Hdown.
  destruct (docker_deleteContainer_failed_teardown e (container_identifier c) w
              Hrm Hdown) as (w1 & Hdel & Hsame & Hnodir & Hlog).
  pose proof (keeps_run (@docker_deleteContainer_runtime_only e _) Hdel) as [Hc1 _].
  pose proof (keeps_run (@docker_deleteContainer_grows e _) Hdel) as [l1 Hl1].
  destruct (fastpanelService.deleteSite e (subdomain c ++ "." ++ BASE_DOMAIN e) w1)
    as [r w2] eqn:Hsite.
  pose proof (keeps_run (@deleteSite_grows e _) Hsite) as [l2 Hl2].
  destruct (delete_proxy_step_eval _ _ _ Hsite)
    as (w3 & Htry & Hc3 & Hr3 & [l3 Hl3] & _).
  eexists. split.
  { unfold containerService.deleteContainer.
    erewrite bind_ok by (rewrite select_by_id_eval by apply Hdb; rewrite Hsel; reflexivity).
    erewrite bind_ok by exact Hdel.
    erewrite bind_ok by exact Htry.
    erewrite bind_ok by (apply free_port_eval, Hdb).
    erewrite bind_ok by (apply set_status_eval, Hdb).
    reflexivity. }
  simpl. rewrite Hr3. split; [exact Hsame |]. split; [exact Hnodir |]. split.
  { rewrite Hl3, Hl2. rewrite !in_app_iff. auto. }
  split.
  - intros r' Hr' Hid. apply in_map_iff in Hr'. destruct Hr' as (r0 & <- & Hr0).
    rewrite with_status_or_same_id in Hid. apply Z.eqb_eq in Hid. rewrite Hid.
    reflexivity.
  - intros pa' Hpa'. apply in_map_iff in Hpa'. destruct Hpa' as (pa & <- & Hpa).
    destruct (pa_container_id pa) as [o |] eqn:Ho.
    + destruct (Z.eqb_spec o id) as [-> | Hne]; simpl; congruence.
    + congruence.
Qed.

Lemma deleteContainer_ignores_failed_teardown_witness :
  exists w',
    containerService.deleteContainer
      (Scenario.failing (fun _ => None)
         (fun call => match call with
                      | ComposeDown => Some "Cannot connect to the Docker daemon"
                      | _ => None
                      end)
         (fun _ => None)) 1 Scenario.created
    = (Ok "Container deleted successfully", w')
    /\ docker_containers (runtime w') = docker_containers (runtime Scenario.created)
    /\ docker_containers (runtime w') <> [].
Proof.
  assert (Hsel : exists c, pool.select_container 1 (catalog Scenario.created) = [c]).
  { eexists. reflexivity. }
  destruct Hsel as [c Hsel].
  destruct (@deleteContainer_ignores_failed_teardown
              (Scenario.failing (fun _ => None)
                 (fun call => match call with
                              | ComposeDown => Some "Cannot connect to the Docker daemon"
                              | _ => None
                              end)
                 (fun _ => None)) 1 Scenario.created c []
              "Cannot connect to the Docker daemon")
    as (w' & H & Hsame & _);
    [intros q; reflexivity | exact Hsel | reflexivity | reflexivity |].
  exists w'. split; [exact H |]. split; [exact Hsame |].
  rewrite Hsame. vm_compute. discriminate.
Defined.
(** * Runtime and catalog side by side *)

Lemma find_after_set_running_to name b cs c :
  find (dockerService.named name) cs = Some c ->
  exists c',
    find (dockerService.named name)
      (map (fun x => if dockerService.named name x
                     then {| Name := Name x; Id := Id x; Running := b |} else x) cs)
    = Some c'
    /\ Running c' = b.
Proof.
  induction cs as [| x cs IH]; simpl; [discriminate |].
  destruct (dockerService.named name x) eqn:E.
  - intros _. simpl. unfold dockerService.named in *. simpl. rewrite E.
    eexists. split; reflexivity.
  - intros H. simpl. rewrite E. apply IH. exact H.
Qed.

Lemma docker_stop_eval e ident w dc :
  docker_error e "stop" = None ->
  dockerService.find_container ident (runtime w) = Some dc ->
  Running dc = true ->
  dockerService.stopContainer e ident w
  = (Ok "stopped",
     set_runtime (dockerService.set_running ident false (runtime w))
       (add_event (DockerCall "stop" ident) w)).
Proof.
  intros He Hfind Hrun.
  unfold dockerService.stopContainer, dockerService.docker_call, bind, emit,
    modify, gets, may_fail, ret.
  rewrite He. simpl. rewrite Hfind, Hrun. reflexivity.
Qed.

Lemma docker_start_eval e ident w dc :
  docker_error e "start" = None ->
  dockerService.find_container ident (runtime w) = Some dc ->
  Running dc = false ->
  dockerService.startContainer e ident w
  = (Ok "running",
     set_runtime (dockerService.set_running ident true (runtime w))
       (add_event (DockerCall "start" ident) w)).
Proof.
  intros He Hfind Hrun.
  unfold dockerService.startContainer, dockerService.docker_call, bind, emit,
    modify, gets, may_fail, ret.
  rewrite He. simpl. rewrite Hfind, Hrun. reflexivity.
Qed.

Lemma select_container_after_update s id now c :
  pool.select_container id (pool.update_status s id now c)
  = map (pool.with_status s now) (pool.select_container id c).
Proof.
  unfold pool.select_container, pool.update_status. simpl.
  induction (containers c) as [| r rows IH]; simpl; [reflexivity |].
  destruct (row_id r =? id) eqn:E; simpl; rewrite E; simpl; rewrite IH; reflexivity.
Qed.

Lemma only_row_of_id id rows c r :
  filter (fun r => row_id r =? id) rows = [c] ->
  In r rows -> row_id r = id -> r = c.
Proof.
  induction rows as [| x rows IH]; simpl; [contradiction |].
  intros Hf Hin Hid. destruct (row_id x =? id) eqn:E.
  - injection Hf as Hx Hnil. destruct Hin as [Hxr | Hin]; [congruence |].
    exfalso. assert (In r (filter (fun r => row_id r =? id) rows)) as Hr.
    { apply filter_In. split; [exact Hin | apply Z.eqb_eq; exact Hid]. }
    rewrite Hnil in Hr. contradiction.
  - destruct Hin as [Hxr | Hin].
    + subst x. apply Z.eqb_neq in E. contradiction.
    + apply IH; assumption.
Qed.

(** X25: a redeploy whose [docker compose up] half fails, after the down
    half worked, throws the error of the shell and writes nothing to the
    catalog, while the runtime has no container for the instance any more:
    a row that said running still says running. *)
Theorem redeploy_failure_leaves_instance_down
    (e : Env) (id : Z) (w : World) (c : ContainerRow) (rows : list ContainerRow)
    (msg : string) :
  db_error e SELECT_container = None ->
  pool.select_container id (catalog w) = c :: rows ->
  shell_error e ComposeDown = None ->
  shell_error e ComposeUp = Some msg ->
  dockerService.dir_exists
    (dockerService.containerDirOf e (container_identifier c)) (runtime w) = true ->
  exists w',
    containerService.redeployContainer e id w = (Throw (Error msg), w')
    /\ catalog w' = catalog w
    /\ dockerService.find_container (container_identifier c) (runtime w') = None.
Proof.
  intros Hdb Hsel Hdown Hup Hdir.
  pose proof (select_by_id_eval e id w Hdb) as Hlook. rewrite Hsel in Hlook.
  eexists. split.
  { unfold containerService.redeployContainer.
    erewrite bind_ok by exact Hlook.
    unfold dockerService.redeployContainer, bind, emit, modify, gets, may_fail,
      ret, throw.
    rewrite Hdown, Hup. simpl. rewrite Hdir. reflexivity. }
  simpl. split; [reflexivity |]. apply find_after_remove.
Qed.

Lemma redeploy_failure_leaves_instance_down_witness :
  exists w',
    containerService.redeployContainer Scenario.compose_down_only 1 Scenario.created
    = (Throw (Error "compose up failed"), w')
    /\ map status (containers (catalog w')) = [running]
    /\ dockerService.find_container "alpha-demo" (runtime w') = None.
Proof.
  assert (Hsel : exists c,
             pool.select_container 1 (catalog Scenario.created) = [c]
             /\ container_identifier c = "alpha-demo").
  { eexists. split; reflexivity. }
  destruct Hsel as [c [Hsel Hid]].
  destruct (@redeploy_failure_leaves_instance_down Scenario.compose_down_only 1
              Scenario.created c [] "compose up failed")
    as (w' & H & Hc & Hf);
    [reflexivity | exact Hsel | reflexivity | reflexivity
     | rewrite Hid; vm_compute; reflexivity |].
  exists w'. split; [exact H |]. split.
  - rewrite Hc. reflexivity.
  - rewrite <- Hid. exact Hf.
Defined.

(** X26: stop followed by start is a round trip.  For the only row of an id,
    running in the catalog and in the runtime, with the catalog and the
    daemon answering, both calls succeed; in between the row says stopped
    and the container does not run; afterwards every row has the status and
    the other columns it had and the container runs again.  [updated_at] is
    not covered: it has moved with each change of status. *)
Theorem stop_then_start_round_trip
    (e : Env) (id : Z) (w : World) (c : ContainerRow) (dc : DockerContainer) :
  (forall q, db_error e q = None) ->
  docker_error e "stop" = None ->
  docker_error e "start" = None ->
  pool.select_container id (catalog w) = [c] ->
  status c = running ->
  dockerService.find_container (container_identifier c) (runtime w) = Some dc ->
  Running dc = true ->
  exists w1 w2,
    containerService.stopContainer e id w = (Ok "Container stopped successfully", w1)
    /\ containerService.startContainer e id w1
       = (Ok "Container started successfully", w2)
    /\ map status (pool.select_container id (catalog w1)) = [stopped]
    /\ (exists d1, dockerService.find_container (container_identifier c) (runtime w1)
                   = Some d1 /\ Running d1 = false)
    /\ map status (containers (catalog w2)) = map status (containers (catalog w))
    /\ map other_columns (containers (catalog w2))
       = map other_columns (containers (catalog w))
    /\ (exists d2, dockerService.find_container (container_identifier c) (runtime w2)
                   = Some d2 /\ Running d2 = true).
Proof.
  intros Hdb Hstop Hstart Hsel Hst Hfind Hrun.
  pose proof (select_by_id_eval e id w (Hdb _)) as Hlook. rewrite Hsel in Hlook.
  pose proof (docker_stop_eval e _ w Hstop Hfind Hrun) as Hd1.
  destruct (find_after_set_running_to _ false _ Hfind) as [d1 [Hf1 Hr1]].
  eexists. eexists. split.
  { unfold containerService.stopContainer.
    erewrite bind_ok by exact Hlook.
    erewrite bind_ok by exact Hd1.
    erewrite bind_ok by (apply set_status_eval, Hdb).
    reflexivity. }
  match goal with
  | |- containerService.startContainer e id ?w1 = _ /\ _ => set (wa := w1)
  end.
  assert (Hsel1 : pool.select_container id (catalog wa)
                  = [pool.with_status stopped (clock w / 1000) c]).
  { unfold wa. simpl. rewrite select_container_after_update, Hsel. reflexivity. }
  assert (Hfa : dockerService.find_container (container_identifier c) (runtime wa)
                = Some d1) by exact Hf1.
  pose proof (select_by_id_eval e id wa (Hdb _)) as Hlook1. rewrite Hsel1 in Hlook1.
  pose proof (docker_start_eval e (container_identifier c) wa Hstart Hfa Hr1) as Hd2.
  destruct (find_after_set_running_to _ true _ Hfa) as [d2 [Hf2 Hr2]].
  split.
  { unfold containerService.startContainer.
    erewrite bind_ok by exact Hlook1.
    erewrite bind_ok by exact Hd2.
    erewrite bind_ok by (apply set_status_eval, Hdb).
    reflexivity. }
  split; [rewrite Hsel1; reflexivity |].
  split; [exists d1; split; assumption |].
  simpl. rewrite !map_map.
  split; [| split; [| exists d2; split; assumption]].
  - apply map_ext_in. intros r Hin.
    destruct (Z.eqb_spec (row_id r) id) as [Hid | Hne].
    + assert (r = c) as -> by (eapply only_row_of_id; eassumption).
      replace (row_id (pool.with_status stopped (clock w / 1000) c) =? id)
        with true by (symmetry; apply Z.eqb_eq; exact Hid).
      simpl. symmetry. exact Hst.
    + apply Z.eqb_neq in Hne. rewrite Hne. reflexivity.
  - apply map_ext_in. intros r Hin.
    destruct (row_id r =? id) eqn:E; simpl; [rewrite E |]; try reflexivity.
    rewrite E. reflexivity.
Qed.

Lemma stop_then_start_round_trip_witness :
  exists w1 w2,
    containerService.stopContainer Scenario.nominal 1 Scenario.created
    = (Ok "Container stopped successfully", w1)
    /\ containerService.startContainer Scenario.nominal 1 w1
       = (Ok "Container started successfully", w2)
    /\ map status (containers (catalog w2)) = map status (containers (catalog Scenario.created)).
Proof.
  assert (Hsel : exists c dc,
             pool.select_container 1 (catalog Scenario.created) = [c]
             /\ status c = running
             /\ dockerService.find_container (container_identifier c)
                  (runtime Scenario.created) = Some dc
             /\ Running dc = true).
  { do 2 eexists. repeat split; reflexivity. }
  destruct Hsel as (c & dc & Hsel & Hst & Hfind & Hrun).
  destruct (@stop_then_start_round_trip Scenario.nominal 1 Scenario.created c dc)
    as (w1 & w2 & H1 & H2 & _ & _ & Hs & _);
    [intros q; reflexivity | reflexivity | reflexivity | exact Hsel | exact Hst
     | exact Hfind | exact Hrun |].
  exists w1, w2. split; [exact H1 |]. split; [exact H2 | exact Hs].
Defined.
